(** * A shallow embedding of the VK friends parser (vk_task.py)

    The development follows the source file top to bottom:
    Python values and exceptions, [HttpClient], [Paginator],
    [FriendsParser] (extraction, report building, writers), and then the
    properties of each component.

    Scope of the model.  JSON values are modelled without floating-point
    numbers; strings are sequences of 8-bit characters (code points below
    256), on which the regular-expression class [\d] is exactly [0-9]. *)

From Stdlib Require Import ZArith List String Ascii Bool Lia.
From Stdlib Require Import Sorted Permutation DecimalString.
Import ListNotations.
Local Open Scope list_scope.
Local Open Scope string_scope.

(* ================================================================== *)
(** * Python values *)
(* ================================================================== *)

(** A JSON-like Python value.  A [dict] keeps its insertion order, as
    Python dictionaries do, so it is an association list. *)
#[warnings="-register-all"]
Inductive value : Type :=
| VNone
| VBool (b : bool)
| VInt (z : Z)
| VStr (s : string)
| VList (l : list value)
| VDict (d : list (string * value)).

Definition dict : Type := list (string * value).

(** [type(v).__name__] *)
Definition type_name (v : value) : string :=
  match v with
  | VNone => "NoneType"
  | VBool _ => "bool"
  | VInt _ => "int"
  | VStr _ => "str"
  | VList _ => "list"
  | VDict _ => "dict"
  end.

(** [bool(v)] *)
Definition truthy (v : value) : bool :=
  match v with
  | VNone => false
  | VBool b => b
  | VInt z => negb (Z.eqb z 0)
  | VStr s => negb (String.eqb s "")
  | VList l => match l with [] => false | _ => true end
  | VDict d => match d with [] => false | _ => true end
  end.

(* ================================================================== *)
(** * Exceptions *)
(* ================================================================== *)

Inductive exn_class : Type :=
| Exception
| TypeError
| ValueError
| JSONDecodeError
| UnicodeEncodeError
| LookupError
| KeyError
| IndexError
| AttributeError
| OSError
| FileNotFoundError
| PermissionError
| RequestException
| ConnectionError.

Definition exn_class_eqb (a b : exn_class) : bool :=
  match a, b with
  | Exception, Exception | TypeError, TypeError | ValueError, ValueError
  | JSONDecodeError, JSONDecodeError
  | UnicodeEncodeError, UnicodeEncodeError
  | LookupError, LookupError | KeyError, KeyError
  | IndexError, IndexError | AttributeError, AttributeError
  | OSError, OSError | FileNotFoundError, FileNotFoundError
  | PermissionError, PermissionError
  | RequestException, RequestException
  | ConnectionError, ConnectionError => true
  | _, _ => false
  end.

(** The proper base classes of a class, nearest first.  [IOError] is an
    alias of [OSError]; the [requests] exceptions derive from it. *)
Definition bases (c : exn_class) : list exn_class :=
  match c with
  | Exception => []
  | TypeError | ValueError | LookupError | AttributeError | OSError =>
      [Exception]
  | JSONDecodeError | UnicodeEncodeError => [ValueError; Exception]
  | KeyError | IndexError => [LookupError; Exception]
  | FileNotFoundError | PermissionError | RequestException =>
      [OSError; Exception]
  | ConnectionError => [RequestException; OSError; Exception]
  end.

Definition issubclass (c d : exn_class) : bool :=
  existsb (exn_class_eqb d) (c :: bases c).

Definition IOError : exn_class := OSError.

(** An exception object: its class and [str(e)]. *)
Record exn : Type := mk_exn { exn_cls : exn_class; exn_str : string }.

Definition isinstance (e : exn) (c : exn_class) : bool :=
  issubclass (exn_cls e) c.

(** [except (c1, c2, ...)] *)
Definition caught_by (e : exn) (cs : list exn_class) : bool :=
  existsb (isinstance e) cs.

Inductive result (A : Type) : Type :=
| Ok (a : A)
| Raise (e : exn).
Arguments Ok {A} a.
Arguments Raise {A} e.

Definition rbind {A B} (r : result A) (k : A -> result B) : result B :=
  match r with
  | Ok a => k a
  | Raise e => Raise e
  end.

Declare Scope result_scope.
Delimit Scope result_scope with result.
Notation "x <- c ;; k" := (rbind c (fun x => k))
  (at level 61, c at next level, right associativity) : result_scope.

(** [try: body  except cs: handler] *)
Definition try_except {A} (body : result A) (cs : list exn_class)
           (handler : exn -> result A) : result A :=
  match body with
  | Ok a => Ok a
  | Raise e => if caught_by e cs then handler e else Raise e
  end.

(* ================================================================== *)
(** * Dictionaries and subscripting *)
(* ================================================================== *)

Fixpoint dict_lookup (d : dict) (k : string) : option value :=
  match d with
  | [] => None
  | (k', v) :: d' => if String.eqb k' k then Some v else dict_lookup d' k
  end.

(** [k in d] *)
Definition dict_has (d : dict) (k : string) : bool :=
  match dict_lookup d k with Some _ => true | None => false end.

(** [d.get(k)], default [None] *)
Definition dict_get (d : dict) (k : string) : value :=
  match dict_lookup d k with Some v => v | None => VNone end.

(** [d[k] = v]: an existing key keeps its position, a new key goes last *)
Fixpoint dict_set (d : dict) (k : string) (v : value) : dict :=
  match d with
  | [] => [(k, v)]
  | (k', v') :: d' =>
      if String.eqb k' k then (k', v) :: d' else (k', v') :: dict_set d' k v
  end.

(** [list(d.keys())] *)
Definition dict_keys (d : dict) : list string := map fst d.

(** [repr] of a string key; exact for the keys the program uses, which
    hold no quote, backslash or non-printable character. *)
Definition repr_str (s : string) : string := "'" ++ s ++ "'".

(** [d[k]] on a dictionary *)
Definition dict_getitem (d : dict) (k : string) : result value :=
  match dict_lookup d k with
  | Some v => Ok v
  | None => Raise (mk_exn KeyError (repr_str k))
  end.

(** [v[k]] for a string subscript [k] on an arbitrary value *)
Definition py_getitem (v : value) (k : string) : result value :=
  match v with
  | VDict d => dict_getitem d k
  | VList _ =>
      Raise (mk_exn TypeError
                    "list indices must be integers or slices, not str")
  | VStr _ =>
      Raise (mk_exn TypeError "string indices must be integers, not 'str'")
  | _ =>
      Raise (mk_exn TypeError
                    ("'" ++ type_name v ++ "' object is not subscriptable"))
  end.

(** [v.get(k)] on an arbitrary value: only dictionaries have [get] *)
Definition py_get_method (v : value) (k : string) : result value :=
  match v with
  | VDict d => Ok (dict_get d k)
  | _ =>
      Raise (mk_exn AttributeError
                    ("'" ++ type_name v ++ "' object has no attribute 'get'"))
  end.

(* ================================================================== *)
(** * [datetime.strptime(s, "%d.%m.%Y")] and [date.isoformat()] *)
(* ================================================================== *)

(** The standard library compiles the format to the regular expression
<<
  (?P<d>3[0-1]|[1-2]\d|0[1-9]|[1-9]| [1-9])\.
  (?P<m>1[0-2]|0[1-9]|[1-9])\.(?P<Y>\d\d\d\d)
>>
    matches it at the start of the text, rejects any text left over, and
    then builds the date, which checks the ranges of year and day. *)

Definition cclass : Type := ascii -> bool.

Definition in_range (lo hi : ascii) : cclass :=
  fun c => (N.leb (N_of_ascii lo) (N_of_ascii c)
            && N.leb (N_of_ascii c) (N_of_ascii hi))%bool.

Definition is_char (a : ascii) : cclass := Ascii.eqb a.

(** The class [\d] on the 8-bit characters of these strings: the digits
    0 to 9.  In Python [\d] and [int] also take the decimal digits of
    other scripts, all of them outside ASCII; a statement that depends
    on what is not a digit is therefore made for ASCII text. *)
Definition is_digit : cclass := in_range "0" "9".

(** One alternative: a fixed sequence of character classes.  Returns the
    matched text and the rest. *)
Fixpoint match_seq (cs : list cclass) (s : string)
  : option (string * string) :=
  match cs with
  | [] => Some (EmptyString, s)
  | c :: cs' =>
      match s with
      | EmptyString => None
      | String a s' =>
          if c a then
            match match_seq cs' s' with
            | Some (t, r) => Some (String a t, r)
            | None => None
            end
          else None
      end
  end.

(** A sequence of groups, each an ordered choice of alternatives, matched
    with backtracking: the first alternative after which the remaining
    groups match is taken. *)
Fixpoint match_groups (gs : list (list (list cclass))) (s : string)
  : option (list string * string) :=
  match gs with
  | [] => Some ([], s)
  | alts :: gs' =>
      (fix choose (alts : list (list cclass)) :=
         match alts with
         | [] => None
         | a :: alts' =>
             match match_seq a s with
             | Some (t, r) =>
                 match match_groups gs' r with
                 | Some (ts, r') => Some (t :: ts, r')
                 | None => choose alts'
                 end
             | None => choose alts'
             end
         end) alts
  end.

Definition re_d : list (list cclass) :=
  [ [is_char "3"; in_range "0" "1"];
    [in_range "1" "2"; is_digit];
    [is_char "0"; in_range "1" "9"];
    [in_range "1" "9"];
    [is_char " "; in_range "1" "9"] ].

Definition re_m : list (list cclass) :=
  [ [is_char "1"; in_range "0" "2"];
    [is_char "0"; in_range "1" "9"];
    [in_range "1" "9"] ].

Definition re_Y : list (list cclass) :=
  [ [is_digit; is_digit; is_digit; is_digit] ].

Definition re_dot : list (list cclass) := [ [is_char "."] ].

(** The compiled format ["%d.%m.%Y"] *)
Definition format_regex : list (list (list cclass)) :=
  [re_d; re_dot; re_m; re_dot; re_Y].

Definition digit_val (c : ascii) : Z := Z.of_N (N_of_ascii c) - 48.

Fixpoint digits_value (acc : Z) (s : string) : Z :=
  match s with
  | EmptyString => acc
  | String c s' => digits_value (10 * acc + digit_val c) s'
  end.

(** [int(text)] on the text of a group: decimal digits, after an optional
    leading blank (which [int] strips). *)
Definition int_of_group (s : string) : Z :=
  match s with
  | String " " s' => digits_value 0 s'
  | _ => digits_value 0 s
  end.

Record date : Type := mk_date { year : Z; month : Z; day : Z }.

Definition is_leap (y : Z) : bool :=
  ((y mod 4 =? 0) && (negb (y mod 100 =? 0) || (y mod 400 =? 0)))%Z%bool.

Definition days_in_month (y m : Z) : Z :=
  if (m =? 2)%Z then (if is_leap y then 29 else 28)%Z
  else if ((m =? 4) || (m =? 6) || (m =? 9) || (m =? 11))%Z%bool then 30%Z
  else 31%Z.

(** [datetime.date(y, m, d)]: [MINYEAR] is 1 *)
Definition make_date (y m d : Z) : result date :=
  if (y <? 1)%Z then
    Raise (mk_exn ValueError "year 0 is out of range")
  else if (days_in_month y m <? d)%Z then
    Raise (mk_exn ValueError "day is out of range for month")
  else Ok (mk_date y m d).

(** [datetime.strptime(s, "%d.%m.%Y")] on a string *)
Definition strptime_str (s : string) : result date :=
  match match_groups format_regex s with
  | Some ([d; _; m; _; y], EmptyString) =>
      make_date (int_of_group y) (int_of_group m) (int_of_group d)
  | Some (_, rest) =>
      Raise (mk_exn ValueError ("unconverted data remains: " ++ rest))
  | None =>
      Raise (mk_exn ValueError
               ("time data " ++ repr_str s
                ++ " does not match format '%d.%m.%Y'"))
  end.

(** [datetime.strptime(v, "%d.%m.%Y")] on any value: the first argument
    must be a [str]. *)
Definition strptime (v : value) : result date :=
  match v with
  | VStr s => strptime_str s
  | _ =>
      Raise (mk_exn TypeError
               ("strptime() argument 1 must be str, not " ++ type_name v))
  end.

Definition digit_char (n : Z) : ascii :=
  ascii_of_N (48 + Z.to_N (n mod 10)).

Definition pad2 (n : Z) : string :=
  String (digit_char (n / 10)) (String (digit_char n) EmptyString).

Definition pad4 (n : Z) : string :=
  String (digit_char (n / 1000)) (String (digit_char (n / 100))
    (String (digit_char (n / 10)) (String (digit_char n) EmptyString))).

(** [date.isoformat()], that is ["%04d-%02d-%02d"]; a date built by
    [strptime_str] has a year of four digits. *)
Definition isoformat (dt : date) : string :=
  pad4 (year dt) ++ "-" ++ pad2 (month dt) ++ "-" ++ pad2 (day dt).

(* ================================================================== *)
(** * Comparison, iteration and [sorted] *)
(* ================================================================== *)

(** [bool] is a subclass of [int] *)
Definition int_of_num (v : value) : option Z :=
  match v with
  | VBool b => Some (if b then 1 else 0)%Z
  | VInt z => Some z
  | _ => None
  end.

(** [a == b] *)
Fixpoint py_eq (a b : value) {struct a} : bool :=
  match a, b with
  | VNone, VNone => true
  | VStr s, VStr t => String.eqb s t
  | VList l, VList m =>
      (fix go (l m : list value) {struct l} : bool :=
         match l, m with
         | [], [] => true
         | x :: l', y :: m' => py_eq x y && go l' m'
         | _, _ => false
         end) l m
  | VDict d, VDict e =>
      Nat.eqb (List.length d) (List.length e)
      && (fix go (d : list (string * value)) : bool :=
            match d with
            | [] => true
            | (k, v) :: d' =>
                match dict_lookup e k with
                | Some w => py_eq v w
                | None => false
                end && go d'
            end) d
  | _, _ =>
      match int_of_num a, int_of_num b with
      | Some x, Some y => Z.eqb x y
      | _, _ => false
      end
  end.

Definition not_supported (op : string) (a b : value) : exn :=
  mk_exn TypeError
    ("'" ++ op ++ "' not supported between instances of '"
     ++ type_name a ++ "' and '" ++ type_name b ++ "'").

(** [a < b]: numbers by value, strings by code points, lists
    lexicographically; no other pair of types is ordered. *)
Fixpoint py_lt (a b : value) {struct a} : result bool :=
  match a, b with
  | VStr s, VStr t => Ok (String.ltb s t)
  | VList l, VList m =>
      (fix go (l m : list value) {struct l} : result bool :=
         match l, m with
         | [], [] => Ok false
         | [], _ :: _ => Ok true
         | _ :: _, [] => Ok false
         | x :: l', y :: m' => if py_eq x y then go l' m' else py_lt x y
         end) l m
  | _, _ =>
      match int_of_num a, int_of_num b with
      | Some x, Some y => Ok (Z.ltb x y)
      | _, _ => Raise (not_supported "<" a b)
      end
  end.

Fixpoint chars_of (s : string) : list value :=
  match s with
  | EmptyString => []
  | String c s' => VStr (String c EmptyString) :: chars_of s'
  end.

(** The items [list.extend(v)] appends: [v] must be iterable *)
Definition py_iter (v : value) : result (list value) :=
  match v with
  | VList l => Ok l
  | VStr s => Ok (chars_of s)
  | VDict d => Ok (map (fun kv => VStr (fst kv)) d)
  | _ =>
      Raise (mk_exn TypeError
                    ("'" ++ type_name v ++ "' object is not iterable"))
  end.

(** [len(v)] *)
Definition py_len (v : value) : result Z :=
  match v with
  | VList l => Ok (Z.of_nat (List.length l))
  | VStr s => Ok (Z.of_nat (String.length s))
  | VDict d => Ok (Z.of_nat (List.length d))
  | _ =>
      Raise (mk_exn TypeError
                    ("object of type '" ++ type_name v ++ "' has no len()"))
  end.

Fixpoint mapM {A B} (f : A -> result B) (l : list A) : result (list B) :=
  match l with
  | [] => Ok []
  | x :: l' =>
      (y <- f x ;; ys <- mapM f l' ;; Ok (y :: ys))%result
  end.

Section Sorted.
Context {A : Type}.

(** Insertion of an element that was in front of all the elements of
    [l] in the input: it passes only the elements strictly below it, so
    it stays in front of its equals. *)
Fixpoint insert (x : value * A) (l : list (value * A))
  : result (list (value * A)) :=
  match l with
  | [] => Ok [x]
  | y :: l' =>
      (b <- py_lt (fst y) (fst x) ;;
       if b : bool then (r <- insert x l' ;; Ok (y :: r))
       else Ok (x :: y :: l'))%result
  end.

Fixpoint sort_decorated (l : list (value * A))
  : result (list (value * A)) :=
  match l with
  | [] => Ok []
  | x :: l' => (s <- sort_decorated l' ;; insert x s)%result
  end.

(** [sorted(l, key=key)]: the key of every element is computed first,
    then the elements are put in order by a stable sort that compares
    keys with [<] only. *)
Definition sorted (key : A -> result value) (l : list A)
  : result (list A) :=
  (keys <- mapM key l ;;
   s <- sort_decorated (combine keys l) ;;
   Ok (map snd s))%result.
End Sorted.

(* ================================================================== *)
(** * The world: network, file system and log *)
(* ================================================================== *)

(** The query parameters of a request; [v] is the number 5.131, kept as
    its text. *)
Record params : Type := mk_params {
  p_access_token : string;
  p_user_id : Z;
  p_offset : Z;
  p_count : Z;
  p_fields : string;
  p_v : string
}.

(** What [requests.request] gives back: the status code and the outcome
    of [response.json()]. *)
Record response : Type := mk_response {
  status_code : Z;
  json : result value
}.

(** What a file opened for writing holds. *)
Inductive document : Type :=
| EmptyFile
| CsvFile (delimiter : string) (header : list string)
          (rows : list (list value))
| JsonFile (data : list dict)
| YamlFile (data : list dict)
| PartialFile.

Inductive log_event : Type :=
| LogExtract (first_name last_name : value)
| LogInfo (msg : string).

(** The state the program acts on, with the behaviour of its
    environment: [network] answers a request (or fails), [open_fault]
    tells whether opening a file for writing fails, [dump_fault] whether
    serialising into an opened file fails, and with which exception. *)
Record world : Type := mk_world {
  network : string -> string -> params -> result response;
  open_fault : string -> option exn;
  dump_fault : string -> option exn;
  sent : list params;
  files : list (string * document);
  log : list log_event
}.

Definition M (A : Type) : Type := world -> result A * world.

Definition ret {A} (a : A) : M A := fun w => (Ok a, w).

Definition raise {A} (e : exn) : M A := fun w => (Raise e, w).

Definition bind {A B} (c : M A) (k : A -> M B) : M B :=
  fun w =>
    match c w with
    | (Ok a, w') => k a w'
    | (Raise e, w') => (Raise e, w')
    end.

Definition lift {A} (r : result A) : M A := fun w => (r, w).

Declare Scope world_scope.
Delimit Scope world_scope with world.
Notation "x <- c ;; k" := (bind c (fun x => k))
  (at level 61, c at next level, right associativity) : world_scope.
Notation "c ;; k" := (bind c (fun _ => k))
  (at level 61, right associativity) : world_scope.

(** [try: body  except cs as e: handler] with effects: what the body
    did before raising stays done. *)
Definition try_exceptM {A} (body : M A) (cs : list exn_class)
           (handler : exn -> M A) : M A :=
  fun w =>
    match body w with
    | (Ok a, w') => (Ok a, w')
    | (Raise e, w') => if caught_by e cs then handler e w' else (Raise e, w')
    end.

Definition set_sent (w : world) (s : list params) : world :=
  mk_world (network w) (open_fault w) (dump_fault w) s (files w) (log w).

Definition set_files (w : world) (f : list (string * document)) : world :=
  mk_world (network w) (open_fault w) (dump_fault w) (sent w) f (log w).

Definition set_log (w : world) (l : list log_event) : world :=
  mk_world (network w) (open_fault w) (dump_fault w) (sent w) (files w) l.

(** [logger.info(...)] *)
Definition logger_info (ev : log_event) : M unit :=
  fun w => (Ok tt, set_log w (log w ++ [ev])).

Fixpoint file_set (fs : list (string * document)) (name : string)
         (doc : document) : list (string * document) :=
  match fs with
  | [] => [(name, doc)]
  | (n, d) :: fs' =>
      if String.eqb n name then (n, doc) :: fs'
      else (n, d) :: file_set fs' name doc
  end.

(** [open(name, "w")]: fails as the environment says, else creates or
    truncates the file. *)
Definition open_w (name : string) : M unit :=
  fun w =>
    match open_fault w name with
    | Some e => (Raise e, w)
    | None => (Ok tt, set_files w (file_set (files w) name EmptyFile))
    end.

(** Writing [doc] into the opened file [name]; a failure leaves a file
    of unspecified content. *)
Definition write_doc (name : string) (doc : document) : M unit :=
  fun w =>
    match dump_fault w name with
    | Some e => (Raise e, set_files w (file_set (files w) name PartialFile))
    | None => (Ok tt, set_files w (file_set (files w) name doc))
    end.

Definition string_of_Z (z : Z) : string :=
  NilZero.string_of_int (Z.to_int z).

Definition URL : string := "https://api.vk.com/method/friends.get".

(* ================================================================== *)
(** * [HttpClient] *)
(* ================================================================== *)

Module HttpClient.

Definition check_response (response : response) : result value :=
  if (status_code response =? 200)%Z then json response
  else
    let error_msg :=
      "Your request returned " ++ string_of_Z (status_code response)
      ++ " status code." in
    let error_msg :=
      if (status_code response =? 404)%Z then
        error_msg ++ " The requested resource wasn't found."
      else if (status_code response =? 500)%Z then
        error_msg ++ " The server encountered an internal error."
      else error_msg in
    Raise (mk_exn Exception error_msg).

(** The request is sent (and counted in [sent]) whatever its outcome. *)
Definition request (method url : string) (params : params) : M value :=
  fun w =>
    let w' := set_sent w (sent w ++ [params]) in
    match network w method url params with
    | Raise e => (Raise e, w')
    | Ok response => (check_response response, w')
    end.

End HttpClient.

(* ================================================================== *)
(** * [Paginator] *)
(* ================================================================== *)

Module Paginator.

Record t : Type := mk {
  access_token : string;
  user_id : Z;
  count : Z
}.

(** [Paginator(user_id, access_token)], [count] defaulting to 1000 *)
Definition init (user_id : Z) (access_token : string) : t :=
  mk access_token user_id 1000.

Definition get_friends (self : t) (offset : Z) : M value :=
  let params :=
    mk_params (access_token self) (user_id self) offset (count self)
              "country, city ,bdate, sex" "5.131" in
  try_exceptM
    (friends_request <- HttpClient.request "get" URL params ;;
     envelope <- lift (py_getitem friends_request "response") ;;
     lift (py_getitem envelope "items"))%world
    [Exception]
    (fun e =>
       raise (mk_exn Exception
                ("Error occurred while requesting friends list: "
                 ++ exn_str e))).

(** The [while True] loop of [get_all_friends]; [None] when [fuel]
    iterations were not enough to leave it. *)
Fixpoint get_all_friends_loop (fuel : nat) (self : t) (count offset : Z)
         (friends_list : list value) (w : world)
  : option (result (list value) * world) :=
  match fuel with
  | O => None
  | S fuel' =>
      match get_friends self offset w with
      | (Raise e, w') => Some (Raise e, w')
      | (Ok friends, w') =>
          match py_iter friends with
          | Raise e => Some (Raise e, w')
          | Ok items =>
              let friends_list := (friends_list ++ items)%list in
              match py_len friends with
              | Raise e => Some (Raise e, w')
              | Ok n =>
                  if (n <? count)%Z then Some (Ok friends_list, w')
                  else get_all_friends_loop fuel' self count
                         (offset + count)%Z friends_list w'
              end
          end
      end
  end.

(** [get_all_friends(count)]; the parameter defaults to 1000 and is not
    the [count] attribute of [self]. *)
Definition get_all_friends (fuel : nat) (self : t) (count : Z) (w : world)
  : option (result (list value) * world) :=
  get_all_friends_loop fuel self count 0%Z [] w.

End Paginator.

(* ================================================================== *)
(** * [FriendsParser] *)
(* ================================================================== *)

Module FriendsParser.

Record t : Type := mk {
  user_id : Z;
  access_token : string;
  output_format : string;
  output_name : string;
  paginator : Paginator.t
}.

Definition init (user_id : Z) (access_token output_format
                                            output_name : string) : t :=
  mk user_id access_token output_format output_name
     (Paginator.init user_id access_token).

Definition FIELDS : list string :=
  ["first_name"; "last_name"; "country"; "city"; "bdate"; "sex"].

Definition parse (fuel : nat) (self : t) (w : world)
  : option (result (list value) * world) :=
  Paginator.get_all_friends fuel (paginator self) 1000%Z w.

Definition get_value_from_data (friend : dict) (key : string)
  : result value :=
  let element := dict_get friend key in
  if truthy element then py_get_method element "title"
  else Ok element.

(** When [ValueError] is caught the function falls off its end and so
    returns [None]. *)
Definition get_date_value (friend : dict) (key : string) : result value :=
  let date := dict_get friend key in
  match date with
  | VNone => Ok VNone
  | _ =>
      try_except
        (date_obj <- strptime date ;;
         Ok (VStr (isoformat date_obj)))%result
        [ValueError]
        (fun _ => Ok VNone)
  end.

(** The body of the loop of [extract_data] for one field *)
Definition extract_field (friend person : dict) (field : string)
  : result dict :=
  if existsb (String.eqb field) ["country"; "city"] then
    (value <- get_value_from_data friend field ;;
     Ok (dict_set person field value))%result
  else if String.eqb field "bdate" then
    (value <- get_date_value friend "bdate" ;;
     Ok (dict_set person field value))%result
  else Ok (dict_set person field (dict_get friend field)).

Fixpoint extract_loop (friend person : dict) (fields : list string)
  : result dict :=
  match fields with
  | [] => Ok person
  | field :: fields' =>
      (person' <- extract_field friend person field ;;
       extract_loop friend person' fields')%result
  end.

Definition extract_data (friend : dict) : result dict :=
  extract_loop friend [] FIELDS.

Definition file_name (self : t) : string :=
  output_name self ++ "." ++ output_format self.

Definition error_event (self : t) : log_event :=
  LogInfo ("Error while creating " ++ file_name self ++ " file").

(** [friends_list[0]] *)
Definition first_item (friends_list : list dict) : result dict :=
  match friends_list with
  | d :: _ => Ok d
  | [] => Raise (mk_exn IndexError "list index out of range")
  end.

(** What [csv.DictWriter.writerow] makes of a row: a key outside the
    field names is an error, a missing field is written empty. *)
Definition dict_to_list (fieldnames : list string) (row : dict)
  : result (list value) :=
  let wrong_fields :=
    filter (fun k => negb (existsb (String.eqb k) fieldnames))
           (dict_keys row) in
  match wrong_fields with
  | [] =>
      Ok (map (fun k => match dict_lookup row k with
                        | Some v => v
                        | None => VStr ""
                        end) fieldnames)
  | _ =>
      Raise (mk_exn ValueError
               ("dict contains fields not in fieldnames: "
                ++ String.concat ", " (map repr_str wrong_fields)))
  end.

Fixpoint write_rows (name delimiter : string) (header : list string)
         (written : list (list value)) (rows : list dict) : M unit :=
  match rows with
  | [] => ret tt
  | row :: rows' =>
      (cells <- lift (dict_to_list header row) ;;
       write_doc name (CsvFile delimiter header (written ++ [cells])) ;;
       write_rows name delimiter header (written ++ [cells]) rows')%world
  end.

Definition tab : string := String (ascii_of_nat 9) EmptyString.

Definition write_csv_tsv_file (self : t) (friends_list : list dict)
  : M unit :=
  let delimiter :=
    if String.eqb (output_format self) "csv" then "," else tab in
  try_exceptM
    (open_w (file_name self) ;;
     first <- lift (first_item friends_list) ;;
     write_doc (file_name self)
               (CsvFile delimiter (dict_keys first) []) ;;
     write_rows (file_name self) delimiter (dict_keys first) []
                friends_list)%world
    [TypeError; ValueError; IOError; IndexError]
    (fun _ => logger_info (error_event self)).

Definition write_json_file (self : t) (friends_list : list dict)
  : M unit :=
  try_exceptM
    (open_w (file_name self) ;;
     write_doc (file_name self) (JsonFile friends_list))%world
    [TypeError; IOError]
    (fun _ => logger_info (error_event self)).

Definition write_yaml_file (self : t) (friends_list : list dict)
  : M unit :=
  try_exceptM
    (open_w (file_name self) ;;
     write_doc (file_name self) (YamlFile friends_list))%world
    [TypeError; IOError]
    (fun _ => logger_info (error_event self)).

(** The [for] loop of [create_report] over the sorted records *)
Fixpoint report_loop (sorted_friends report_list : list dict)
  : M (list dict) :=
  match sorted_friends with
  | [] => ret report_list
  | friend :: rest =>
      (current_friend <- lift (extract_data friend) ;;
       first_name <- lift (dict_getitem current_friend "first_name") ;;
       last_name <- lift (dict_getitem current_friend "last_name") ;;
       logger_info (LogExtract first_name last_name) ;;
       report_loop rest (report_list ++ [current_friend]))%world
  end.

(** The sort key [lambda d: d["first_name"]] *)
Definition first_name_key (d : dict) : result value :=
  dict_getitem d "first_name".

(** The first part of [create_report]: sorting and extraction *)
Definition build_report_list (friends_list : list dict) : M (list dict) :=
  (sorted_friends <- lift (sorted first_name_key friends_list) ;;
   report_loop sorted_friends [])%world.

Definition output_formats (self : t)
  : list (string * (list dict -> M unit)) :=
  [ ("csv", write_csv_tsv_file self);
    ("json", write_json_file self);
    ("tsv", write_csv_tsv_file self);
    ("yaml", write_yaml_file self) ].

Fixpoint lookup_format {V : Type} (table : list (string * V))
         (k : string) : option V :=
  match table with
  | [] => None
  | (k', v) :: table' =>
      if String.eqb k' k then Some v else lookup_format table' k
  end.

Definition create_report (self : t) (friends_list : list dict) : M unit :=
  (report_list <- build_report_list friends_list ;;
   match lookup_format (output_formats self) (output_format self) with
   | Some write_method => write_method report_list
   | None =>
       raise (mk_exn ValueError
                ("Invalid output file format: " ++ output_format self
                 ++ ". Allowed formats: csv, json, tsv, yaml"))
   end)%world.

End FriendsParser.

(* ================================================================== *)
(** * [main.py] *)
(* ================================================================== *)

Module Main.

(** The parsed command line: [user_id], [access_token], and the options
    [--output_format] (one of csv, json, tsv, yaml; csv when omitted) and
    [--output_name] ([report] when omitted). *)
Record args : Type := mk_args {
  user_id : Z;
  access_token : string;
  output_format : string;
  output_name : string
}.


(** The items that are dictionaries *)
Fixpoint dicts_of (items : list value) : list dict :=
  match items with
  | [] => []
  | VDict d :: items' => d :: dicts_of items'
  | _ :: items' => dicts_of items'
  end.

(** [vk_parser.create_report(friends)] on what [parse] returned, items
    that need not be dictionaries.  [sorted] computes the key
    [d["first_name"]] of every item first, and subscripting anything but a
    dictionary raises; so either the first failing key raises, or every
    item is a dictionary and [create_report] goes on with them. *)
Definition create_report (self : FriendsParser.t) (friends : list value)
  : M unit :=
  match mapM (fun d => py_getitem d "first_name") friends with
  | Raise e => raise e
  | Ok _ => FriendsParser.create_report self (dicts_of friends)
  end.

(** The body of [if __name__ == '__main__'], after [parse_args] *)
Definition main (fuel : nat) (args : args) (w : world)
  : option (result unit * world) :=
  let vk_parser :=
    FriendsParser.init (user_id args) (access_token args)
                       (output_format args) (output_name args) in
  match FriendsParser.parse fuel vk_parser w with
  | None => None
  | Some (Raise e, w') => Some (Raise e, w')
  | Some (Ok friends, w') => Some (create_report vk_parser friends w')
  end.

End Main.

(* ================================================================== *)
(** * Vocabulary of the specification *)
(* ================================================================== *)

(** The shapes the remote API documents for the fields that extraction
    looks into: [country] and [city] are absent, falsy or a mapping;
    [bdate] is absent, [None] or a string. *)
Definition title_shaped (v : value) : Prop :=
  truthy v = false \/ exists d, v = VDict d.

Definition bdate_shaped (v : value) : Prop :=
  v = VNone \/ exists s, v = VStr s.

Definition well_shaped (friend : dict) : Prop :=
  title_shaped (dict_get friend "country")
  /\ title_shaped (dict_get friend "city")
  /\ bdate_shaped (dict_get friend "bdate").

(** A calendar date with a year of at most four digits *)
Definition valid_date (y m d : Z) : Prop :=
  (1 <= y <= 9999 /\ 1 <= m <= 12 /\ 1 <= d <= days_in_month y m)%Z.

(** The text has the form [YYYY-MM-DD] *)
Definition is_iso_date (s : string) : bool :=
  match s with
  | String y1 (String y2 (String y3 (String y4 (String h1
      (String m1 (String m2 (String h2
        (String d1 (String d2 EmptyString))))))))) =>
      forallb is_digit [y1; y2; y3; y4; m1; m2; d1; d2]
      && Ascii.eqb h1 "-" && Ascii.eqb h2 "-"
  | _ => false
  end.

(** The record has a [first_name] key *)
Definition has_first_name (d : dict) : Prop :=
  exists v, dict_lookup d "first_name" = Some v.

(** The record has a [first_name], and it is a string *)
Definition has_string_name (d : dict) : Prop :=
  exists s, dict_lookup d "first_name" = Some (VStr s).

(** The first name of a record that has a string for it *)
Definition name_of (d : dict) : string :=
  match dict_lookup d "first_name" with
  | Some (VStr s) => s
  | _ => EmptyString
  end.

(** Ascending order of first names, by code points *)
Definition name_le (a b : dict) : Prop :=
  String.leb (name_of a) (name_of b) = true.

(** Order of the keys of decorated elements when both are strings *)
Definition key_le {A : Type} (a b : value * A) : Prop :=
  match fst a, fst b with
  | VStr s, VStr t => String.leb s t = true
  | _, _ => False
  end.

(** The errors the writers are meant to contain: serialisation and type
    errors, and file-system errors. *)
Definition write_error (e : exn) : bool :=
  isinstance e TypeError || isinstance e OSError.

(** Every fault of the environment on opening or writing a file is such
    an error *)
Definition world_faults_are_write_errors (w : world) : Prop :=
  (forall name e, open_fault w name = Some e -> write_error e = true)
  /\ (forall name e, dump_fault w name = Some e -> write_error e = true).

(** The formats [create_report] has a writer for *)
Definition allowed_formats : list string := ["csv"; "json"; "tsv"; "yaml"].

(** The request [get_friends] sends for an offset *)
Definition page_request (self : Paginator.t) (offset : Z) : params :=
  mk_params (Paginator.access_token self) (Paginator.user_id self) offset
            (Paginator.count self) "country, city ,bdate, sex" "5.131".

(** What [get_friends] reads out of the outcome of the transport *)
Definition page_of (r : result response) : result value :=
  (response <- r ;;
   body <- HttpClient.check_response response ;;
   envelope <- py_getitem body "response" ;;
   py_getitem envelope "items")%result.

(** The exception [get_friends] raises in place of [cause] *)
Definition fetch_error (cause : exn) : exn :=
  mk_exn Exception
         ("Error occurred while requesting friends list: " ++ exn_str cause).

(** The world after the request [p] was sent *)
Definition record_request (w : world) (p : params) : world :=
  set_sent w (sent w ++ [p]).

(** A remote end that serves a backing sequence in order: the page at
    [offset] holds the next [count] items from there. *)
Definition slice (items : list value) (offset count : Z) : list value :=
  firstn (Z.to_nat count) (skipn (Z.to_nat offset) items).

(** The body [{"response": {"items": page}}] *)
Definition envelope_of (page : list value) : value :=
  VDict [("response", VDict [("items", VList page)])].

Definition backing_network (items : list value)
  : string -> string -> params -> result response :=
  fun _ _ p =>
    Ok (mk_response 200 (Ok (envelope_of
                               (slice items (p_offset p) (p_count p))))).

(** The offsets [start], [start + p], ... of [n] requests *)
Fixpoint offsets_from (start p : Z) (n : nat) : list Z :=
  match n with
  | O => []
  | S n' => start :: offsets_from (start + p) p n'
  end.

(** A world with no file, no log and a given network *)
Definition quiet_world
           (net : string -> string -> params -> result response) : world :=
  mk_world net (fun _ => None) (fun _ => None) [] [] [].

(** A remote end that serves one page and then refuses the connection *)
Definition failing_after (page : list value)
  : string -> string -> params -> result response :=
  fun _ _ p =>
    if (p_offset p =? 0)%Z then Ok (mk_response 200 (Ok (envelope_of page)))
    else Raise (mk_exn ConnectionError "Connection refused").

(** The records paired with their sort keys, once every record is known
    to have one *)
Definition decorate (l : list dict) : list (value * dict) :=
  map (fun d => (dict_get d "first_name", d)) l.

(** Nothing but the log differs between the two worlds *)
Definition only_log_changed (w w' : world) : Prop :=
  network w' = network w /\ open_fault w' = open_fault w
  /\ dump_fault w' = dump_fault w /\ sent w' = sent w
  /\ files w' = files w.



(** The writer the specification assigns to the configured format:
    delimited text for csv and tsv, structured text for json, tree text
    for yaml, none otherwise. *)
Definition matching_writer (self : FriendsParser.t)
  : option (list dict -> M unit) :=
  if String.eqb (FriendsParser.output_format self) "csv" then
    Some (FriendsParser.write_csv_tsv_file self)
  else if String.eqb (FriendsParser.output_format self) "tsv" then
    Some (FriendsParser.write_csv_tsv_file self)
  else if String.eqb (FriendsParser.output_format self) "json" then
    Some (FriendsParser.write_json_file self)
  else if String.eqb (FriendsParser.output_format self) "yaml" then
    Some (FriendsParser.write_yaml_file self)
  else None.

(** The error of [create_report] for a format without a writer *)
Definition unsupported_format_error (self : FriendsParser.t) : exn :=
  mk_exn ValueError
         ("Invalid output file format: " ++ FriendsParser.output_format self
          ++ ". Allowed formats: csv, json, tsv, yaml").

(** What running the body of a writer under its [except] clause leaves:
    no exception, and a log that is either untouched or longer by the one
    error event. *)
Definition contained (self : FriendsParser.t) (w : world)
           (r : result unit * world) : Prop :=
  fst r = Ok tt
  /\ (log (snd r) = log w
      \/ log (snd r) = (log w ++ [FriendsParser.error_event self])%list).

(** The handler of the writers: log the event, return normally *)
Definition handle_write_error (self : FriendsParser.t)
           (cs : list exn_class) (e : exn) (w : world)
  : result unit * world :=
  if caught_by e cs
  then (Ok tt, set_log w (log w ++ [FriendsParser.error_event self]))
  else (Raise e, w).

(** The [except] clause of the delimited-text writer *)
Definition csv_errors : list exn_class :=
  [TypeError; ValueError; IOError; IndexError].

(** The [except] clause of the JSON and YAML writers *)
Definition dump_errors : list exn_class := [TypeError; IOError].

(** The fault the environment raises on creating the file [name]: on
    opening it, else on writing into it *)
Definition first_fault (w : world) (name : string) : option exn :=
  match open_fault w name with
  | Some e => Some e
  | None => dump_fault w name
  end.

(** The writer logged the one error event and returned normally *)
Definition swallowed (self : FriendsParser.t) (w : world)
           (r : result unit * world) : Prop :=
  fst r = Ok tt
  /\ log (snd r) = (log w ++ [FriendsParser.error_event self])%list.

(** The writer raised [e] to its caller and logged nothing *)
Definition let_through (e : exn) (w : world)
           (r : result unit * world) : Prop :=
  fst r = Raise e /\ log (snd r) = log w.

(** The writer returned normally and logged nothing *)
Definition wrote_quietly (w : world) (r : result unit * world) : Prop :=
  fst r = Ok tt /\ log (snd r) = log w.

(** How a writer whose [except] clause names the classes [cs] ends on
    the error [e]: caught, logged and swallowed when [e] is of one of
    the classes, raised to the caller when it is not. *)
Definition handled (self : FriendsParser.t) (cs : list exn_class)
           (e : exn) (w : world) (r : result unit * world) : Prop :=
  (caught_by e cs = true -> swallowed self w r)
  /\ (caught_by e cs = false -> let_through e w r).

(** [open] refuses a file name that holds a NUL character, whatever the
    file system: [ValueError: embedded null byte]. *)
Definition has_nul (name : string) : bool :=
  existsb (Ascii.eqb zero) (list_ascii_of_string name).

Definition embedded_null (name : string) : option exn :=
  if has_nul name then Some (mk_exn ValueError "embedded null byte")
  else None.

(** The number of requests for [n] items still to be served *)
Definition requests_for (n : nat) (p : Z) : nat :=
  Z.to_nat (Z.of_nat n / p + 1).

(** A day or month as [strptime] also reads it: without a leading zero *)
Definition unpadded (n : Z) : string :=
  if (n <? 10)%Z then String (digit_char n) EmptyString else pad2 n.

(** The text holds ASCII characters only *)
Definition ascii_text (s : string) : bool :=
  forallb (fun c => (nat_of_ascii c <? 128)%nat) (list_ascii_of_string s).

(** The ways [strptime] reads a day: two digits, no leading zero, or a
    blank in place of the leading zero; and a month: two digits or no
    leading zero. *)
Definition day_text (d : Z) (t : string) : Prop :=
  t = pad2 d \/ t = unpadded d
  \/ ((d < 10)%Z /\ t = String " " (String (digit_char d) EmptyString)).

Definition month_text (m : Z) (t : string) : Prop :=
  t = pad2 m \/ t = unpadded m.

(** The content of the file of that name, if there is one *)
Fixpoint file_lookup (fs : list (string * document)) (name : string)
  : option document :=
  match fs with
  | [] => None
  | (n, d) :: fs' => if String.eqb n name then Some d else file_lookup fs' name
  end.

(** Between the two worlds no file but [name] differs, and neither the
    network nor the requests sent *)
Definition touches_only_file (name : string) (w w' : world) : Prop :=
  network w' = network w /\ open_fault w' = open_fault w
  /\ dump_fault w' = dump_fault w /\ sent w' = sent w
  /\ forall other, other <> name ->
                   file_lookup (files w') other = file_lookup (files w) other.

(** The log events of the extraction of these records *)
Definition extract_events (l : list dict) : list log_event :=
  map (fun d => LogExtract (dict_get d "first_name")
                           (dict_get d "last_name")) l.

(** Nothing but the requests sent differs between the two worlds *)
Definition only_sent_changed (w w' : world) : Prop :=
  network w' = network w /\ open_fault w' = open_fault w
  /\ dump_fault w' = dump_fault w /\ files w' = files w
  /\ log w' = log w.

(** The page a request gets: the iterable under [response.items] *)
Definition page_at (self : Paginator.t) (w : world) (offset : Z)
           (page : list value) : Prop :=
  exists v,
    page_of (network w "get" URL (page_request self offset)) = Ok v
    /\ py_iter v = Ok page.

(** A value with no iteration: [None], a boolean or a number *)
Definition not_iterable (v : value) : bool :=
  match v with
  | VNone | VBool _ | VInt _ => true
  | _ => false
  end.

(** The cells of a row under a header: the values in header order, an
    empty string where the row has no such key *)
Definition csv_cells (header : list string) (row : dict) : list value :=
  map (fun k => match dict_lookup row k with
                | Some v => v
                | None => VStr ""
                end) header.

(** The row has a key that is not in the header *)
Definition has_extra_field (header : list string) (row : dict) : bool :=
  existsb (fun k => negb (existsb (String.eqb k) header)) (dict_keys row).

(** The delimiter of the delimited-text writer *)
Definition delimiter_of (self : FriendsParser.t) : string :=
  if String.eqb (FriendsParser.output_format self) "csv"
  then "," else FriendsParser.tab.


(** The first names are in ascending order already *)
Definition names_ascending (l : list dict) : Prop :=
  StronglySorted name_le l.

(* ================================================================== *)
(** * Properties of extraction *)
(* ================================================================== *)

Lemma dict_get_lookup (d : dict) (k : string) (v : value) :
  dict_lookup d k = Some v -> dict_get d k = v.
Proof. unfold dict_get. now intros ->. Qed.

Lemma dict_get_absent (d : dict) (k : string) :
  dict_lookup d k = None -> dict_get d k = VNone.
Proof. unfold dict_get. now intros ->. Qed.

(** C3 — For every record and every key (in particular [country] and
    [city]), [get_value_from_data] returns [None] when the key is absent,
    returns the value as it is when the key is present with a falsy value
    ([None] included), and returns the [title] found inside the value
    when the value is a non-empty mapping ([None] when the mapping has no
    title).  So a country [{"id": 1, "title": "Russia"}] gives
    ["Russia"], and a country [None] gives [None]. *)
Theorem get_value_from_data_spec (friend : dict) (key : string) :
  (dict_lookup friend key = None ->
   FriendsParser.get_value_from_data friend key = Ok VNone)
  /\ (forall v, dict_lookup friend key = Some v -> truthy v = false ->
        FriendsParser.get_value_from_data friend key = Ok v)
  /\ (forall d, dict_lookup friend key = Some (VDict d) -> d <> [] ->
        FriendsParser.get_value_from_data friend key
        = Ok (dict_get d "title"))
  /\ (forall d title, dict_lookup friend key = Some (VDict d) ->
        dict_lookup d "title" = Some title ->
        FriendsParser.get_value_from_data friend key = Ok title)
  /\ (dict_lookup friend key
      = Some (VDict [("id", VInt 1); ("title", VStr "Russia")]) ->
      FriendsParser.get_value_from_data friend key = Ok (VStr "Russia"))
  /\ (dict_lookup friend key = Some VNone ->
      FriendsParser.get_value_from_data friend key = Ok VNone).
Proof.
  unfold FriendsParser.get_value_from_data.
  repeat split.
  - intros H. now rewrite (dict_get_absent _ _ H).
  - intros v H Hv. now rewrite (dict_get_lookup _ _ _ H), Hv.
  - intros d H Hd. rewrite (dict_get_lookup _ _ _ H).
    destruct d; [congruence | reflexivity].
  - intros d title H Ht. rewrite (dict_get_lookup _ _ _ H).
    destruct d as [|kv d]; [discriminate|].
    cbn [truthy py_get_method]. now rewrite (dict_get_lookup _ _ _ Ht).
  - intros H. now rewrite (dict_get_lookup _ _ _ H).
  - intros H. now rewrite (dict_get_lookup _ _ _ H).
Qed.

Lemma get_value_from_data_spec_witness :
  FriendsParser.get_value_from_data
    [("country", VDict [("id", VInt 1); ("title", VStr "Russia")])] "country"
  = Ok (VStr "Russia")
  /\ FriendsParser.get_value_from_data [("country", VNone)] "country"
     = Ok VNone
  /\ FriendsParser.get_value_from_data [("id", VInt 7)] "country" = Ok VNone
  /\ FriendsParser.get_value_from_data
       [("city", VDict [("title", VStr "Moscow")])] "city"
     = Ok (VStr "Moscow").
Proof.
  split; [|split; [|split]].
  - destruct (get_value_from_data_spec
                [("country", VDict [("id", VInt 1); ("title", VStr "Russia")])]
                "country") as (_ & _ & _ & _ & H & _).
    apply H. reflexivity.
  - destruct (get_value_from_data_spec [("country", VNone)] "country")
      as (_ & H & _).
    apply (H VNone); reflexivity.
  - destruct (get_value_from_data_spec [("id", VInt 7)] "country")
      as (H & _).
    apply H. reflexivity.
  - destruct (get_value_from_data_spec
                [("city", VDict [("title", VStr "Moscow")])] "city")
      as (_ & _ & _ & H & _).
    apply (H [("title", VStr "Moscow")]); reflexivity.
Defined.

Lemma get_value_from_data_not_mapping (friend : dict) (key : string)
      (v : value) :
  dict_lookup friend key = Some v -> truthy v = true ->
  (forall d, v <> VDict d) ->
  exists msg,
    FriendsParser.get_value_from_data friend key
    = Raise (mk_exn AttributeError msg).
Proof.
  intros H Hv Hd. unfold FriendsParser.get_value_from_data.
  rewrite (dict_get_lookup _ _ _ H), Hv.
  destruct v; cbn; eauto. now destruct (Hd d).
Qed.

Lemma extract_data_unfold (friend : dict) :
  FriendsParser.extract_data friend =
  (country <- FriendsParser.get_value_from_data friend "country" ;;
   city <- FriendsParser.get_value_from_data friend "city" ;;
   bdate <- FriendsParser.get_date_value friend "bdate" ;;
   Ok [("first_name", dict_get friend "first_name");
       ("last_name", dict_get friend "last_name");
       ("country", country); ("city", city); ("bdate", bdate);
       ("sex", dict_get friend "sex")])%result.
Proof.
  unfold FriendsParser.extract_data. cbn.
  destruct (FriendsParser.get_value_from_data friend "country"); cbn;
    [|reflexivity].
  destruct (FriendsParser.get_value_from_data friend "city"); cbn;
    [|reflexivity].
  destruct (FriendsParser.get_date_value friend "bdate"); cbn; reflexivity.
Qed.

Lemma strptime_str_raises (s : string) (e : exn) :
  strptime_str s = Raise e -> exn_cls e = ValueError.
Proof.
  unfold strptime_str, make_date.
  repeat match goal with
         | |- context [match ?x with _ => _ end] => destruct x
         end; intros H; inversion H; reflexivity.
Qed.

Lemma get_date_value_str (friend : dict) (key s : string) :
  dict_lookup friend key = Some (VStr s) ->
  FriendsParser.get_date_value friend key
  = match strptime_str s with
    | Ok dt => Ok (VStr (isoformat dt))
    | Raise _ => Ok VNone
    end.
Proof.
  intros H. unfold FriendsParser.get_date_value.
  rewrite (dict_get_lookup _ _ _ H). cbn.
  destruct (strptime_str s) as [dt|e] eqn:E; cbn; [reflexivity|].
  apply strptime_str_raises in E. unfold caught_by, isinstance. cbn.
  now rewrite E.
Qed.

Lemma get_value_from_data_total (friend : dict) (key : string) :
  title_shaped (dict_get friend key) ->
  exists v, FriendsParser.get_value_from_data friend key = Ok v.
Proof.
  unfold FriendsParser.get_value_from_data.
  intros [H | [d H]].
  - rewrite H. eauto.
  - rewrite H. destruct d; cbn; eauto.
Qed.

Lemma get_date_value_total (friend : dict) (key : string) :
  bdate_shaped (dict_get friend key) ->
  exists v, FriendsParser.get_date_value friend key = Ok v.
Proof.
  intros [H | [s H]].
  - unfold FriendsParser.get_date_value. rewrite H. eauto.
  - unfold FriendsParser.get_date_value. rewrite H. cbn.
    destruct (strptime_str s) as [dt|e] eqn:E; cbn; eauto.
    apply strptime_str_raises in E. unfold caught_by, isinstance. cbn.
    rewrite E. cbn. eauto.
Qed.

(** C9 — Whatever keys a record holds, the mapping [extract_data]
    returns has exactly the six keys [first_name], [last_name],
    [country], [city], [bdate], [sex], in this order, and [first_name],
    [last_name] and [sex] hold what the record has under these keys,
    [None] when the key is absent.  [extract_data] returns such a mapping
    for every record of the documented shapes. *)
Theorem extract_data_shape (friend : dict) :
  (forall person, FriendsParser.extract_data friend = Ok person ->
     dict_keys person = FriendsParser.FIELDS
     /\ dict_keys person
        = ["first_name"; "last_name"; "country"; "city"; "bdate"; "sex"]
     /\ dict_lookup person "first_name"
        = Some (dict_get friend "first_name")
     /\ dict_lookup person "last_name" = Some (dict_get friend "last_name")
     /\ dict_lookup person "sex" = Some (dict_get friend "sex")
     /\ (forall k, In k ["first_name"; "last_name"; "sex"] ->
           dict_lookup friend k = None -> dict_lookup person k = Some VNone))
  /\ (well_shaped friend ->
      exists person, FriendsParser.extract_data friend = Ok person).
Proof.
  rewrite extract_data_unfold. split.
  - intros person.
    destruct (FriendsParser.get_value_from_data friend "country"); cbn;
      [|discriminate].
    destruct (FriendsParser.get_value_from_data friend "city"); cbn;
      [|discriminate].
    destruct (FriendsParser.get_date_value friend "bdate"); cbn;
      [|discriminate].
    intros [= <-]. repeat split.
    intros k Hk Habs. unfold dict_get.
    cbn in Hk. destruct Hk as [<- | [<- | [<- | []]]]; cbn;
      unfold dict_get; now rewrite Habs.
  - intros (Hc & Hci & Hb).
    destruct (get_value_from_data_total _ _ Hc) as [v1 ->].
    destruct (get_value_from_data_total _ _ Hci) as [v2 ->].
    destruct (get_date_value_total _ _ Hb) as [v3 ->]. cbn. eauto.
Qed.

Lemma extract_data_shape_witness :
  dict_keys [("first_name", VStr "Bob"); ("last_name", VNone);
             ("country", VStr "Russia"); ("city", VNone);
             ("bdate", VStr "1990-03-15"); ("sex", VInt 2)]
  = FriendsParser.FIELDS
  /\ exists person,
      FriendsParser.extract_data [("id", VInt 7); ("sex", VInt 2)]
      = Ok person.
Proof.
  split.
  - destruct (extract_data_shape
                [("first_name", VStr "Bob"); ("id", VInt 7);
                 ("country",
                  VDict [("id", VInt 1); ("title", VStr "Russia")]);
                 ("bdate", VStr "15.03.1990"); ("sex", VInt 2)])
      as (H & _).
    apply (H [("first_name", VStr "Bob"); ("last_name", VNone);
              ("country", VStr "Russia"); ("city", VNone);
              ("bdate", VStr "1990-03-15"); ("sex", VInt 2)]).
    reflexivity.
  - destruct (extract_data_shape [("id", VInt 7); ("sex", VInt 2)])
      as (_ & H).
    apply H. unfold well_shaped, title_shaped, bdate_shaped. cbn. auto.
Defined.

(* ---------------------------------------------------------------- *)
(** ** Parsing a zero-padded date *)

Local Open Scope Z_scope.

Lemma digit_cases (n : Z) :
  n mod 10 = 0 \/ n mod 10 = 1 \/ n mod 10 = 2 \/ n mod 10 = 3
  \/ n mod 10 = 4 \/ n mod 10 = 5 \/ n mod 10 = 6 \/ n mod 10 = 7
  \/ n mod 10 = 8 \/ n mod 10 = 9.
Proof. pose proof (Z.mod_pos_bound n 10). lia. Qed.

Ltac digit_split n :=
  unfold digit_char;
  destruct (digit_cases n) as
    [-> | [-> | [-> | [-> | [-> | [-> | [-> | [-> | [-> | ->]]]]]]]]].

Lemma is_digit_digit_char (n : Z) : is_digit (digit_char n) = true.
Proof. digit_split n; reflexivity. Qed.

Lemma digit_val_digit_char (n : Z) : digit_val (digit_char n) = n mod 10.
Proof.
  unfold digit_val, digit_char.
  destruct (digit_cases n) as
    [E | [E | [E | [E | [E | [E | [E | [E | [E | E]]]]]]]]];
    rewrite E; reflexivity.
Qed.

Lemma int_of_group_digit (n : Z) (s : string) :
  int_of_group (String (digit_char n) s)
  = digits_value (n mod 10) s.
Proof.
  unfold int_of_group.
  rewrite <- (digit_val_digit_char n).
  digit_split n; reflexivity.
Qed.

Lemma int_of_group_pad4 (y : Z) :
  0 <= y <= 9999 -> int_of_group (pad4 y) = y.
Proof.
  intros Hy. unfold pad4. rewrite int_of_group_digit. cbn [digits_value].
  rewrite !digit_val_digit_char.
  assert (E2 : y / 100 = y / 10 / 10)
    by (rewrite Z.div_div by lia; reflexivity).
  assert (E3 : y / 1000 = y / 10 / 10 / 10)
    by (rewrite !Z.div_div by lia; reflexivity).
  rewrite E2, E3.
  pose proof (Z.div_mod y 10). pose proof (Z.div_mod (y / 10) 10).
  pose proof (Z.div_mod (y / 10 / 10) 10).
  pose proof (Z.mod_pos_bound y 10). pose proof (Z.mod_pos_bound (y / 10) 10).
  pose proof (Z.mod_pos_bound (y / 10 / 10) 10).
  assert (0 <= y / 10 / 10 / 10 < 10).
  { rewrite <- E3. split; [apply Z.div_pos; lia|].
    apply Z.div_lt_upper_bound; lia. }
  rewrite (Z.mod_small (y / 10 / 10 / 10)) by lia.
  lia.
Qed.

Lemma match_year (y : Z) (r : string) :
  match_seq [is_digit; is_digit; is_digit; is_digit] (pad4 y ++ r)
  = Some (pad4 y, r).
Proof.
  unfold pad4. cbn [match_seq String.append].
  now rewrite !is_digit_digit_char.
Qed.

Lemma match_groups_year (y : Z) :
  match_groups [re_Y] (pad4 y) = Some ([pad4 y], EmptyString).
Proof.
  unfold re_Y. cbn [match_groups].
  pose proof (match_year y EmptyString) as H.
  replace (pad4 y ++ "")%string with (pad4 y) in H by reflexivity.
  now rewrite H.
Qed.

Lemma match_groups_month (m : Z) (gs : list (list (list cclass)))
      (r : string) (ts : list string) (r' : string) :
  1 <= m <= 12 ->
  match_groups gs r = Some (ts, r') ->
  match_groups (re_m :: re_dot :: gs) (pad2 m ++ "." ++ r)
  = Some (pad2 m :: "." :: ts, r')%string.
Proof.
  intros Hm H.
  assert (C : m = 1 \/ m = 2 \/ m = 3 \/ m = 4 \/ m = 5 \/ m = 6 \/ m = 7
              \/ m = 8 \/ m = 9 \/ m = 10 \/ m = 11 \/ m = 12) by lia.
  repeat (destruct C as [-> | C]); try subst m;
    cbn; rewrite H; reflexivity.
Qed.

Lemma match_groups_day (d : Z) (gs : list (list (list cclass)))
      (r : string) (ts : list string) (r' : string) :
  1 <= d <= 31 ->
  match_groups gs r = Some (ts, r') ->
  match_groups (re_d :: re_dot :: gs) (pad2 d ++ "." ++ r)
  = Some (pad2 d :: "." :: ts, r')%string.
Proof.
  intros Hd H.
  assert (C : d = 1 \/ d = 2 \/ d = 3 \/ d = 4 \/ d = 5 \/ d = 6 \/ d = 7
              \/ d = 8 \/ d = 9 \/ d = 10 \/ d = 11 \/ d = 12 \/ d = 13
              \/ d = 14 \/ d = 15 \/ d = 16 \/ d = 17 \/ d = 18 \/ d = 19
              \/ d = 20 \/ d = 21 \/ d = 22 \/ d = 23 \/ d = 24 \/ d = 25
              \/ d = 26 \/ d = 27 \/ d = 28 \/ d = 29 \/ d = 30 \/ d = 31)
    by lia.
  repeat (destruct C as [-> | C]); try subst d;
    cbn; rewrite H; reflexivity.
Qed.

Lemma int_of_group_pad2 (n : Z) : 0 <= n <= 99 -> int_of_group (pad2 n) = n.
Proof.
  intros Hn. unfold pad2. rewrite int_of_group_digit. cbn [digits_value].
  rewrite digit_val_digit_char.
  pose proof (Z.div_mod n 10). pose proof (Z.mod_pos_bound n 10).
  assert (0 <= n / 10 < 10)
    by (split; [apply Z.div_pos; lia | apply Z.div_lt_upper_bound; lia]).
  rewrite (Z.mod_small (n / 10)) by lia. lia.
Qed.

Lemma days_in_month_le (y m : Z) : days_in_month y m <= 31.
Proof.
  unfold days_in_month.
  repeat match goal with |- context [if ?b then _ else _] => destruct b end;
    lia.
Qed.

Lemma strptime_padded (y m d : Z) :
  valid_date y m d ->
  strptime_str (pad2 d ++ "." ++ pad2 m ++ "." ++ pad4 y)
  = Ok (mk_date y m d).
Proof.
  intros (Hy & Hm & Hd).
  pose proof (days_in_month_le y m).
  unfold strptime_str, format_regex.
  rewrite (match_groups_day d _ _ [pad2 m; "."; pad4 y]%string EmptyString);
    [| lia | apply match_groups_month; [lia | apply match_groups_year]].
  rewrite int_of_group_pad4, !int_of_group_pad2 by lia.
  unfold make_date.
  destruct (Z.ltb_spec y 1); [lia|].
  destruct (Z.ltb_spec (days_in_month y m) d); [lia|]. reflexivity.
Qed.

Lemma isoformat_padded (y m d : Z) :
  isoformat (mk_date y m d) = (pad4 y ++ "-" ++ pad2 m ++ "-" ++ pad2 d)%string.
Proof. reflexivity. Qed.

Local Close Scope Z_scope.

(* ---------------------------------------------------------------- *)
(** ** The date of birth *)

Lemma is_iso_date_isoformat (dt : date) : is_iso_date (isoformat dt) = true.
Proof.
  unfold isoformat, pad4, pad2. cbn [String.append is_iso_date forallb].
  rewrite !is_digit_digit_char. reflexivity.
Qed.

(** C2 (amended: a value that is neither [None] nor a string is not
    turned into [None]) — [get_date_value] returns [None] when the key is
    absent or holds [None].  On a string it never raises: when the string
    parses as day.month.year the result is the date in the form
    YYYY-MM-DD (a zero-padded valid date [dd.mm.yyyy] gives
    [yyyy-mm-dd], ["15.03.1990"] gives ["1990-03-15"]), and on any parse
    failure, such as the year-less ["15.03"], the result is [None].  A
    value of another type raises [TypeError]. *)
Theorem get_date_value_spec (friend : dict) (key : string) :
  (dict_lookup friend key = None ->
   FriendsParser.get_date_value friend key = Ok VNone)
  /\ (dict_lookup friend key = Some VNone ->
      FriendsParser.get_date_value friend key = Ok VNone)
  /\ (forall s dt,
        dict_lookup friend key = Some (VStr s) ->
        strptime_str s = Ok dt ->
        FriendsParser.get_date_value friend key = Ok (VStr (isoformat dt))
        /\ is_iso_date (isoformat dt) = true)
  /\ (forall s e,
        dict_lookup friend key = Some (VStr s) ->
        strptime_str s = Raise e ->
        FriendsParser.get_date_value friend key = Ok VNone)
  /\ (forall y m d,
        valid_date y m d ->
        dict_lookup friend key
        = Some (VStr (pad2 d ++ "." ++ pad2 m ++ "." ++ pad4 y)) ->
        FriendsParser.get_date_value friend key
        = Ok (VStr (pad4 y ++ "-" ++ pad2 m ++ "-" ++ pad2 d)))
  /\ (dict_lookup friend key = Some (VStr "15.03.1990") ->
      FriendsParser.get_date_value friend key = Ok (VStr "1990-03-15"))
  /\ (dict_lookup friend key = Some (VStr "15.03") ->
      FriendsParser.get_date_value friend key = Ok VNone)
  /\ (forall v,
        dict_lookup friend key = Some v ->
        v <> VNone -> (forall s, v <> VStr s) ->
        FriendsParser.get_date_value friend key
        = Raise (mk_exn TypeError
                   ("strptime() argument 1 must be str, not "
                    ++ type_name v))).
Proof.
  repeat split.
  - intros H. unfold FriendsParser.get_date_value.
    now rewrite (dict_get_absent _ _ H).
  - intros H. unfold FriendsParser.get_date_value.
    now rewrite (dict_get_lookup _ _ _ H).
  - rewrite (get_date_value_str _ _ _ H). now rewrite H0.
  - apply is_iso_date_isoformat.
  - intros s e H He. rewrite (get_date_value_str _ _ _ H). now rewrite He.
  - intros y m d Hv H. rewrite (get_date_value_str _ _ _ H).
    now rewrite (strptime_padded y m d Hv).
  - intros H. now rewrite (get_date_value_str _ _ _ H).
  - intros H. now rewrite (get_date_value_str _ _ _ H).
  - intros v H Hnone Hstr. unfold FriendsParser.get_date_value.
    rewrite (dict_get_lookup _ _ _ H).
    destruct v; try reflexivity; [congruence | now destruct (Hstr s)].
Qed.

Lemma get_date_value_spec_witness :
  FriendsParser.get_date_value [("bdate", VStr "15.03.1990")] "bdate"
  = Ok (VStr "1990-03-15")
  /\ FriendsParser.get_date_value [("bdate", VStr "15.03")] "bdate"
     = Ok VNone
  /\ FriendsParser.get_date_value [("bdate", VStr "29.02.2000")] "bdate"
     = Ok (VStr "2000-02-29")
  /\ FriendsParser.get_date_value [("id", VInt 7)] "bdate" = Ok VNone.
Proof.
  split; [|split; [|split]].
  - destruct (get_date_value_spec [("bdate", VStr "15.03.1990")] "bdate")
      as (_ & _ & _ & _ & _ & H & _).
    apply H. reflexivity.
  - destruct (get_date_value_spec [("bdate", VStr "15.03")] "bdate")
      as (_ & _ & _ & H & _).
    apply (H "15.03" (mk_exn ValueError
             "time data '15.03' does not match format '%d.%m.%Y'"));
      reflexivity.
  - destruct (get_date_value_spec [("bdate", VStr "29.02.2000")] "bdate")
      as (_ & _ & _ & _ & H & _).
    apply (H 2000%Z 2%Z 29%Z); [|reflexivity].
    unfold valid_date. vm_compute. intuition discriminate.
  - destruct (get_date_value_spec [("id", VInt 7)] "bdate") as (H & _).
    apply H. reflexivity.
Defined.

(** A date of birth that is a number is not turned into [None]:
    [strptime] raises [TypeError], which [get_date_value] does not
    catch. *)
Lemma get_date_value_non_string :
  FriendsParser.get_date_value [("bdate", VInt 1990)] "bdate"
  = Raise (mk_exn TypeError "strptime() argument 1 must be str, not int")
  /\ FriendsParser.get_date_value [("bdate", VInt 1990)] "bdate" <> Ok VNone.
Proof. split; [reflexivity | discriminate]. Qed.

(* ================================================================== *)
(** * Properties of [sorted] *)
(* ================================================================== *)

(** Induction on values that reaches the elements of lists and the
    values of dictionaries *)
Lemma value_nested_ind (P : value -> Prop) :
  P VNone -> (forall b, P (VBool b)) -> (forall z, P (VInt z)) ->
  (forall s, P (VStr s)) ->
  (forall l, Forall P l -> P (VList l)) ->
  (forall d, Forall (fun kv => P (snd kv)) d -> P (VDict d)) ->
  forall v, P v.
Proof.
  intros HNone HBool HInt HStr HList HDict.
  refine (fix go (v : value) : P v :=
            match v with
            | VNone => HNone
            | VBool b => HBool b
            | VInt z => HInt z
            | VStr s => HStr s
            | VList l =>
                HList l
                  ((fix gol (l : list value) : Forall P l :=
                      match l with
                      | [] => Forall_nil P
                      | x :: l' => Forall_cons x (go x) (gol l')
                      end) l)
            | VDict d =>
                HDict d
                  ((fix god (d : list (string * value))
                    : Forall (fun kv => P (snd kv)) d :=
                      match d with
                      | [] => Forall_nil _
                      | (k, x) :: d' => Forall_cons (k, x) (go x) (god d')
                      end) d)
            end).
Qed.

Lemma string_compare_refl (s : string) : String.compare s s = Eq.
Proof.
  induction s as [|c s IH]; cbn; [reflexivity|].
  unfold Ascii.compare. now rewrite N.compare_refl.
Qed.

Lemma string_ltb_irrefl (s : string) : String.ltb s s = false.
Proof. unfold String.ltb. now rewrite string_compare_refl. Qed.

Lemma string_ltb_leb (s t : string) :
  String.ltb s t = true -> String.leb s t = true.
Proof. unfold String.ltb, String.leb. now destruct (String.compare s t). Qed.

Lemma string_not_ltb_leb (s t : string) :
  String.ltb t s = false -> String.leb s t = true.
Proof.
  unfold String.ltb, String.leb. rewrite (String.compare_antisym s t).
  now destruct (String.compare t s).
Qed.

Lemma ascii_compare_trans (a b c : ascii) (r : comparison) :
  Ascii.compare a b = r -> Ascii.compare b c = r -> Ascii.compare a c = r.
Proof.
  unfold Ascii.compare. intros H1 H2. destruct r.
  - apply N.compare_eq_iff in H1, H2. apply N.compare_eq_iff. congruence.
  - apply N.compare_lt_iff in H1, H2. apply N.compare_lt_iff.
    eapply N.lt_trans; eassumption.
  - apply N.compare_gt_iff in H1, H2. apply N.compare_gt_iff.
    eapply N.lt_trans; eassumption.
Qed.

Lemma string_leb_trans (s t u : string) :
  String.leb s t = true -> String.leb t u = true -> String.leb s u = true.
Proof.
  unfold String.leb. revert t u.
  induction s as [|a s IH]; intros [|b t] [|c u]; cbn; try congruence.
  destruct (Ascii.compare a b) eqn:Eab; try congruence;
    destruct (Ascii.compare b c) eqn:Ebc; try congruence; intros H1 H2.
  - rewrite (ascii_compare_trans _ _ _ _ Eab Ebc). now apply (IH t u).
  - apply Ascii.compare_eq_iff in Eab. subst b. now rewrite Ebc.
  - apply Ascii.compare_eq_iff in Ebc. subst c. now rewrite Eab.
  - now rewrite (ascii_compare_trans _ _ _ _ Eab Ebc).
Qed.

Lemma py_lt_irrefl (v : value) : py_lt v v <> Ok true.
Proof.
  induction v as [ | b | z | s | l IH | d IH] using value_nested_ind; cbn.
  - discriminate.
  - rewrite Z.ltb_irrefl. discriminate.
  - rewrite Z.ltb_irrefl. discriminate.
  - rewrite string_ltb_irrefl. discriminate.
  - induction IH as [|x l Hx Hl IHl]; [discriminate|].
    destruct (py_eq x x); assumption.
  - discriminate.
Qed.

Section SortedProperties.
Context {A : Type}.
Implicit Types (x y : value * A) (l r : list (value * A)).

Lemma insert_perm x l r : insert x l = Ok r -> Permutation (x :: l) r.
Proof.
  revert r. induction l as [|y l IH]; cbn; intros r.
  - intros [= <-]. apply Permutation_refl.
  - destruct (py_lt (fst y) (fst x)) as [[|]|e]; cbn; try discriminate.
    + destruct (insert x l) as [r'|e]; cbn; [|discriminate].
      intros [= <-]. rewrite perm_swap. apply perm_skip. now apply IH.
    + intros [= <-]. apply Permutation_refl.
Qed.

Lemma sort_decorated_perm l r : sort_decorated l = Ok r -> Permutation l r.
Proof.
  revert r. induction l as [|x l IH]; cbn; intros r.
  - intros [= <-]. apply perm_nil.
  - destruct (sort_decorated l) as [s|e]; cbn; [|discriminate].
    intros H. apply insert_perm in H.
    rewrite <- H. apply perm_skip. now apply IH.
Qed.

(** Stability of one insertion: an element passes no element that it is
    not strictly above, so it stays first among those selected with it. *)
Lemma insert_filter (P : value * A -> bool) x l r :
  insert x l = Ok r ->
  (forall y, In y l -> P x = true -> P y = true -> fst y = fst x) ->
  filter P r = filter P (x :: l).
Proof.
  revert r. induction l as [|y l IH]; cbn; intros r.
  - intros [= <-] _. reflexivity.
  - destruct (py_lt (fst y) (fst x)) as [[|]|e] eqn:E; cbn; try discriminate.
    + destruct (insert x l) as [r'|e]; cbn; [|discriminate].
      intros [= <-] Heq. cbn.
      rewrite (IH r' eq_refl) by (intros; apply Heq; auto).
      cbn. destruct (P x) eqn:Px, (P y) eqn:Py; try reflexivity.
      exfalso. rewrite (Heq y (or_introl eq_refl) eq_refl Py) in E.
      now apply (py_lt_irrefl (fst x)).
    + intros [= <-] _. reflexivity.
Qed.

Lemma sort_decorated_filter (P : value * A -> bool) l r :
  sort_decorated l = Ok r ->
  (forall x y, In x l -> In y l -> P x = true -> P y = true ->
               fst y = fst x) ->
  filter P r = filter P l.
Proof.
  revert r. induction l as [|x l IH]; cbn; intros r.
  - intros [= <-] _. reflexivity.
  - destruct (sort_decorated l) as [s|e] eqn:E; cbn; [|discriminate].
    intros H Heq.
    rewrite (insert_filter P x s r H).
    + cbn. rewrite (IH s eq_refl) by (intros; apply Heq; auto). reflexivity.
    + intros y Hy. apply Heq; [now left | right].
      apply sort_decorated_perm in E.
      eapply Permutation_in; [symmetry; exact E | exact Hy].
Qed.

Lemma insert_string_keys x l :
  (exists s, fst x = VStr s) ->
  Forall (fun y => exists s, fst y = VStr s) l ->
  Sorted key_le l ->
  exists r, insert x l = Ok r /\ Sorted key_le r
            /\ (forall z, key_le z x -> HdRel key_le z l -> HdRel key_le z r).
Proof.
  intros [s Hs] Hl. induction Hl as [|y l [t Ht] Hl IH]; cbn; intros Hsorted.
  - eexists; split; [reflexivity|]. split.
    + repeat constructor.
    + intros z Hz _. now constructor.
  - rewrite Ht, Hs. cbn.
    apply Sorted_inv in Hsorted as [Hsorted Hhd].
    destruct (String.ltb t s) eqn:E.
    + destruct (IH Hsorted) as (r & -> & Hr & Hhdr). cbn.
      eexists; split; [reflexivity|]. split.
      * constructor; [assumption|]. apply Hhdr; [|assumption].
        unfold key_le. rewrite Ht, Hs. now apply string_ltb_leb.
      * intros z Hz Hz'. apply HdRel_inv in Hz'. now constructor.
    + eexists; split; [reflexivity|]. split.
      * constructor; [now constructor|]. constructor.
        unfold key_le. rewrite Ht, Hs. now apply string_not_ltb_leb.
      * intros z Hz _. now constructor.
Qed.

Lemma sort_decorated_string_keys l :
  Forall (fun y => exists s, fst y = VStr s) l ->
  exists r, sort_decorated l = Ok r /\ Sorted key_le r.
Proof.
  induction 1 as [|x l Hx Hl (s & Hs & Hsorted)]; cbn.
  - eexists; split; [reflexivity | constructor].
  - rewrite Hs. cbn.
    destruct (insert_string_keys x s Hx) as (r & Hr & Hr' & _);
      [|assumption|eauto].
    apply sort_decorated_perm in Hs.
    rewrite Forall_forall in *. intros y Hy. apply Hl.
    eapply Permutation_in; [symmetry; exact Hs | exact Hy].
Qed.

End SortedProperties.

(* ================================================================== *)
(** * Properties of report building *)
(* ================================================================== *)

Lemma mapM_first_name_key_ok (l : list dict) (ks : list value) :
  mapM FriendsParser.first_name_key l = Ok ks ->
  Forall has_first_name l /\ combine ks l = decorate l.
Proof.
  revert ks. induction l as [|d l IH]; cbn; intros ks.
  - intros [= <-]. split; [constructor | reflexivity].
  - unfold FriendsParser.first_name_key at 1, dict_getitem.
    destruct (dict_lookup d "first_name") as [v|] eqn:E; cbn; [|discriminate].
    destruct (mapM FriendsParser.first_name_key l) as [ks'|e]; cbn;
      [|discriminate].
    intros [= <-]. destruct (IH ks' eq_refl) as [Hl Hc]. split.
    + constructor; [now exists v | assumption].
    + cbn. rewrite Hc. unfold dict_get. now rewrite E.
Qed.

Lemma mapM_first_name_key_total (l : list dict) :
  Forall has_first_name l ->
  exists ks, mapM FriendsParser.first_name_key l = Ok ks.
Proof.
  induction 1 as [|d l [v Hv] Hl [ks IH]]; cbn; [eauto|].
  unfold FriendsParser.first_name_key at 1, dict_getitem.
  rewrite Hv, IH. cbn. eauto.
Qed.

Lemma mapM_first_name_key_missing (l : list dict) :
  Exists (fun d => dict_lookup d "first_name" = None) l ->
  mapM FriendsParser.first_name_key l
  = Raise (mk_exn KeyError "'first_name'").
Proof.
  induction 1 as [d l Hd | d l Hl IH]; cbn.
  - unfold FriendsParser.first_name_key, dict_getitem. now rewrite Hd.
  - unfold FriendsParser.first_name_key at 1, dict_getitem.
    destruct (dict_lookup d "first_name"); [|reflexivity].
    cbn. now rewrite IH.
Qed.

Lemma map_snd_decorate (l : list dict) : map snd (decorate l) = l.
Proof.
  unfold decorate. rewrite map_map. cbn. apply map_id.
Qed.

Lemma filter_map_snd {A B : Type} (P : B -> bool) (l : list (A * B)) :
  filter P (map snd l) = map snd (filter (fun x => P (snd x)) l).
Proof.
  induction l as [|x l IH]; cbn; [reflexivity|].
  destruct (P (snd x)); cbn; now rewrite IH.
Qed.

(** What [sorted] by first name does when it returns: the result is a
    rearrangement of the input in which every group of records that share
    one first name keeps its order. *)
Lemma sorted_first_name_stable (l s : list dict) :
  sorted FriendsParser.first_name_key l = Ok s ->
  Permutation l s
  /\ forall P : dict -> bool,
       (forall a b, P a = true -> P b = true ->
                    dict_lookup a "first_name" = dict_lookup b "first_name") ->
       filter P s = filter P l.
Proof.
  unfold sorted.
  destruct (mapM FriendsParser.first_name_key l) as [ks|e] eqn:Ek; cbn;
    [|discriminate].
  apply mapM_first_name_key_ok in Ek as [_ ->].
  destruct (sort_decorated (decorate l)) as [r|e] eqn:Er; cbn;
    [|discriminate].
  intros [= <-]. split.
  - rewrite <- (map_snd_decorate l) at 1.
    apply Permutation_map. now apply sort_decorated_perm.
  - intros P HP. rewrite filter_map_snd.
    rewrite (sort_decorated_filter _ _ _ Er).
    + rewrite <- filter_map_snd. now rewrite map_snd_decorate.
    + intros x y Hx Hy Px Py. unfold decorate in Hx, Hy.
      apply in_map_iff in Hx as (a & <- & _).
      apply in_map_iff in Hy as (b & <- & _). cbn in *.
      unfold dict_get. now rewrite (HP a b Px Py).
Qed.

Lemma has_string_name_key (d : dict) :
  has_string_name d -> dict_get d "first_name" = VStr (name_of d).
Proof.
  intros [s Hs]. unfold dict_get, name_of. now rewrite Hs.
Qed.

Lemma Sorted_map_snd (r : list (value * dict)) :
  Forall (fun x => fst x = VStr (name_of (snd x))) r ->
  Sorted key_le r -> Sorted name_le (map snd r).
Proof.
  intros Hf Hs. induction Hs as [|x r Hs IH Hhd]; cbn; [constructor|].
  apply Forall_cons_iff in Hf as [Hx Hf].
  constructor; [now apply IH|].
  destruct Hhd as [|y r Hxy]; cbn; constructor.
  apply Forall_cons_iff in Hf as [Hy _].
  unfold key_le in Hxy. now rewrite Hx, Hy in Hxy.
Qed.

Lemma name_le_trans : Relations_1.Transitive name_le.
Proof.
  intros a b c. unfold name_le. apply string_leb_trans.
Qed.

(** Records whose first names are strings are always sorted, into
    ascending order of the names. *)
Lemma sorted_first_name_strings (l : list dict) :
  Forall has_string_name l ->
  exists s, sorted FriendsParser.first_name_key l = Ok s
            /\ StronglySorted name_le s.
Proof.
  intros Hl. unfold sorted.
  destruct (mapM_first_name_key_total l) as [ks Hks].
  { eapply Forall_impl; [|exact Hl]. intros d [s Hs]. now exists (VStr s). }
  rewrite Hks. cbn. apply mapM_first_name_key_ok in Hks as [_ ->].
  assert (Hdec : Forall (fun x : value * dict =>
                           fst x = VStr (name_of (snd x))) (decorate l)).
  { unfold decorate. rewrite Forall_map. cbn.
    eapply Forall_impl; [|exact Hl]. apply has_string_name_key. }
  destruct (sort_decorated_string_keys (decorate l)) as (r & Hr & Hsorted).
  { eapply Forall_impl; [|exact Hdec]. cbn. eauto. }
  rewrite Hr. cbn. eexists; split; [reflexivity|].
  apply Sorted_StronglySorted; [exact name_le_trans|].
  apply Sorted_map_snd; [|assumption].
  apply sort_decorated_perm in Hr.
  rewrite Forall_forall in *. intros x Hx. apply Hdec.
  eapply Permutation_in; [symmetry; exact Hr | exact Hx].
Qed.

Lemma extract_data_names (friend person : dict) :
  FriendsParser.extract_data friend = Ok person ->
  dict_getitem person "first_name" = Ok (dict_get friend "first_name")
  /\ dict_getitem person "last_name" = Ok (dict_get friend "last_name").
Proof.
  rewrite extract_data_unfold.
  destruct (FriendsParser.get_value_from_data friend "country"); cbn;
    [|discriminate].
  destruct (FriendsParser.get_value_from_data friend "city"); cbn;
    [|discriminate].
  destruct (FriendsParser.get_date_value friend "bdate"); cbn;
    [|discriminate].
  intros [= <-]. split; reflexivity.
Qed.

Lemma only_log_changed_refl (w : world) : only_log_changed w w.
Proof. repeat split. Qed.

Lemma report_loop_cons (d : dict) (l acc : list dict) (w : world) :
  FriendsParser.report_loop (d :: l) acc w
  = match FriendsParser.extract_data d with
    | Ok p =>
        FriendsParser.report_loop l (acc ++ [p])
          (set_log w (log w ++ [LogExtract (dict_get d "first_name")
                                           (dict_get d "last_name")]))
    | Raise e => (Raise e, w)
    end.
Proof.
  cbn [FriendsParser.report_loop]. unfold bind at 1, lift at 1.
  destruct (FriendsParser.extract_data d) as [p|e] eqn:E; [|reflexivity].
  destruct (extract_data_names _ _ E) as [Hfirst Hlast].
  unfold bind, lift, logger_info. now rewrite Hfirst, Hlast.
Qed.

Lemma report_loop_spec (l acc : list dict) (w : world) :
  fst (FriendsParser.report_loop l acc w)
  = (rs <- mapM FriendsParser.extract_data l ;; Ok (acc ++ rs)%list)%result
  /\ only_log_changed w (snd (FriendsParser.report_loop l acc w)).
Proof.
  revert acc w. induction l as [|d l IH]; intros acc w.
  - cbn. rewrite app_nil_r. split; [reflexivity | apply only_log_changed_refl].
  - rewrite report_loop_cons. cbn [mapM].
    destruct (FriendsParser.extract_data d) as [p|e];
      [|split; [reflexivity | apply only_log_changed_refl]].
    match goal with
    | |- context [FriendsParser.report_loop l ?a ?w1] =>
        destruct (IH a w1) as [IH1 IH2]
    end.
    split.
    + rewrite IH1. cbn [rbind].
      destruct (mapM FriendsParser.extract_data l); cbn; [|reflexivity].
      now rewrite <- app_assoc.
    + exact IH2.
Qed.

Lemma build_report_list_unfold (friends : list dict) (w : world) :
  FriendsParser.build_report_list friends w
  = match sorted FriendsParser.first_name_key friends with
    | Ok s => FriendsParser.report_loop s [] w
    | Raise e => (Raise e, w)
    end.
Proof. reflexivity. Qed.

Lemma create_report_unfold (self : FriendsParser.t) (friends : list dict)
      (w : world) :
  FriendsParser.create_report self friends w
  = match FriendsParser.build_report_list friends w with
    | (Ok report, w') =>
        match FriendsParser.lookup_format
                (FriendsParser.output_formats self)
                (FriendsParser.output_format self) with
        | Some write_method => write_method report w'
        | None => (Raise (unsupported_format_error self), w')
        end
    | (Raise e, w') => (Raise e, w')
    end.
Proof.
  unfold FriendsParser.create_report, bind.
  destruct (FriendsParser.build_report_list friends w) as [[report|e] w'];
    [|reflexivity].
  now destruct (FriendsParser.lookup_format _ _).
Qed.

Lemma lookup_format_matching (self : FriendsParser.t) :
  FriendsParser.lookup_format (FriendsParser.output_formats self)
                              (FriendsParser.output_format self)
  = matching_writer self.
Proof.
  unfold matching_writer, FriendsParser.output_formats.
  cbn [FriendsParser.lookup_format].
  rewrite !(String.eqb_sym _ (FriendsParser.output_format self)).
  destruct (String.eqb_spec (FriendsParser.output_format self) "csv") as [E|_];
    [reflexivity|].
  destruct (String.eqb_spec (FriendsParser.output_format self) "json") as [E|_].
  - rewrite E. reflexivity.
  - destruct (String.eqb_spec (FriendsParser.output_format self) "tsv");
      reflexivity.
Qed.

Lemma matching_writer_none (self : FriendsParser.t) :
  ~ In (FriendsParser.output_format self) allowed_formats ->
  matching_writer self = None.
Proof.
  unfold matching_writer, allowed_formats. intros H.
  repeat match goal with
         | |- context [String.eqb ?a ?b] =>
             destruct (String.eqb_spec a b) as [E|_];
             [exfalso; apply H; rewrite E; simpl; tauto|]
         end.
  reflexivity.
Qed.

Lemma build_report_list_only_log (friends : list dict) (w : world) :
  only_log_changed w (snd (FriendsParser.build_report_list friends w)).
Proof.
  rewrite build_report_list_unfold.
  destruct (sorted FriendsParser.first_name_key friends).
  - apply report_loop_spec.
  - apply only_log_changed_refl.
Qed.

Lemma build_report_list_result (friends : list dict) (w : world) :
  fst (FriendsParser.build_report_list friends w)
  = (s <- sorted FriendsParser.first_name_key friends ;;
     mapM FriendsParser.extract_data s)%result.
Proof.
  rewrite build_report_list_unfold.
  destruct (sorted FriendsParser.first_name_key friends) as [s|e]; cbn;
    [|reflexivity].
  rewrite (proj1 (report_loop_spec s [] w)).
  now destruct (mapM FriendsParser.extract_data s).
Qed.

Lemma mapM_total {A B : Type} (f : A -> result B) (l : list A) :
  Forall (fun a => exists b, f a = Ok b) l -> exists r, mapM f l = Ok r.
Proof.
  induction 1 as [|a l [b Hb] Hl [r IH]]; cbn; [eauto|].
  rewrite Hb, IH. cbn. eauto.
Qed.

Lemma mapM_Forall2 {A B : Type} (f : A -> result B) (l : list A)
      (r : list B) :
  mapM f l = Ok r -> Forall2 (fun a b => f a = Ok b) l r.
Proof.
  revert r. induction l as [|a l IH]; cbn; intros r.
  - intros [= <-]. constructor.
  - destruct (f a) as [b|e] eqn:E; cbn; [|discriminate].
    destruct (mapM f l) as [r'|e]; cbn; [|discriminate].
    intros [= <-]. constructor; auto.
Qed.



Lemma well_shaped_extract (friend : dict) :
  well_shaped friend ->
  exists person, FriendsParser.extract_data friend = Ok person.
Proof.
  intros (Hc & Hci & Hb). rewrite extract_data_unfold.
  destruct (get_value_from_data_total _ _ Hc) as [v1 ->].
  destruct (get_value_from_data_total _ _ Hci) as [v2 ->].
  destruct (get_date_value_total _ _ Hb) as [v3 ->]. cbn. eauto.
Qed.

Lemma build_report_list_total (friends : list dict) (w : world) :
  Forall has_string_name friends -> Forall well_shaped friends ->
  exists report, fst (FriendsParser.build_report_list friends w) = Ok report.
Proof.
  intros Hn Hs. rewrite build_report_list_result.
  destruct (sorted_first_name_strings friends Hn) as (s & Hsorted & _).
  rewrite Hsorted. cbn. apply mapM_total.
  apply sorted_first_name_stable in Hsorted as [Hperm _].
  rewrite Forall_forall in *. intros d Hd. apply well_shaped_extract, Hs.
  eapply Permutation_in; [symmetry; exact Hperm | exact Hd].
Qed.

(* ================================================================== *)
(** * The writers *)
(* ================================================================== *)

Lemma write_error_caught_json (e : exn) :
  write_error e = true -> caught_by e [TypeError; IOError] = true.
Proof.
  unfold write_error, caught_by, IOError. cbn [existsb].
  now rewrite orb_false_r.
Qed.

Lemma write_error_caught_csv (e : exn) :
  write_error e = true ->
  caught_by e [TypeError; ValueError; IOError; IndexError] = true.
Proof.
  unfold write_error, caught_by, IOError. cbn [existsb].
  destruct (isinstance e TypeError), (isinstance e OSError),
    (isinstance e ValueError); cbn; congruence.
Qed.

Lemma try_except_contained (self : FriendsParser.t) (body : M unit)
      (cs : list exn_class) (w : world) :
  (forall e w', body w = (Raise e, w') -> caught_by e cs = true) ->
  log (snd (body w)) = log w ->
  contained self w
    (try_exceptM body cs
       (fun _ => logger_info (FriendsParser.error_event self)) w).
Proof.
  intros Hc Hl. unfold try_exceptM, contained.
  destruct (body w) as [[u|e] w'] eqn:E; cbn in *.
  - destruct u. split; [reflexivity | now left].
  - rewrite (Hc e w' eq_refl). cbn. split; [reflexivity|].
    right. now rewrite Hl.
Qed.

Lemma write_rows_cons (name delimiter : string) (header : list string)
      (row : dict) (rows : list dict) (written : list (list value))
      (w : world) :
  FriendsParser.write_rows name delimiter header written (row :: rows) w
  = match FriendsParser.dict_to_list header row with
    | Raise e => (Raise e, w)
    | Ok cells =>
        match dump_fault w name with
        | Some e =>
            (Raise e, set_files w (file_set (files w) name PartialFile))
        | None =>
            FriendsParser.write_rows name delimiter header
              (written ++ [cells]) rows
              (set_files w
                 (file_set (files w) name
                    (CsvFile delimiter header (written ++ [cells]))))
        end
    end.
Proof.
  cbn [FriendsParser.write_rows]. unfold bind, lift, write_doc.
  destruct (FriendsParser.dict_to_list header row); [|reflexivity].
  now destruct (dump_fault w name).
Qed.

Lemma dict_to_list_raises (header : list string) (row : dict) (e : exn) :
  FriendsParser.dict_to_list header row = Raise e -> exn_cls e = ValueError.
Proof.
  unfold FriendsParser.dict_to_list.
  destruct (filter _ (dict_keys row)); [discriminate|].
  now intros [= <-].
Qed.

Lemma write_rows_spec (name delimiter : string) (header : list string)
      (rows : list dict) (written : list (list value)) (w : world) :
  (forall e, dump_fault w name = Some e -> write_error e = true) ->
  log (snd (FriendsParser.write_rows name delimiter header written rows w))
  = log w
  /\ forall e w',
      FriendsParser.write_rows name delimiter header written rows w
      = (Raise e, w') ->
      caught_by e [TypeError; ValueError; IOError; IndexError] = true.
Proof.
  revert written w. induction rows as [|row rows IH]; intros written w Hf.
  - cbn. split; [reflexivity | discriminate].
  - rewrite write_rows_cons.
    destruct (FriendsParser.dict_to_list header row) as [cells|e0] eqn:Ec.
    + destruct (dump_fault w name) as [e0|] eqn:Ed.
      * split; [reflexivity|]. intros e w' [= <- _].
        now apply write_error_caught_csv, Hf.
      * match goal with
        | |- context [FriendsParser.write_rows _ _ _ ?wr rows ?w1] =>
            destruct (IH wr w1) as [IH1 IH2]
        end.
        { cbn. now rewrite Ed. }
        split; [rewrite IH1; reflexivity | exact IH2].
    + split; [reflexivity|]. intros e w' [= <- _].
      apply dict_to_list_raises in Ec.
      unfold caught_by, isinstance. cbn [existsb]. now rewrite Ec.
Qed.

Lemma write_csv_tsv_file_unfold (self : FriendsParser.t)
      (friends_list : list dict) (w : world) :
  FriendsParser.write_csv_tsv_file self friends_list w
  = let name := FriendsParser.file_name self in
    let delimiter :=
      if String.eqb (FriendsParser.output_format self) "csv"
      then "," else FriendsParser.tab in
    match open_fault w name with
    | Some e => handle_write_error self csv_errors e w
    | None =>
        let w1 := set_files w (file_set (files w) name EmptyFile) in
        match friends_list with
        | [] =>
            handle_write_error self csv_errors
              (mk_exn IndexError "list index out of range") w1
        | first :: _ =>
            match dump_fault w name with
            | Some e =>
                handle_write_error self csv_errors e
                  (set_files w1 (file_set (files w1) name PartialFile))
            | None =>
                match FriendsParser.write_rows name delimiter
                        (dict_keys first) [] friends_list
                        (set_files w1
                           (file_set (files w1) name
                              (CsvFile delimiter (dict_keys first) [])))
                with
                | (Ok u, w') => (Ok u, w')
                | (Raise e, w') => handle_write_error self csv_errors e w'
                end
            end
        end
    end.
Proof.
  unfold FriendsParser.write_csv_tsv_file, try_exceptM, handle_write_error,
    csv_errors.
  unfold bind at 1, open_w. cbn zeta.
  destruct (open_fault w (FriendsParser.file_name self)); [reflexivity|].
  unfold bind at 1, lift, FriendsParser.first_item.
  destruct friends_list as [|first rest]; [reflexivity|].
  unfold bind at 1, write_doc. cbn [dump_fault set_files].
  destruct (dump_fault w (FriendsParser.file_name self)); reflexivity.
Qed.

Lemma handle_write_error_contained (self : FriendsParser.t)
      (cs : list exn_class) (e : exn) (w0 w : world) :
  caught_by e cs = true -> log w = log w0 ->
  contained self w0 (handle_write_error self cs e w).
Proof.
  intros Hc Hl. unfold handle_write_error, contained. rewrite Hc. cbn.
  split; [reflexivity|]. right. now rewrite Hl.
Qed.

Lemma write_csv_tsv_file_contained (self : FriendsParser.t)
      (friends_list : list dict) (w : world) :
  world_faults_are_write_errors w ->
  contained self w (FriendsParser.write_csv_tsv_file self friends_list w).
Proof.
  intros [Ho Hd]. rewrite write_csv_tsv_file_unfold. cbn zeta.
  destruct (open_fault w _) as [e|] eqn:Eo.
  { apply handle_write_error_contained; [|reflexivity].
    apply write_error_caught_csv. eapply Ho, Eo. }
  destruct friends_list as [|first rest].
  { now apply handle_write_error_contained. }
  destruct (dump_fault w _) as [e|] eqn:Ed.
  { apply handle_write_error_contained; [|reflexivity].
    apply write_error_caught_csv. eapply Hd, Ed. }
  match goal with
  | |- context [FriendsParser.write_rows ?n ?d ?h ?wr ?rs ?w1] =>
      destruct (write_rows_spec n d h rs wr w1) as [Hlog Hcaught];
      [cbn; rewrite Ed; discriminate|];
      destruct (FriendsParser.write_rows n d h wr rs w1) as [[u|e] w'] eqn:E
  end.
  - destruct u. split; [reflexivity|]. left. exact Hlog.
  - apply handle_write_error_contained; [|exact Hlog].
    now apply (Hcaught e w').
Qed.

Lemma dump_body_unfold (name : string) (doc : document) (w : world) :
  (open_w name ;; write_doc name doc)%world w
  = match open_fault w name with
    | Some e => (Raise e, w)
    | None =>
        let opened := file_set (files w) name EmptyFile in
        match dump_fault w name with
        | Some e => (Raise e, set_files w (file_set opened name PartialFile))
        | None => (Ok tt, set_files w (file_set opened name doc))
        end
    end.
Proof.
  unfold bind, open_w, write_doc.
  destruct (open_fault w name); [reflexivity|]. cbn.
  now destruct (dump_fault w name).
Qed.

Lemma dump_writer_contained (self : FriendsParser.t) (doc : document)
      (w : world) :
  world_faults_are_write_errors w ->
  contained self w
    (try_exceptM
       (open_w (FriendsParser.file_name self) ;;
        write_doc (FriendsParser.file_name self) doc)%world
       [TypeError; IOError]
       (fun _ => logger_info (FriendsParser.error_event self)) w).
Proof.
  intros [Ho Hd]. apply try_except_contained; rewrite dump_body_unfold.
  - intros e w'.
    destruct (open_fault w _) as [e0|] eqn:Eo.
    { intros [= <- _]. apply write_error_caught_json. eapply Ho, Eo. }
    cbn zeta. destruct (dump_fault w _) as [e1|] eqn:Ed; [|discriminate].
    intros [= <- _]. apply write_error_caught_json. eapply Hd, Ed.
  - destruct (open_fault w _); [reflexivity|].
    cbn zeta. now destruct (dump_fault w _).
Qed.

Lemma write_json_file_contained (self : FriendsParser.t)
      (friends_list : list dict) (w : world) :
  world_faults_are_write_errors w ->
  contained self w (FriendsParser.write_json_file self friends_list w).
Proof. apply dump_writer_contained. Qed.

Lemma write_yaml_file_contained (self : FriendsParser.t)
      (friends_list : list dict) (w : world) :
  world_faults_are_write_errors w ->
  contained self w (FriendsParser.write_yaml_file self friends_list w).
Proof. apply dump_writer_contained. Qed.

Lemma write_csv_tsv_file_empty (self : FriendsParser.t) (w : world) :
  world_faults_are_write_errors w ->
  fst (FriendsParser.write_csv_tsv_file self [] w) = Ok tt
  /\ log (snd (FriendsParser.write_csv_tsv_file self [] w))
     = (log w ++ [FriendsParser.error_event self])%list.
Proof.
  intros [Ho _]. rewrite write_csv_tsv_file_unfold. cbn zeta.
  unfold handle_write_error.
  destruct (open_fault w _) as [e|] eqn:Eo.
  - unfold csv_errors. rewrite (write_error_caught_csv e (Ho _ _ Eo)).
    split; reflexivity.
  - split; reflexivity.
Qed.

Lemma writer_open_fault (self : FriendsParser.t) (report : list dict)
      (w : world) (e : exn) :
  world_faults_are_write_errors w ->
  open_fault w (FriendsParser.file_name self) = Some e ->
  let logged :=
    (Ok tt, set_log w (log w ++ [FriendsParser.error_event self])) in
  FriendsParser.write_csv_tsv_file self report w = logged
  /\ FriendsParser.write_json_file self report w = logged
  /\ FriendsParser.write_yaml_file self report w = logged.
Proof.
  intros [Ho _] Eo. cbn zeta.
  rewrite write_csv_tsv_file_unfold. cbn zeta.
  unfold FriendsParser.write_json_file, FriendsParser.write_yaml_file,
    try_exceptM.
  rewrite !dump_body_unfold, Eo.
  unfold handle_write_error, csv_errors.
  rewrite (write_error_caught_csv e (Ho _ _ Eo)),
    (write_error_caught_json e (Ho _ _ Eo)).
  repeat split.
Qed.

Lemma only_log_changed_faults (w w' : world) :
  only_log_changed w w' ->
  world_faults_are_write_errors w -> world_faults_are_write_errors w'.
Proof.
  intros (_ & Ho & Hd & _) [H1 H2]. unfold world_faults_are_write_errors.
  rewrite Ho, Hd. now split.
Qed.

(** Outside the classes of its [except] clause a writer contains
    nothing: a [ValueError] on opening goes through the JSON and YAML
    writers, which catch [TypeError] and [IOError] only. *)
Lemma dump_writers_let_value_error_through
      (self : FriendsParser.t) (report : list dict) (w : world)
      (msg : string) :
  open_fault w (FriendsParser.file_name self) = Some (mk_exn ValueError msg) ->
  FriendsParser.write_json_file self report w
  = (Raise (mk_exn ValueError msg), w)
  /\ FriendsParser.write_yaml_file self report w
     = (Raise (mk_exn ValueError msg), w).
Proof.
  intros Eo.
  unfold FriendsParser.write_json_file, FriendsParser.write_yaml_file,
    try_exceptM.
  rewrite !dump_body_unfold, Eo. split; reflexivity.
Qed.

(* ================================================================== *)
(** * The report: order, missing names, dispatch *)
(* ================================================================== *)

(** C4 — When every record has a first name that is a string,
    [create_report] builds its report list from the input put in
    ascending order of the first names (compared as strings): the sorted
    list is a rearrangement of the input, it is in ascending order, and
    the report list is the sorted list passed record by record through
    [extract_data]; it is this list that reaches the writer (seen here
    on the JSON file).  Records named Bob and Alice, in this order, come
    out as Alice, Bob. *)
Theorem create_report_sorts_by_first_name (friends : list dict) (w : world) :
  Forall has_string_name friends ->
  exists sorted_friends,
    sorted FriendsParser.first_name_key friends = Ok sorted_friends
    /\ Permutation friends sorted_friends
    /\ StronglySorted name_le sorted_friends
    /\ fst (FriendsParser.build_report_list friends w)
       = mapM FriendsParser.extract_data sorted_friends
    /\ (Forall well_shaped friends ->
        exists report,
          fst (FriendsParser.build_report_list friends w) = Ok report
          /\ Forall2 (fun d p => FriendsParser.extract_data d = Ok p)
                     sorted_friends report)
    /\ (forall self report,
          mapM FriendsParser.extract_data sorted_friends = Ok report ->
          FriendsParser.output_format self = "json" ->
          open_fault w (FriendsParser.file_name self) = None ->
          dump_fault w (FriendsParser.file_name self) = None ->
          files (snd (FriendsParser.create_report self friends w))
          = file_set (file_set (files w) (FriendsParser.file_name self)
                               EmptyFile)
                     (FriendsParser.file_name self) (JsonFile report))
    /\ (forall bob alice,
          dict_lookup bob "first_name" = Some (VStr "Bob") ->
          dict_lookup alice "first_name" = Some (VStr "Alice") ->
          sorted FriendsParser.first_name_key [bob; alice]
          = Ok [alice; bob]).
Proof.
  intros Hn.
  destruct (sorted_first_name_strings friends Hn) as (s & Hs & Hsorted).
  exists s. split; [assumption|].
  split; [now apply sorted_first_name_stable|].
  split; [assumption|].
  split; [rewrite build_report_list_result, Hs; reflexivity|].
  split; [|split].
  - intros Hw.
    destruct (build_report_list_total friends w Hn Hw) as [report Hr].
    exists report. split; [assumption|].
    rewrite build_report_list_result, Hs in Hr. now apply mapM_Forall2.
  - intros self report Hr Hfmt Ho Hd.
    pose proof (build_report_list_result friends w) as Hfst.
    pose proof (build_report_list_only_log friends w) as Hlog.
    rewrite Hs in Hfst. cbn [rbind] in Hfst. rewrite Hr in Hfst.
    rewrite create_report_unfold, lookup_format_matching.
    destruct (FriendsParser.build_report_list friends w) as [r w'].
    cbn [fst snd] in Hfst, Hlog. subst r.
    destruct Hlog as (_ & Ho' & Hd' & _ & Hfiles).
    unfold matching_writer. rewrite Hfmt. cbn [String.eqb Ascii.eqb Bool.eqb].
    unfold FriendsParser.write_json_file, try_exceptM.
    rewrite dump_body_unfold, Ho', Hd', Ho, Hd, Hfiles. reflexivity.
  - intros bob alice Hb Ha. unfold sorted. cbn.
    unfold FriendsParser.first_name_key, dict_getitem.
    rewrite Hb, Ha. reflexivity.
Qed.

Lemma create_report_sorts_by_first_name_witness :
  exists sorted_friends,
    sorted FriendsParser.first_name_key
           [[("first_name", VStr "Bob")]; [("first_name", VStr "Alice")]]
    = Ok sorted_friends
    /\ StronglySorted name_le sorted_friends.
Proof.
  destruct (create_report_sorts_by_first_name
              [[("first_name", VStr "Bob")]; [("first_name", VStr "Alice")]]
              (quiet_world (backing_network [])))
    as (s & Hs & _ & Hsorted & _).
  - repeat constructor; eexists; reflexivity.
  - exists s. split; assumption.
Defined.

(** C5 — If some record has no [first_name] key, [create_report] raises
    [KeyError] for that key; nothing catches it, and the world is left as
    it was: no writer has run, no file is written, nothing is logged. *)
Theorem create_report_missing_first_name
        (self : FriendsParser.t) (friends : list dict) (w : world) :
  Exists (fun d => dict_lookup d "first_name" = None) friends ->
  FriendsParser.create_report self friends w
  = (Raise (mk_exn KeyError "'first_name'"), w).
Proof.
  intros H. rewrite create_report_unfold, build_report_list_unfold.
  unfold sorted. now rewrite (mapM_first_name_key_missing friends H).
Qed.

Lemma create_report_missing_first_name_witness :
  FriendsParser.create_report
    (FriendsParser.init 1 "token" "csv" "report")
    [[("first_name", VStr "Bob")]; [("last_name", VStr "Ivanov")]]
    (quiet_world (backing_network []))
  = (Raise (mk_exn KeyError "'first_name'"),
     quiet_world (backing_network [])).
Proof.
  apply create_report_missing_first_name.
  apply Exists_cons_tl, Exists_cons_hd. reflexivity.
Defined.

(** C7 — With an output format outside csv, json, tsv, yaml,
    [create_report] writes no file, never returns normally, and, once the
    report list is built, raises [ValueError] with a message that lists
    the allowed formats, leaving the world as report building left it (no
    writer ran).  With a format inside that set it runs exactly the writer
    of that format on the report list. *)
Theorem create_report_dispatch
        (self : FriendsParser.t) (friends : list dict) (w : world) :
  (~ In (FriendsParser.output_format self) allowed_formats ->
   files (snd (FriendsParser.create_report self friends w)) = files w
   /\ fst (FriendsParser.create_report self friends w) <> Ok tt
   /\ forall report w',
        FriendsParser.build_report_list friends w = (Ok report, w') ->
        FriendsParser.create_report self friends w
        = (Raise (mk_exn ValueError
                    ("Invalid output file format: "
                     ++ FriendsParser.output_format self
                     ++ ". Allowed formats: csv, json, tsv, yaml")), w'))
  /\ (forall report w',
        FriendsParser.build_report_list friends w = (Ok report, w') ->
        (FriendsParser.output_format self = "csv" ->
         FriendsParser.create_report self friends w
         = FriendsParser.write_csv_tsv_file self report w')
        /\ (FriendsParser.output_format self = "tsv" ->
            FriendsParser.create_report self friends w
            = FriendsParser.write_csv_tsv_file self report w')
        /\ (FriendsParser.output_format self = "json" ->
            FriendsParser.create_report self friends w
            = FriendsParser.write_json_file self report w')
        /\ (FriendsParser.output_format self = "yaml" ->
            FriendsParser.create_report self friends w
            = FriendsParser.write_yaml_file self report w')).
Proof.
  split.
  - intros Hfmt.
    pose proof (build_report_list_only_log friends w) as Hlog.
    rewrite create_report_unfold, lookup_format_matching,
      (matching_writer_none self Hfmt).
    destruct (FriendsParser.build_report_list friends w) as [[report|e] w1];
      cbn in *.
    + split; [apply Hlog|]. split; [discriminate|].
      intros report' w' [= <- <-]. reflexivity.
    + split; [apply Hlog|]. split; [discriminate|].
      intros report' w' [=].
  - intros report w' Hb.
    rewrite create_report_unfold, lookup_format_matching, Hb.
    unfold matching_writer.
    repeat split; intros ->; reflexivity.
Qed.

Lemma create_report_dispatch_witness :
  FriendsParser.create_report
    (FriendsParser.init 1 "token" "xml" "report")
    [[("first_name", VStr "Bob")]]
    (quiet_world (backing_network []))
  = (Raise (mk_exn ValueError
              "Invalid output file format: xml. Allowed formats: csv, json, tsv, yaml"),
     set_log (quiet_world (backing_network []))
             [LogExtract (VStr "Bob") VNone])
  /\ FriendsParser.create_report
       (FriendsParser.init 1 "token" "json" "report")
       [[("first_name", VStr "Bob")]]
       (quiet_world (backing_network []))
     = FriendsParser.write_json_file
         (FriendsParser.init 1 "token" "json" "report")
         [[("first_name", VStr "Bob"); ("last_name", VNone);
           ("country", VNone); ("city", VNone); ("bdate", VNone);
           ("sex", VNone)]]
         (set_log (quiet_world (backing_network []))
                  [LogExtract (VStr "Bob") VNone]).
Proof.
  split.
  - destruct (create_report_dispatch
                (FriendsParser.init 1 "token" "xml" "report")
                [[("first_name", VStr "Bob")]]
                (quiet_world (backing_network []))) as (H & _).
    destruct H as (_ & _ & H).
    + unfold allowed_formats. cbn. intuition discriminate.
    + apply (H [[("first_name", VStr "Bob"); ("last_name", VNone);
                 ("country", VNone); ("city", VNone); ("bdate", VNone);
                 ("sex", VNone)]]).
      reflexivity.
  - destruct (create_report_dispatch
                (FriendsParser.init 1 "token" "json" "report")
                [[("first_name", VStr "Bob")]]
                (quiet_world (backing_network []))) as (_ & H).
    destruct (H [[("first_name", VStr "Bob"); ("last_name", VNone);
                  ("country", VNone); ("city", VNone); ("bdate", VNone);
                  ("sex", VNone)]]
                (set_log (quiet_world (backing_network []))
                         [LogExtract (VStr "Bob") VNone]) eq_refl)
      as (_ & _ & Hjson & _).
    apply Hjson. reflexivity.
Defined.



(* ================================================================== *)
(** * The paginator *)
(* ================================================================== *)

Lemma isinstance_Exception (e : exn) : isinstance e Exception = true.
Proof. destruct e as [[] msg]; reflexivity. Qed.

Lemma get_friends_unfold (self : Paginator.t) (offset : Z) (w : world) :
  Paginator.get_friends self offset w
  = (match page_of (network w "get" URL (page_request self offset)) with
     | Ok page => Ok page
     | Raise e => Raise (fetch_error e)
     end,
     record_request w (page_request self offset)).
Proof.
  unfold Paginator.get_friends, try_exceptM, page_of, fetch_error,
    record_request.
  unfold bind at 1, HttpClient.request. fold (page_request self offset).
  unfold caught_by. cbn [existsb].
  destruct (network w "get" URL (page_request self offset)) as [resp|e];
    cbn [rbind]; [|now rewrite isinstance_Exception].
  destruct (HttpClient.check_response resp) as [body|e]; cbn [rbind];
    [|now rewrite isinstance_Exception].
  unfold bind, lift.
  destruct (py_getitem body "response") as [env|e]; cbn [rbind];
    [|now rewrite isinstance_Exception].
  destruct (py_getitem env "items") as [page|e];
    [reflexivity | now rewrite isinstance_Exception].
Qed.

Lemma get_all_friends_loop_raise (fuel : nat) (self : Paginator.t)
      (count offset : Z) (acc : list value) (w w' : world) (e : exn) :
  Paginator.get_friends self offset w = (Raise e, w') ->
  Paginator.get_all_friends_loop (S fuel) self count offset acc w
  = Some (Raise e, w').
Proof. intros H. cbn. now rewrite H. Qed.

Lemma get_all_friends_loop_ok (fuel : nat) (self : Paginator.t)
      (count offset : Z) (acc r : list value) (w w' : world) :
  Paginator.get_all_friends_loop fuel self count offset acc w
  = Some (Ok r, w') ->
  exists reqs,
    sent w' = (sent w ++ reqs)%list
    /\ Forall (fun p => exists page,
                   page_of (network w "get" URL p) = Ok page) reqs.
Proof.
  revert offset acc w. induction fuel as [|fuel IH]; intros offset acc w;
    [discriminate|].
  cbn [Paginator.get_all_friends_loop]. rewrite get_friends_unfold.
  destruct (page_of _) as [page|e] eqn:Ep; [|discriminate].
  destruct (py_iter page) as [its|e]; [|discriminate].
  destruct (py_len page) as [n|e]; [|discriminate].
  destruct (n <? count)%Z.
  - intros [= <- <-]. exists [page_request self offset].
    split; [reflexivity|]. constructor; [eauto | constructor].
  - intros H. apply IH in H as (reqs & Hs & Hf).
    exists (page_request self offset :: reqs). split.
    + rewrite Hs. cbn. now rewrite <- app_assoc.
    + constructor; [eauto | exact Hf].
Qed.

Lemma py_len_iter (v : value) (page : list value) :
  py_iter v = Ok page -> py_len v = Ok (Z.of_nat (List.length page)).
Proof.
  destruct v as [| | |s|l|d]; cbn; try discriminate; intros [= <-].
  - f_equal. f_equal. induction s as [|c s IH]; cbn; congruence.
  - reflexivity.
  - now rewrite length_map.
Qed.

(** A failure of the request that follows any number of full pages
    ends the loop with that failure, wrapped: the pages accumulated so
    far are dropped. *)
Lemma get_all_friends_loop_fails (self : Paginator.t) (count : Z)
      (full : list (list value)) (fuel : nat) (offset : Z)
      (acc : list value) (w : world) (e : exn) :
  Forall2 (page_at self w)
          (offsets_from offset count (List.length full)) full ->
  Forall (fun page => (count <= Z.of_nat (List.length page))%Z) full ->
  page_of (network w "get" URL
             (page_request self
                (offset + count * Z.of_nat (List.length full))%Z))
  = Raise e ->
  (List.length full < fuel)%nat ->
  Paginator.get_all_friends_loop fuel self count offset acc w
  = Some (Raise (fetch_error e),
          set_sent w
            (sent w ++ map (page_request self)
                         (offsets_from offset count
                            (S (List.length full))))%list).
Proof.
  revert fuel offset acc w.
  induction full as [|page full IH]; intros fuel offset acc w Hp Hfull He Hf;
    (destruct fuel as [|fuel]; [inversion Hf|]);
    cbn [Paginator.get_all_friends_loop]; rewrite get_friends_unfold.
  - cbn [List.length Z.of_nat] in He.
    replace (offset + count * 0)%Z with offset in He by lia.
    now rewrite He.
  - cbn [List.length offsets_from] in Hp.
    inversion Hp as [|o pg os pgs (v & Hv & Hit) Hrest]; subst.
    inversion Hfull as [|pg pgs Hlen Hfull']; subst.
    rewrite Hv, Hit, (py_len_iter v page Hit).
    destruct (Z.ltb_spec (Z.of_nat (List.length page)) count); [lia|].
    rewrite (IH fuel (offset + count)%Z (acc ++ page)%list
                (record_request w (page_request self offset)) Hrest Hfull').
    + unfold record_request, set_sent. cbn.
      now rewrite <- app_assoc.
    + cbn [network record_request set_sent].
      replace (offset + count + count * Z.of_nat (List.length full))%Z
        with (offset + count * Z.of_nat (List.length (page :: full)))%Z;
        [exact He|].
      cbn [List.length]. lia.
    + cbn [List.length] in Hf. lia.
Qed.

(** Whatever a run of the loop returns, a request of the run whose
    outcome was a failure decides it: the result is that failure,
    wrapped, and not a list. *)
Lemma get_all_friends_loop_no_partial (self : Paginator.t) (count : Z)
      (fuel : nat) (offset : Z) (acc : list value) (w w1 : world)
      (r : result (list value)) :
  Paginator.get_all_friends_loop fuel self count offset acc w
  = Some (r, w1) ->
  exists reqs,
    sent w1 = (sent w ++ reqs)%list
    /\ forall p e,
        In p reqs ->
        page_of (network w "get" URL p) = Raise e ->
        r = Raise (fetch_error e).
Proof.
  revert offset acc w. induction fuel as [|fuel IH]; intros offset acc w;
    [discriminate|].
  cbn [Paginator.get_all_friends_loop]. rewrite get_friends_unfold.
  assert (Hone : forall r0 : result (list value),
             (forall e, page_of (network w "get" URL
                                   (page_request self offset)) = Raise e ->
                        r0 = Raise (fetch_error e)) ->
             Some (r0, record_request w (page_request self offset))
             = Some (r, w1) ->
             exists reqs,
               sent w1 = (sent w ++ reqs)%list
               /\ forall p e,
                   In p reqs ->
                   page_of (network w "get" URL p) = Raise e ->
                   r = Raise (fetch_error e)).
  { intros r0 Hr0 [= <- <-]. exists [page_request self offset].
    split; [reflexivity|]. intros p e [<- | []] He. now apply Hr0. }
  destruct (page_of _) as [page|e0] eqn:Ep.
  2:{ apply Hone. now intros e [= <-]. }
  destruct (py_iter page) as [its|e1]; [|apply Hone; discriminate].
  destruct (py_len page) as [n|e2]; [|apply Hone; discriminate].
  destruct (n <? count)%Z; [apply Hone; discriminate|].
  intros H. apply IH in H as (reqs & Hs & Hr).
  exists (page_request self offset :: reqs). split.
  - rewrite Hs. cbn. now rewrite <- app_assoc.
  - intros p e [<- | Hin] He; [congruence|]. now apply (Hr p e).
Qed.

(** C8 — When the transport fails, when the status is not 200 (404 and
    500 with their own wording), when the body cannot be decoded, or when
    the body has no [response] or no [items] under it, [get_friends]
    raises an exception whose message is the fixed prefix followed by the
    message of the cause.
    [get_all_friends] hands that exception on at whatever iteration it
    occurs: when any number of full pages is followed by a request that
    fails, [get_all_friends] (given fuel for these iterations) returns
    the wrapped failure of that request and drops the pages it had
    accumulated.  Conversely, whatever a run returns, a failed request
    among those it sent makes its result that wrapped failure, so no
    partial list is returned: a run that returns a list got a
    well-formed page for every request. *)
Theorem get_friends_wraps_failures
        (self : Paginator.t) (offset : Z) (w : world) :
  let request := page_request self offset in
  let w' := record_request w request in
  (forall e,
     network w "get" URL request = Raise e ->
     Paginator.get_friends self offset w = (Raise (fetch_error e), w'))
  /\ (forall response,
        network w "get" URL request = Ok response ->
        status_code response <> 200%Z ->
        exists msg,
          Paginator.get_friends self offset w
          = (Raise (fetch_error (mk_exn Exception msg)), w'))
  /\ (forall response,
        network w "get" URL request = Ok response ->
        status_code response = 404%Z ->
        Paginator.get_friends self offset w
        = (Raise (fetch_error
                    (mk_exn Exception
                       ("Your request returned 404 status code."
                        ++ " The requested resource wasn't found."))), w'))
  /\ (forall response,
        network w "get" URL request = Ok response ->
        status_code response = 500%Z ->
        Paginator.get_friends self offset w
        = (Raise (fetch_error
                    (mk_exn Exception
                       ("Your request returned 500 status code."
                        ++ " The server encountered an internal error."))),
           w'))
  /\ (forall response e,
        network w "get" URL request = Ok response ->
        status_code response = 200%Z ->
        json response = Raise e ->
        Paginator.get_friends self offset w = (Raise (fetch_error e), w'))
  /\ (forall response body e,
        network w "get" URL request = Ok response ->
        status_code response = 200%Z ->
        json response = Ok body ->
        (envelope <- py_getitem body "response" ;;
         py_getitem envelope "items")%result = Raise e ->
        Paginator.get_friends self offset w = (Raise (fetch_error e), w'))
  /\ (forall response d,
        network w "get" URL request = Ok response ->
        status_code response = 200%Z ->
        json response = Ok (VDict d) ->
        dict_lookup d "response" = None ->
        Paginator.get_friends self offset w
        = (Raise (fetch_error (mk_exn KeyError "'response'")), w'))
  /\ (forall e,
        exn_str (fetch_error e)
        = "Error occurred while requesting friends list: " ++ exn_str e)
  /\ (forall fuel count acc e w1,
        Paginator.get_friends self offset w = (Raise e, w1) ->
        Paginator.get_all_friends_loop (S fuel) self count offset acc w
        = Some (Raise e, w1))
  /\ (forall fuel count r w1,
        Paginator.get_all_friends fuel self count w = Some (Ok r, w1) ->
        exists reqs,
          sent w1 = (sent w ++ reqs)%list
          /\ Forall (fun p => exists page,
                         page_of (network w "get" URL p) = Ok page) reqs)
  /\ (forall (count : Z) (full : list (list value)) (e : exn) (fuel : nat),
        Forall2 (page_at self w)
                (offsets_from 0 count (List.length full)) full ->
        Forall (fun page => (count <= Z.of_nat (List.length page))%Z) full ->
        page_of (network w "get" URL
                   (page_request self
                      (count * Z.of_nat (List.length full))%Z))
        = Raise e ->
        (List.length full < fuel)%nat ->
        Paginator.get_all_friends fuel self count w
        = Some (Raise (fetch_error e),
                set_sent w
                  (sent w ++ map (page_request self)
                               (offsets_from 0 count
                                  (S (List.length full))))%list))
  /\ (forall fuel count r w1,
        Paginator.get_all_friends fuel self count w = Some (r, w1) ->
        exists reqs,
          sent w1 = (sent w ++ reqs)%list
          /\ forall p e,
              In p reqs ->
              page_of (network w "get" URL p) = Raise e ->
              r = Raise (fetch_error e)).
Proof.
  cbn zeta. repeat split.
  - intros e H. now rewrite get_friends_unfold, H.
  - intros response H Hs. rewrite get_friends_unfold, H.
    unfold page_of, HttpClient.check_response. cbn [rbind].
    destruct (Z.eqb_spec (status_code response) 200); [contradiction|].
    cbn [rbind]. eauto.
  - intros response H Hs. rewrite get_friends_unfold, H.
    unfold page_of, HttpClient.check_response. cbn [rbind].
    now rewrite Hs.
  - intros response H Hs. rewrite get_friends_unfold, H.
    unfold page_of, HttpClient.check_response. cbn [rbind].
    now rewrite Hs.
  - intros response e H Hs Hj. rewrite get_friends_unfold, H.
    unfold page_of, HttpClient.check_response. cbn [rbind].
    now rewrite Hs, Hj.
  - intros response body e H Hs Hj Hp. rewrite get_friends_unfold, H.
    unfold page_of, HttpClient.check_response. cbn [rbind].
    rewrite Hs, Hj. cbn [Z.eqb Pos.eqb rbind]. now rewrite Hp.
  - intros response d H Hs Hj Hd. rewrite get_friends_unfold, H.
    unfold page_of, HttpClient.check_response. cbn [rbind].
    rewrite Hs, Hj. cbn [Z.eqb Pos.eqb rbind py_getitem].
    unfold dict_getitem. now rewrite Hd.
  - intros fuel count acc e w1. apply get_all_friends_loop_raise.
  - intros fuel count r w1. apply get_all_friends_loop_ok.
  - intros count full e fuel Hp Hfull He Hf.
    now apply get_all_friends_loop_fails.
  - intros fuel count r w1. apply get_all_friends_loop_no_partial.
Qed.

Lemma get_friends_wraps_failures_witness :
  Paginator.get_friends (Paginator.init 1 "token") 0
    (quiet_world
       (fun _ _ _ => Raise (mk_exn ConnectionError "Connection refused")))
  = (Raise (mk_exn Exception
              "Error occurred while requesting friends list: Connection refused"),
     record_request
       (quiet_world
          (fun _ _ _ => Raise (mk_exn ConnectionError "Connection refused")))
       (page_request (Paginator.init 1 "token") 0))
  /\ Paginator.get_all_friends 2 (Paginator.init 1 "token") 2
       (quiet_world (failing_after [VInt 1; VInt 2]))
     = Some
         (Raise (fetch_error (mk_exn ConnectionError "Connection refused")),
          set_sent (quiet_world (failing_after [VInt 1; VInt 2]))
                   [page_request (Paginator.init 1 "token") 0;
                    page_request (Paginator.init 1 "token") 2]).
Proof.
  split.
  - destruct (get_friends_wraps_failures
                (Paginator.init 1 "token") 0%Z
                (quiet_world
                   (fun _ _ _ =>
                      Raise (mk_exn ConnectionError "Connection refused"))))
      as (H & _).
    apply (H (mk_exn ConnectionError "Connection refused")). reflexivity.
  - destruct (get_friends_wraps_failures
                (Paginator.init 1 "token") 0%Z
                (quiet_world (failing_after [VInt 1; VInt 2])))
      as (_ & _ & _ & _ & _ & _ & _ & _ & _ & _ & H & _).
    apply (H 2%Z [[VInt 1; VInt 2]]
             (mk_exn ConnectionError "Connection refused") 2%nat).
    + constructor; [|constructor].
      exists (VList [VInt 1; VInt 2]). split; reflexivity.
    + constructor; [|constructor]. cbn. lia.
    + reflexivity.
    + cbn. lia.
Defined.

(* ---------------------------------------------------------------- *)
(** ** Draining a backing sequence *)

Local Open Scope Z_scope.

Lemma get_friends_backing (items : list value) (self : Paginator.t)
      (offset : Z) (w : world) :
  network w = backing_network items ->
  Paginator.get_friends self offset w
  = (Ok (VList (slice items offset (Paginator.count self))),
     record_request w (page_request self offset)).
Proof.
  intros Hn. rewrite get_friends_unfold, Hn. reflexivity.
Qed.

Lemma slice_at_end (acc rest : list value) (p : Z) :
  slice (acc ++ rest) (Z.of_nat (List.length acc)) p
  = firstn (Z.to_nat p) rest.
Proof.
  unfold slice. rewrite Nat2Z.id.
  rewrite skipn_app, skipn_all, Nat.sub_diag. reflexivity.
Qed.

Lemma requests_for_short (n : nat) (p : Z) :
  Z.of_nat n < p -> requests_for n p = 1%nat.
Proof.
  intros H. unfold requests_for. rewrite Z.div_small by lia. reflexivity.
Qed.

Lemma requests_for_full (n : nat) (p : Z) :
  1 <= p -> p <= Z.of_nat n ->
  requests_for n p = S (requests_for (n - Z.to_nat p) p).
Proof.
  intros Hp H. unfold requests_for.
  replace (Z.of_nat n) with (Z.of_nat (n - Z.to_nat p) + 1 * p) at 1 by lia.
  rewrite Z.div_add by lia.
  assert (0 <= Z.of_nat (n - Z.to_nat p) / p) by (apply Z.div_pos; lia).
  lia.
Qed.

Lemma get_all_friends_loop_backing (p : Z) (items : list value)
      (self : Paginator.t) :
  1 <= p -> Paginator.count self = p ->
  forall (fuel : nat) (rest acc : list value) (w : world),
    network w = backing_network items ->
    items = (acc ++ rest)%list ->
    (requests_for (List.length rest) p <= fuel)%nat ->
    Paginator.get_all_friends_loop fuel self p
      (Z.of_nat (List.length acc)) acc w
    = Some (Ok items,
            set_sent w
              (sent w ++ map (page_request self)
                           (offsets_from (Z.of_nat (List.length acc)) p
                              (requests_for (List.length rest) p)))).
Proof.
  intros Hp Hc. induction fuel as [|fuel IH]; intros rest acc w Hn Hi Hf.
  - unfold requests_for in Hf.
    assert (0 <= Z.of_nat (List.length rest) / p) by (apply Z.div_pos; lia).
    lia.
  - cbn [Paginator.get_all_friends_loop].
    rewrite (get_friends_backing items) by assumption.
    rewrite Hc, Hi, slice_at_end. cbn [py_iter py_len].
    destruct (Z.ltb_spec (Z.of_nat (List.length (firstn (Z.to_nat p) rest))) p)
      as [Hlt | Hge].
    + assert (Hshort : Z.of_nat (List.length rest) < p).
      { rewrite length_firstn in Hlt. lia. }
      rewrite firstn_all2 by lia.
      rewrite requests_for_short by assumption. reflexivity.
    + assert (Hfull : p <= Z.of_nat (List.length rest)).
      { rewrite length_firstn in Hge. lia. }
      rewrite requests_for_full in * by assumption.
      set (page := firstn (Z.to_nat p) rest).
      assert (Hlen : List.length page = Z.to_nat p).
      { unfold page. rewrite length_firstn. lia. }
      replace (Z.of_nat (List.length acc) + p)
        with (Z.of_nat (List.length (acc ++ page))).
      2:{ rewrite length_app, Hlen. lia. }
      rewrite <- Hi.
      rewrite (IH (skipn (Z.to_nat p) rest) (acc ++ page)%list).
      * rewrite length_skipn. cbn [offsets_from map].
        unfold record_request, set_sent. cbn.
        rewrite <- app_assoc. cbn.
        rewrite length_app, Hlen.
        replace (Z.of_nat (List.length acc + Z.to_nat p))
          with (Z.of_nat (List.length acc) + p) by lia.
        reflexivity.
      * exact Hn.
      * rewrite Hi, <- app_assoc. unfold page.
        now rewrite firstn_skipn.
      * rewrite length_skipn. lia.
Qed.

Lemma pages_backing (p : Z) :
  1 <= p ->
  forall (n : nat) (rest acc : list value),
    n = requests_for (List.length rest) p ->
    exists full last,
      map (fun o => slice (acc ++ rest) o p)
          (offsets_from (Z.of_nat (List.length acc)) p n)
      = (full ++ [last])%list
      /\ Forall (fun page => Z.of_nat (List.length page) = p) full
      /\ Z.of_nat (List.length last) < p
      /\ List.concat (full ++ [last]) = rest.
Proof.
  intros Hp. induction n as [|n IH]; intros rest acc Hn.
  - unfold requests_for in Hn.
    assert (0 <= Z.of_nat (List.length rest) / p) by (apply Z.div_pos; lia).
    lia.
  - cbn [offsets_from map]. rewrite slice_at_end.
    destruct (Z.lt_ge_cases (Z.of_nat (List.length rest)) p) as [Hlt | Hge].
    + rewrite requests_for_short in Hn by assumption.
      injection Hn as ->. cbn [offsets_from map].
      exists [], rest. rewrite firstn_all2 by lia. cbn.
      rewrite app_nil_r. repeat split; [constructor | assumption].
    + rewrite requests_for_full in Hn by assumption. injection Hn as Hn.
      set (page := firstn (Z.to_nat p) rest).
      assert (Hlen : List.length page = Z.to_nat p).
      { unfold page. rewrite length_firstn. lia. }
      destruct (IH (skipn (Z.to_nat p) rest) (acc ++ page)%list)
        as (full & last & Hpages & Hfull & Hlast & Hcat).
      { now rewrite length_skipn. }
      exists (page :: full), last.
      replace (Z.of_nat (List.length acc) + p)
        with (Z.of_nat (List.length (acc ++ page)))
        by (rewrite length_app, Hlen; lia).
      replace (acc ++ rest)%list
        with ((acc ++ page) ++ skipn (Z.to_nat p) rest)%list
        by (rewrite <- app_assoc; unfold page; now rewrite firstn_skipn).
      rewrite Hpages. repeat split.
      * constructor; [lia | assumption].
      * assumption.
      * cbn. rewrite Hcat. unfold page. apply firstn_skipn.
Qed.

Lemma length_offsets_from (start p : Z) (n : nat) :
  List.length (offsets_from start p n) = n.
Proof.
  revert start. induction n as [|n IH]; intros start; cbn; [reflexivity|].
  now rewrite IH.
Qed.

Lemma requests_for_count (n : nat) (p : Z) :
  1 <= p ->
  (Z.of_nat n mod p = 0 -> Z.of_nat (requests_for n p) = Z.of_nat n / p + 1)
  /\ (Z.of_nat n mod p <> 0 ->
      Z.of_nat (requests_for n p) = (Z.of_nat n + p - 1) / p).
Proof.
  intros Hp. unfold requests_for.
  assert (H0 : 0 <= Z.of_nat n / p) by (apply Z.div_pos; lia).
  split; intros Hm; [lia|].
  rewrite Z2Nat.id by lia.
  pose proof (Z.div_mod (Z.of_nat n) p ltac:(lia)) as Hdm.
  pose proof (Z.mod_pos_bound (Z.of_nat n) p ltac:(lia)) as Hb.
  apply (Z.div_unique _ _ _ (Z.of_nat n mod p - 1)); lia.
Qed.

(** C1 (amended to page sizes of at least one) — For every page size
    [p >= 1], used both as the request count of the paginator and as the
    argument of [get_all_friends], and every backing sequence of [N]
    items served in order, [get_all_friends] terminates and returns the
    sequence, which is the concatenation of the fetched pages in request
    order; every page but the last holds [p] items and the last holds
    fewer; the requests go to offsets [0], [p], [2p], ... and their
    number is [N / p + 1] when [p] divides [N] and the ceiling of [N / p]
    otherwise. *)
Theorem get_all_friends_drains
        (p : Z) (items : list value) (self : Paginator.t) (w : world) :
  1 <= p ->
  Paginator.count self = p ->
  network w = backing_network items ->
  let N := Z.of_nat (List.length items) in
  let n := requests_for (List.length items) p in
  let offsets := offsets_from 0 p n in
  let pages := map (fun o => slice items o p) offsets in
  let w' := set_sent w (sent w ++ map (page_request self) offsets) in
  (forall fuel, (n <= fuel)%nat ->
                Paginator.get_all_friends fuel self p w
                = Some (Ok items, w'))
  /\ List.concat pages = items
  /\ (exists full last,
        pages = (full ++ [last])%list
        /\ Forall (fun page => Z.of_nat (List.length page) = p) full
        /\ Z.of_nat (List.length last) < p)
  /\ List.length (sent w') = (List.length (sent w) + n)%nat
  /\ (N mod p = 0 -> Z.of_nat n = N / p + 1)
  /\ (N mod p <> 0 -> Z.of_nat n = (N + p - 1) / p).
Proof.
  intros Hp Hc Hn. cbn zeta.
  destruct (pages_backing p Hp (requests_for (List.length items) p)
                          items [] eq_refl)
    as (full & last & Hpages & Hfull & Hlast & Hcat).
  cbn [app List.length Z.of_nat] in Hpages.
  repeat split.
  - intros fuel Hfuel. unfold Paginator.get_all_friends.
    apply (get_all_friends_loop_backing p items self Hp Hc fuel items []);
      auto.
  - now rewrite Hpages.
  - exists full, last. auto.
  - cbn. now rewrite length_app, length_map, length_offsets_from.
  - apply requests_for_count; assumption.
  - apply requests_for_count; assumption.
Qed.

Lemma get_all_friends_drains_witness :
  Paginator.get_all_friends 3 (Paginator.mk "token" 1 2) 2
    (quiet_world (backing_network [VInt 1; VInt 2; VInt 3; VInt 4]))
  = Some (Ok [VInt 1; VInt 2; VInt 3; VInt 4],
          set_sent
            (quiet_world (backing_network [VInt 1; VInt 2; VInt 3; VInt 4]))
            (map (page_request (Paginator.mk "token" 1 2)) [0; 2; 4])).
Proof.
  destruct (get_all_friends_drains
              2 [VInt 1; VInt 2; VInt 3; VInt 4] (Paginator.mk "token" 1 2)
              (quiet_world (backing_network [VInt 1; VInt 2; VInt 3; VInt 4])))
    as (H & _); [lia | reflexivity | reflexivity |].
  apply (H 3%nat). vm_compute. lia.
Defined.

Lemma get_all_friends_loop_zero (items : list value) (self : Paginator.t) :
  Paginator.count self = 0 ->
  forall (fuel : nat) (offset : Z) (acc : list value) (w : world),
    network w = backing_network items ->
    Paginator.get_all_friends_loop fuel self 0 offset acc w = None.
Proof.
  intros Hc. induction fuel as [|fuel IH]; intros offset acc w Hn;
    [reflexivity|].
  cbn [Paginator.get_all_friends_loop].
  rewrite (get_friends_backing items) by assumption.
  rewrite Hc. unfold slice. cbn [Z.to_nat firstn py_iter py_len List.length].
  cbn [Z.of_nat Z.ltb Z.compare]. apply IH. exact Hn.
Qed.

(** With a page size of zero the loop of [get_all_friends] never ends:
    no page is ever shorter than the page size. *)
Lemma get_all_friends_zero_page_size :
  ~ exists fuel r,
      Paginator.get_all_friends fuel (Paginator.mk "token" 1 0) 0
        (quiet_world (backing_network [VInt 1; VInt 2]))
      = Some r.
Proof.
  intros (fuel & r & H). unfold Paginator.get_all_friends in H.
  rewrite (get_all_friends_loop_zero [VInt 1; VInt 2]) in H;
    [discriminate | reflexivity | reflexivity].
Qed.

(** The page size of the loop is the argument of [get_all_friends], not
    the [count] the paginator sends: with the default [count] of 1000 and
    an argument of 2, four items come back as six. *)
Example get_all_friends_two_counts :
  exists w',
    Paginator.get_all_friends 3 (Paginator.init 1 "token") 2
      (quiet_world (backing_network [VInt 1; VInt 2; VInt 3; VInt 4]))
    = Some (Ok [VInt 1; VInt 2; VInt 3; VInt 4; VInt 3; VInt 4], w').
Proof. eexists. reflexivity. Qed.

Local Close Scope Z_scope.

(* ================================================================== *)
(** * Further properties: transport and paginator *)
(* ================================================================== *)

Lemma prefix_append (s t : string) : String.prefix s (s ++ t) = true.
Proof.
  induction s as [|c s IH]; cbn; [now destruct t|].
  destruct (ascii_dec c c); [assumption | congruence].
Qed.

Lemma prefix_refl (s : string) : String.prefix s s = true.
Proof.
  induction s as [|c s IH]; cbn; [reflexivity|].
  destruct (ascii_dec c c); [assumption | congruence].
Qed.

(** X1 — [HttpClient.request] sends exactly one request, whatever comes
    back, and touches nothing else.  It returns a body exactly when the
    transport answered with status 200 and a body that decodes; with any
    other status it raises an exception whose message starts with the
    status code sentence. *)
Theorem http_request_outcome
        (method url : string) (p : params) (w : world) :
  snd (HttpClient.request method url p w) = record_request w p
  /\ (forall body,
        fst (HttpClient.request method url p w) = Ok body <->
        exists response,
          network w method url p = Ok response
          /\ status_code response = 200%Z
          /\ json response = Ok body)
  /\ (forall response,
        network w method url p = Ok response ->
        status_code response <> 200%Z ->
        exists msg,
          fst (HttpClient.request method url p w)
          = Raise (mk_exn Exception msg)
          /\ String.prefix
               ("Your request returned "
                ++ string_of_Z (status_code response) ++ " status code.")
               msg = true).
Proof.
  unfold HttpClient.request, record_request.
  destruct (network w method url p) as [response|e] eqn:En; cbn [fst snd].
  - split; [reflexivity|]. split.
    + intros body. unfold HttpClient.check_response.
      destruct (Z.eqb_spec (status_code response) 200) as [Hs|Hs].
      * split; [intros H; exists response; auto|].
        intros (r & [= <-] & _ & Hj). exact Hj.
      * split; [discriminate|]. intros (r & [= <-] & Hs' & _).
        contradiction.
    + intros r [= <-] Hs. unfold HttpClient.check_response.
      destruct (Z.eqb_spec (status_code response) 200); [contradiction|].
      eexists. split; [reflexivity|].
      destruct (status_code response =? 404)%Z;
        [|destruct (status_code response =? 500)%Z].
      * apply prefix_append.
      * apply prefix_append.
      * apply prefix_refl.
  - split; [reflexivity|]. split.
    + intros body. split; [discriminate|]. intros (r & [=] & _).
    + intros r [=].
Qed.

Lemma http_request_outcome_witness :
  fst (HttpClient.request "get" URL
         (mk_params "token" 1 0 1000 "country, city ,bdate, sex" "5.131")
         (quiet_world (backing_network [VInt 1; VInt 2])))
  = Ok (envelope_of [VInt 1; VInt 2]).
Proof.
  destruct (http_request_outcome "get" URL
              (mk_params "token" 1 0 1000 "country, city ,bdate, sex" "5.131")
              (quiet_world (backing_network [VInt 1; VInt 2])))
    as (_ & H & _).
  apply H. eexists. repeat split.
Defined.

Lemma page_of_ok (r : result response) (page : value) :
  page_of r = Ok page <->
  exists response body envelope,
    r = Ok response
    /\ status_code response = 200%Z
    /\ json response = Ok (VDict body)
    /\ dict_lookup body "response" = Some (VDict envelope)
    /\ dict_lookup envelope "items" = Some page.
Proof.
  unfold page_of, HttpClient.check_response. split.
  - destruct r as [response|e]; cbn [rbind]; [|discriminate].
    destruct (Z.eqb_spec (status_code response) 200) as [Hs|Hs];
      [|discriminate].
    destruct (json response) as [body|e] eqn:Ej; cbn [rbind];
      [|discriminate].
    destruct body as [| | | | |body]; try (cbn; discriminate).
    cbn [py_getitem]. unfold dict_getitem at 1.
    destruct (dict_lookup body "response") as [env|] eqn:Eb; cbn [rbind];
      [|discriminate].
    destruct env as [| | | | |env]; try (cbn; discriminate).
    cbn [py_getitem]. unfold dict_getitem.
    destruct (dict_lookup env "items") as [v|] eqn:Ei; [|discriminate].
    intros [= <-]. exists response, body, env. auto 6.
  - intros (response & body & env & -> & Hs & Hj & Hb & Hi). cbn [rbind].
    rewrite Hs, Hj. cbn [Z.eqb Pos.eqb rbind py_getitem].
    unfold dict_getitem. rewrite Hb. cbn [rbind py_getitem].
    unfold dict_getitem. now rewrite Hi.
Qed.

(** X2 — [get_friends] sends exactly one request, at the given offset and
    with the paginator's own [count], and touches nothing else.  It
    returns exactly what a 200 response holds under [response.items]
    (both levels being mappings); every other outcome is an exception of
    class [Exception] whose message starts with the fixed prefix: no
    [KeyError], [TypeError] or transport error leaves it as such. *)
Theorem get_friends_outcome (self : Paginator.t) (offset : Z) (w : world) :
  snd (Paginator.get_friends self offset w)
  = record_request w (page_request self offset)
  /\ p_offset (page_request self offset) = offset
  /\ p_count (page_request self offset) = Paginator.count self
  /\ (forall page,
        fst (Paginator.get_friends self offset w) = Ok page <->
        exists response body envelope,
          network w "get" URL (page_request self offset) = Ok response
          /\ status_code response = 200%Z
          /\ json response = Ok (VDict body)
          /\ dict_lookup body "response" = Some (VDict envelope)
          /\ dict_lookup envelope "items" = Some page)
  /\ (forall e,
        fst (Paginator.get_friends self offset w) = Raise e ->
        exn_cls e = Exception
        /\ String.prefix "Error occurred while requesting friends list: "
                         (exn_str e) = true).
Proof.
  rewrite get_friends_unfold. cbn [fst snd].
  split; [reflexivity|]. split; [reflexivity|]. split; [reflexivity|]. split.
  - intros page. rewrite <- page_of_ok.
    destruct (page_of _); split; congruence.
  - intros e. destruct (page_of _) as [v|e0]; [discriminate|].
    intros [= <-]. split; [reflexivity|]. apply prefix_append.
Qed.

Lemma get_friends_outcome_witness :
  fst (Paginator.get_friends (Paginator.init 1 "token") 0
         (quiet_world (backing_network [VInt 1; VInt 2])))
  = Ok (VList [VInt 1; VInt 2])
  /\ exn_cls (fetch_error (mk_exn ConnectionError "Connection refused"))
     = Exception.
Proof.
  split.
  - destruct (get_friends_outcome (Paginator.init 1 "token") 0%Z
                (quiet_world (backing_network [VInt 1; VInt 2])))
      as (_ & _ & _ & H & _).
    apply H. do 3 eexists. repeat split.
  - destruct (get_friends_outcome (Paginator.init 1 "token") 0%Z
                (quiet_world
                   (fun _ _ _ =>
                      Raise (mk_exn ConnectionError "Connection refused"))))
      as (_ & _ & _ & _ & H).
    apply (H (fetch_error (mk_exn ConnectionError "Connection refused"))).
    reflexivity.
Defined.

Lemma only_sent_changed_refl (w : world) : only_sent_changed w w.
Proof. repeat split. Qed.

Lemma only_sent_changed_record (w w' : world) (p : params) :
  only_sent_changed (record_request w p) w' -> only_sent_changed w w'.
Proof. intros H. exact H. Qed.

Lemma get_all_friends_loop_requests (self : Paginator.t) (count : Z)
      (fuel : nat) (offset : Z) (acc : list value) (w w' : world)
      (r : result (list value)) :
  Paginator.get_all_friends_loop fuel self count offset acc w = Some (r, w') ->
  exists n,
    (1 <= n <= fuel)%nat
    /\ sent w' = (sent w ++ map (page_request self)
                              (offsets_from offset count n))%list
    /\ only_sent_changed w w'.
Proof.
  revert offset acc w w' r.
  induction fuel as [|fuel IH]; intros offset acc w w' r; [discriminate|].
  cbn [Paginator.get_all_friends_loop]. rewrite get_friends_unfold.
  assert (Hone : forall r0,
             Some (r0, record_request w (page_request self offset))
             = Some (r, w') ->
             exists n,
               (1 <= n <= S fuel)%nat
               /\ sent w' = (sent w ++ map (page_request self)
                                         (offsets_from offset count n))%list
               /\ only_sent_changed w w').
  { intros r0 [= _ Hw]. subst w'. exists 1%nat. split; [lia|].
    split; [reflexivity | repeat split]. }
  destruct (page_of _) as [page|e]; [|apply Hone].
  destruct (py_iter page) as [its|e]; [|apply Hone].
  destruct (py_len page) as [n|e]; [|apply Hone].
  destruct (n <? count)%Z; [apply Hone|].
  intros H. apply IH in H as (k & Hk & Hs & Hw).
  exists (S k). split; [lia|]. split.
  - rewrite Hs. cbn. now rewrite <- app_assoc.
  - exact Hw.
Qed.

(** X3 — Whatever the remote end answers and however the run ends,
    [get_all_friends] sends its requests to the offsets [0], [count],
    [2 * count], ... in this order, each with the paginator's own
    [count], at least one and at most one per iteration, and it changes
    nothing else: no file, no log entry. *)
Theorem get_all_friends_requests
        (fuel : nat) (self : Paginator.t) (count : Z) (w w' : world)
        (r : result (list value)) :
  Paginator.get_all_friends fuel self count w = Some (r, w') ->
  exists n,
    (1 <= n <= fuel)%nat
    /\ sent w' = (sent w ++ map (page_request self)
                              (offsets_from 0 count n))%list
    /\ only_sent_changed w w'.
Proof. apply get_all_friends_loop_requests. Qed.

Lemma get_all_friends_requests_witness :
  exists n,
    (1 <= n <= 3)%nat
    /\ sent (set_sent
               (quiet_world (backing_network [VInt 1; VInt 2; VInt 3]))
               (map (page_request (Paginator.mk "token" 1 2)) [0; 2]%Z))
       = ([] ++ map (page_request (Paginator.mk "token" 1 2))
                    (offsets_from 0 2 n))%list.
Proof.
  destruct (get_all_friends_requests
              3 (Paginator.mk "token" 1 2) 2
              (quiet_world (backing_network [VInt 1; VInt 2; VInt 3]))
              (set_sent
                 (quiet_world (backing_network [VInt 1; VInt 2; VInt 3]))
                 (map (page_request (Paginator.mk "token" 1 2)) [0; 2]%Z))
              (Ok [VInt 1; VInt 2; VInt 3]) eq_refl)
    as (n & Hn & Hs & _).
  exists n. split; assumption.
Defined.

Lemma get_all_friends_loop_pages (self : Paginator.t) (count : Z)
      (fuel : nat) (offset : Z) (acc r : list value) (w w' : world) :
  Paginator.get_all_friends_loop fuel self count offset acc w
  = Some (Ok r, w') ->
  exists full last,
    r = (acc ++ List.concat (full ++ [last]))%list
    /\ Forall2 (page_at self w)
               (offsets_from offset count (S (List.length full)))
               (full ++ [last])
    /\ Forall (fun page => (count <= Z.of_nat (List.length page))%Z) full
    /\ (Z.of_nat (List.length last) < count)%Z.
Proof.
  revert offset acc w w' r.
  induction fuel as [|fuel IH]; intros offset acc w w' r; [discriminate|].
  cbn [Paginator.get_all_friends_loop]. rewrite get_friends_unfold.
  destruct (page_of _) as [v|e] eqn:Ev; [|discriminate].
  destruct (py_iter v) as [its|e] eqn:Ei; [|discriminate].
  rewrite (py_len_iter v its Ei).
  destruct (Z.ltb_spec (Z.of_nat (List.length its)) count) as [Hlt|Hge].
  - intros [= <- _]. exists [], its. cbn. rewrite app_nil_r.
    repeat split; try constructor; try assumption; try constructor.
    exists v. auto.
  - intros H. apply IH in H as (full & last & Hr & Hp & Hfull & Hlast).
    exists (its :: full), last. repeat split.
    + rewrite Hr. cbn. now rewrite <- app_assoc.
    + cbn. constructor; [exists v; auto | exact Hp].
    + constructor; assumption.
    + assumption.
Qed.

(** X4 — Whatever the remote end serves, a list returned by
    [get_all_friends] is the concatenation, in request order, of the
    pages found at the offsets [0], [count], [2 * count], ...; the last
    of these pages is shorter than [count] and no earlier one is. *)
Theorem get_all_friends_pages
        (fuel : nat) (self : Paginator.t) (count : Z) (w w' : world)
        (r : list value) :
  Paginator.get_all_friends fuel self count w = Some (Ok r, w') ->
  exists full last,
    r = List.concat (full ++ [last])
    /\ Forall2 (page_at self w)
               (offsets_from 0 count (S (List.length full)))
               (full ++ [last])
    /\ Forall (fun page => (count <= Z.of_nat (List.length page))%Z) full
    /\ (Z.of_nat (List.length last) < count)%Z.
Proof.
  intros H. apply get_all_friends_loop_pages in H. exact H.
Qed.

Lemma get_all_friends_pages_witness :
  exists full last,
    [VInt 1; VInt 2; VInt 3] = List.concat (full ++ [last])
    /\ Forall (fun page => (2 <= Z.of_nat (List.length page))%Z) full
    /\ (Z.of_nat (List.length last) < 2)%Z.
Proof.
  destruct (get_all_friends_pages
              3 (Paginator.mk "token" 1 2) 2
              (quiet_world (backing_network [VInt 1; VInt 2; VInt 3]))
              (set_sent
                 (quiet_world (backing_network [VInt 1; VInt 2; VInt 3]))
                 (map (page_request (Paginator.mk "token" 1 2)) [0; 2]%Z))
              [VInt 1; VInt 2; VInt 3] eq_refl)
    as (full & last & Hr & _ & Hfull & Hlast).
  exists full, last. auto.
Defined.

(** X5 — The loop of [get_all_friends] measures pages against its own
    [count] argument, not against the [count] the paginator sends.  When
    the paginator asks for fewer items per page than that argument, the
    first page already looks short: one request is made and only the
    first [count self] items of the backing sequence come back. *)
Theorem get_all_friends_truncates
        (c p : Z) (items : list value) (self : Paginator.t) (w : world)
        (fuel : nat) :
  (0 <= c < p)%Z ->
  Paginator.count self = c ->
  network w = backing_network items ->
  Paginator.get_all_friends (S fuel) self p w
  = Some (Ok (firstn (Z.to_nat c) items),
          record_request w (page_request self 0)).
Proof.
  intros Hc Hs Hn. unfold Paginator.get_all_friends.
  cbn [Paginator.get_all_friends_loop].
  rewrite (get_friends_backing items) by assumption.
  rewrite Hs. unfold slice. cbn [Z.to_nat skipn py_iter py_len app].
  pose proof (firstn_le_length (Z.to_nat c) items) as Hle.
  destruct (Z.ltb_spec (Z.of_nat (List.length (firstn (Z.to_nat c) items))) p);
    [reflexivity | lia].
Qed.

Lemma get_all_friends_truncates_witness :
  Paginator.get_all_friends 5 (Paginator.mk "token" 1 2) 1000
    (quiet_world (backing_network [VInt 1; VInt 2; VInt 3; VInt 4]))
  = Some (Ok [VInt 1; VInt 2],
          record_request
            (quiet_world (backing_network [VInt 1; VInt 2; VInt 3; VInt 4]))
            (page_request (Paginator.mk "token" 1 2) 0)).
Proof.
  apply (get_all_friends_truncates
           2 1000 [VInt 1; VInt 2; VInt 3; VInt 4]
           (Paginator.mk "token" 1 2)
           (quiet_world (backing_network [VInt 1; VInt 2; VInt 3; VInt 4]))
           4);
    [lia | reflexivity | reflexivity].
Defined.

(** X6 — [parse] drains a backing sequence with pages of 1000: the
    paginator that [FriendsParser] builds sends [count = 1000] and
    [parse] calls [get_all_friends] with its default of 1000, so the
    whole sequence comes back, after [N / 1000 + 1] requests at the
    offsets [0], [1000], ...; the output format and name play no part. *)
Theorem parse_drains
        (user_id : Z) (access_token output_format output_name : string)
        (items : list value) (w : world) (fuel : nat) :
  network w = backing_network items ->
  (requests_for (List.length items) 1000 <= fuel)%nat ->
  let self :=
    FriendsParser.init user_id access_token output_format output_name in
  FriendsParser.parse fuel self w
  = Some (Ok items,
          set_sent w
            (sent w ++ map (page_request (Paginator.init user_id access_token))
                         (offsets_from 0 1000
                            (requests_for (List.length items) 1000))))
  /\ Z.of_nat (requests_for (List.length items) 1000)
     = (Z.of_nat (List.length items) / 1000 + 1)%Z.
Proof.
  intros Hn Hf. cbn zeta. split.
  - unfold FriendsParser.parse, Paginator.get_all_friends.
    apply (get_all_friends_loop_backing
             1000 items (Paginator.init user_id access_token)
             ltac:(lia) eq_refl fuel items [] w Hn eq_refl Hf).
  - unfold requests_for.
    assert (0 <= Z.of_nat (List.length items) / 1000)%Z
      by (apply Z.div_pos; lia).
    lia.
Qed.

Lemma parse_drains_witness :
  FriendsParser.parse 1 (FriendsParser.init 1 "token" "csv" "report")
    (quiet_world (backing_network [VInt 1; VInt 2]))
  = Some (Ok [VInt 1; VInt 2],
          set_sent (quiet_world (backing_network [VInt 1; VInt 2]))
                   [page_request (Paginator.init 1 "token") 0]).
Proof.
  destruct (parse_drains 1 "token" "csv" "report" [VInt 1; VInt 2]
              (quiet_world (backing_network [VInt 1; VInt 2])) 1)
    as (H & _); [reflexivity | vm_compute; lia |].
  exact H.
Defined.

(** X7 — When a well-formed response holds under [items] something that
    cannot be iterated over ([None], a boolean, a number),
    [get_all_friends] raises the [TypeError] of [list.extend] as it is,
    not wrapped like the errors of [get_friends], and returns no list. *)
Theorem get_all_friends_items_not_iterable
        (fuel : nat) (self : Paginator.t) (count : Z) (w : world)
        (v : value) :
  page_of (network w "get" URL (page_request self 0)) = Ok v ->
  not_iterable v = true ->
  Paginator.get_all_friends (S fuel) self count w
  = Some (Raise (mk_exn TypeError
                   ("'" ++ type_name v ++ "' object is not iterable")),
          record_request w (page_request self 0)).
Proof.
  intros Hp Hv. unfold Paginator.get_all_friends.
  cbn [Paginator.get_all_friends_loop]. rewrite get_friends_unfold, Hp.
  destruct v; try discriminate; reflexivity.
Qed.

Lemma get_all_friends_items_not_iterable_witness :
  Paginator.get_all_friends 1 (Paginator.init 1 "token") 1000
    (quiet_world
       (fun _ _ _ =>
          Ok (mk_response 200
                (Ok (VDict [("response", VDict [("items", VNone)])])))))
  = Some (Raise (mk_exn TypeError "'NoneType' object is not iterable"),
          record_request
            (quiet_world
               (fun _ _ _ =>
                  Ok (mk_response 200
                        (Ok (VDict [("response",
                                     VDict [("items", VNone)])])))))
            (page_request (Paginator.init 1 "token") 0)).
Proof.
  apply (get_all_friends_items_not_iterable
           0 (Paginator.init 1 "token") 1000 _ VNone); reflexivity.
Defined.

(* ================================================================== *)
(** * Further properties: extraction *)
(* ================================================================== *)

(** X8 — [extract_data] looks at the six fields only: two records that
    agree on [first_name], [last_name], [country], [city], [bdate] and
    [sex] are extracted alike (to the same mapping or the same error),
    whatever else they hold and in whatever order. *)
Theorem extract_data_depends_on_fields (a b : dict) :
  (forall k, In k FriendsParser.FIELDS -> dict_lookup a k = dict_lookup b k) ->
  FriendsParser.extract_data a = FriendsParser.extract_data b.
Proof.
  intros H. rewrite !extract_data_unfold.
  unfold FriendsParser.get_value_from_data, FriendsParser.get_date_value,
    dict_get.
  rewrite (H "first_name"), (H "last_name"), (H "country"), (H "city"),
    (H "bdate"), (H "sex") by (cbn; tauto).
  reflexivity.
Qed.

Lemma extract_data_depends_on_fields_witness :
  FriendsParser.extract_data
    [("id", VInt 7); ("sex", VInt 2); ("first_name", VStr "Bob");
     ("online", VInt 0)]
  = FriendsParser.extract_data [("first_name", VStr "Bob"); ("sex", VInt 2)].
Proof.
  apply extract_data_depends_on_fields.
  intros k Hk. cbn in Hk.
  destruct Hk as [<- | [<- | [<- | [<- | [<- | [<- | []]]]]]]; reflexivity.
Defined.

Local Open Scope Z_scope.

Lemma match_groups_day_text (d : Z) (t : string)
      (gs : list (list (list cclass))) (r : string) (ts : list string)
      (r' : string) :
  1 <= d <= 31 -> day_text d t ->
  match_groups gs r = Some (ts, r') ->
  match_groups (re_d :: re_dot :: gs) (t ++ "." ++ r)
  = Some (t :: "." :: ts, r')%string
  /\ int_of_group t = d.
Proof.
  intros Hd Ht H.
  assert (C : d = 1 \/ d = 2 \/ d = 3 \/ d = 4 \/ d = 5 \/ d = 6 \/ d = 7
              \/ d = 8 \/ d = 9 \/ d = 10 \/ d = 11 \/ d = 12 \/ d = 13
              \/ d = 14 \/ d = 15 \/ d = 16 \/ d = 17 \/ d = 18 \/ d = 19
              \/ d = 20 \/ d = 21 \/ d = 22 \/ d = 23 \/ d = 24 \/ d = 25
              \/ d = 26 \/ d = 27 \/ d = 28 \/ d = 29 \/ d = 30 \/ d = 31)
    by lia.
  repeat (destruct C as [-> | C]); try subst d;
    (destruct Ht as [-> | [-> | [Hlt ->]]];
     [ | | try (exfalso; lia) ];
     cbn; rewrite H; split; reflexivity).
Qed.

Lemma match_groups_month_text (m : Z) (t : string)
      (gs : list (list (list cclass))) (r : string) (ts : list string)
      (r' : string) :
  1 <= m <= 12 -> month_text m t ->
  match_groups gs r = Some (ts, r') ->
  match_groups (re_m :: re_dot :: gs) (t ++ "." ++ r)
  = Some (t :: "." :: ts, r')%string
  /\ int_of_group t = m.
Proof.
  intros Hm Ht H.
  assert (C : m = 1 \/ m = 2 \/ m = 3 \/ m = 4 \/ m = 5 \/ m = 6 \/ m = 7
              \/ m = 8 \/ m = 9 \/ m = 10 \/ m = 11 \/ m = 12) by lia.
  repeat (destruct C as [-> | C]); try subst m;
    (destruct Ht as [-> | ->]; cbn; rewrite H; split; reflexivity).
Qed.

Lemma strptime_texts (y m d : Z) (dtxt mtxt : string) :
  valid_date y m d -> day_text d dtxt -> month_text m mtxt ->
  strptime_str (dtxt ++ "." ++ mtxt ++ "." ++ pad4 y) = Ok (mk_date y m d).
Proof.
  intros (Hy & Hm & Hd) Hdt Hmt.
  pose proof (days_in_month_le y m).
  destruct (match_groups_month_text m mtxt [re_Y] (pad4 y) [pad4 y]
              EmptyString) as [Hmm Him];
    [lia | assumption | apply match_groups_year |].
  destruct (match_groups_day_text d dtxt _ _ _ _ ltac:(lia) Hdt Hmm)
    as [Hdd Hid].
  unfold strptime_str, format_regex. rewrite Hdd.
  rewrite int_of_group_pad4, Him, Hid by lia.
  unfold make_date.
  destruct (Z.ltb_spec y 1); [lia|].
  destruct (Z.ltb_spec (days_in_month y m) d); [lia|]. reflexivity.
Qed.

Local Close Scope Z_scope.

Lemma match_seq_app (cs : list cclass) (s t r : string) :
  match_seq cs s = Some (t, r) -> s = t ++ r.
Proof.
  revert s t. induction cs as [|c cs IH]; intros s t; cbn.
  - now intros [= <- <-].
  - destruct s as [|a s]; [discriminate|].
    destruct (c a); [|discriminate].
    destruct (match_seq cs s) as [[t' r']|] eqn:E; [|discriminate].
    intros [= <- <-]. cbn. f_equal. now apply IH.
Qed.

Lemma match_groups_cons_inv (alts : list (list cclass))
      (gs : list (list (list cclass))) (s : string) (ts : list string)
      (r' : string) :
  match_groups (alts :: gs) s = Some (ts, r') ->
  exists a t r ts',
    In a alts /\ match_seq a s = Some (t, r)
    /\ match_groups gs r = Some (ts', r') /\ ts = t :: ts'.
Proof.
  cbn [match_groups]. induction alts as [|a alts IH]; [discriminate|].
  destruct (match_seq a s) as [[t r]|] eqn:Ea.
  - destruct (match_groups gs r) as [[ts' r'']|] eqn:Eg.
    + intros [= <- <-]. exists a, t, r, ts'. cbn. auto.
    + intros H. destruct (IH H) as (a' & t' & r0 & ts' & Hin & Hrest).
      exists a', t', r0, ts'. cbn. tauto.
  - intros H. destruct (IH H) as (a' & t' & r0 & ts' & Hin & Hrest).
    exists a', t', r0, ts'. cbn. tauto.
Qed.

Ltac ascii_cases a :=
  destruct a as [[] [] [] [] [] [] [] []]; cbn; try discriminate; intros _;
  tauto.

Lemma range_0_1_cases (a : ascii) :
  in_range "0" "1" a = true -> (a = "0" \/ a = "1")%char.
Proof. ascii_cases a. Qed.

Lemma range_0_2_cases (a : ascii) :
  in_range "0" "2" a = true -> (a = "0" \/ a = "1" \/ a = "2")%char.
Proof. ascii_cases a. Qed.

Lemma range_1_2_cases (a : ascii) :
  in_range "1" "2" a = true -> (a = "1" \/ a = "2")%char.
Proof. ascii_cases a. Qed.

Lemma range_1_9_cases (a : ascii) :
  in_range "1" "9" a = true ->
  (a = "1" \/ a = "2" \/ a = "3" \/ a = "4" \/ a = "5" \/ a = "6"
   \/ a = "7" \/ a = "8" \/ a = "9")%char.
Proof. ascii_cases a. Qed.

Lemma is_digit_cases (a : ascii) :
  is_digit a = true ->
  (a = "0" \/ a = "1" \/ a = "2" \/ a = "3" \/ a = "4" \/ a = "5"
   \/ a = "6" \/ a = "7" \/ a = "8" \/ a = "9")%char.
Proof. ascii_cases a. Qed.

Lemma is_char_eq (c a : ascii) : is_char c a = true -> a = c.
Proof. unfold is_char. intros H. apply Ascii.eqb_eq in H. now subst. Qed.

Local Open Scope Z_scope.

Lemma match_seq_one (c : cclass) (s t r : string) :
  match_seq [c] s = Some (t, r) ->
  exists a, c a = true /\ t = String a EmptyString.
Proof.
  destruct s as [|a s]; cbn; [discriminate|].
  destruct (c a) eqn:E; [|discriminate].
  intros [= <- _]. eauto.
Qed.

Lemma match_seq_cons (c : cclass) (cs : list cclass) (s t r : string) :
  match_seq (c :: cs) s = Some (t, r) ->
  exists a s' t',
    s = String a s' /\ c a = true /\ t = String a t'
    /\ match_seq cs s' = Some (t', r).
Proof.
  destruct s as [|a s]; cbn [match_seq]; [discriminate|].
  destruct (c a) eqn:E; [|discriminate].
  destruct (match_seq cs s) as [[t' r']|] eqn:M; [|discriminate].
  intros [= <- <-]. exists a, s, t'. auto.
Qed.

(** Reading off the characters that a sequence of classes matched *)
Ltac invert_match_seq H :=
  repeat match type of H with
    | match_seq (_ :: _) _ = Some _ =>
        let E := fresh "E" in
        apply match_seq_cons in H;
        destruct H as (? & ? & ? & -> & E & -> & H)
    | match_seq [] _ = Some _ => cbn [match_seq] in H; injection H as <- <-
    end.

Ltac class_cases :=
  repeat match goal with
    | E : is_char _ _ = true |- _ => apply is_char_eq in E; subst
    | E : in_range "0" "1" _ = true |- _ =>
        apply range_0_1_cases in E; repeat destruct E as [E|E]; subst
    | E : in_range "0" "2" _ = true |- _ =>
        apply range_0_2_cases in E; repeat destruct E as [E|E]; subst
    | E : in_range "1" "2" _ = true |- _ =>
        apply range_1_2_cases in E; repeat destruct E as [E|E]; subst
    | E : in_range "1" "9" _ = true |- _ =>
        apply range_1_9_cases in E; repeat destruct E as [E|E]; subst
    | E : is_digit _ = true |- _ =>
        apply is_digit_cases in E; repeat destruct E as [E|E]; subst
    end.

Lemma day_group_sound (a : list cclass) (s t r : string) :
  In a re_d -> match_seq a s = Some (t, r) ->
  1 <= int_of_group t <= 31 /\ day_text (int_of_group t) t.
Proof.
  intros Hin H. unfold re_d in Hin. cbn [In] in Hin.
  destruct Hin as [<- | [<- | [<- | [<- | [<- | []]]]]];
    invert_match_seq H; class_cases;
    (split; [vm_compute; split; discriminate|]);
    first [ left; reflexivity
          | right; left; reflexivity
          | right; right; split; reflexivity ].
Qed.

Lemma month_group_sound (a : list cclass) (s t r : string) :
  In a re_m -> match_seq a s = Some (t, r) ->
  1 <= int_of_group t <= 12 /\ month_text (int_of_group t) t.
Proof.
  intros Hin H. unfold re_m in Hin. cbn [In] in Hin.
  destruct Hin as [<- | [<- | [<- | []]]];
    invert_match_seq H; class_cases;
    (split; [vm_compute; split; discriminate|]);
    first [ left; reflexivity | right; reflexivity ].
Qed.

Lemma dot_group_sound (a : list cclass) (s t r : string) :
  In a re_dot -> match_seq a s = Some (t, r) -> t = ".".
Proof.
  intros Hin H. unfold re_dot in Hin. cbn [In] in Hin.
  destruct Hin as [<- | []].
  invert_match_seq H. class_cases. reflexivity.
Qed.

Lemma is_digit_inv (a : ascii) :
  is_digit a = true -> exists n, 0 <= n <= 9 /\ a = digit_char n.
Proof.
  intros H. apply is_digit_cases in H.
  destruct H as [-> | [-> | [-> | [-> | [-> | [-> | [-> | [-> | [-> | ->]]]]]]]]].
  - exists 0. split; [lia | reflexivity].
  - exists 1. split; [lia | reflexivity].
  - exists 2. split; [lia | reflexivity].
  - exists 3. split; [lia | reflexivity].
  - exists 4. split; [lia | reflexivity].
  - exists 5. split; [lia | reflexivity].
  - exists 6. split; [lia | reflexivity].
  - exists 7. split; [lia | reflexivity].
  - exists 8. split; [lia | reflexivity].
  - exists 9. split; [lia | reflexivity].
Qed.

Lemma digit_char_mod (a b : Z) :
  a mod 10 = b mod 10 -> digit_char a = digit_char b.
Proof. unfold digit_char. now intros ->. Qed.

Lemma year_group_sound (a : list cclass) (s t r : string) :
  In a re_Y -> match_seq a s = Some (t, r) ->
  0 <= int_of_group t <= 9999 /\ t = pad4 (int_of_group t).
Proof.
  intros Hin H. unfold re_Y in Hin. cbn [In] in Hin.
  destruct Hin as [<- | []].
  invert_match_seq H.
  repeat match goal with
    | E : is_digit ?c = true |- _ =>
        let n := fresh "n" in
        let Hn := fresh "Hn" in
        apply is_digit_inv in E; destruct E as (n & Hn & ->)
    end.
  rewrite int_of_group_digit. cbn [digits_value].
  rewrite !digit_val_digit_char.
  repeat match goal with
    | Hn : 0 <= ?n <= 9 |- _ =>
        progress rewrite (Z.mod_small n 10) by lia
    end.
  match goal with
  | |- context [pad4 ?v] => set (y := v)
  end.
  match goal with
  | y := 10 * (10 * (10 * ?n1 + ?n2) + ?n3) + ?n4 |- _ =>
      assert (E1 : y / 1000 = n1)
        by (symmetry; apply (Z.div_unique _ _ _ (100 * n2 + 10 * n3 + n4));
            subst y; lia);
      assert (E2 : y / 100 = 10 * n1 + n2)
        by (symmetry; apply (Z.div_unique _ _ _ (10 * n3 + n4));
            subst y; lia);
      assert (E3 : y / 10 = 10 * (10 * n1 + n2) + n3)
        by (symmetry; apply (Z.div_unique _ _ _ n4); subst y; lia);
      assert (M2 : (y / 100) mod 10 = n2 mod 10)
        by (rewrite E2; replace (10 * n1 + n2) with (n2 + n1 * 10) by lia;
            apply Z.mod_add; lia);
      assert (M3 : (y / 10) mod 10 = n3 mod 10)
        by (rewrite E3;
            replace (10 * (10 * n1 + n2) + n3)
              with (n3 + (10 * n1 + n2) * 10) by lia;
            apply Z.mod_add; lia);
      assert (M4 : y mod 10 = n4 mod 10)
        by (subst y;
            replace (10 * (10 * (10 * n1 + n2) + n3) + n4)
              with (n4 + (10 * (10 * n1 + n2) + n3) * 10) by lia;
            apply Z.mod_add; lia)
  end.
  split; [subst y; lia|].
  unfold pad4. rewrite E1.
  rewrite (digit_char_mod _ _ M2), (digit_char_mod _ _ M3),
    (digit_char_mod _ _ M4).
  reflexivity.
Qed.

Local Close Scope Z_scope.

Lemma string_app_nil_r (s : string) : s ++ "" = s.
Proof. induction s as [|c s IH]; cbn; congruence. Qed.

Lemma strptime_str_sound (s : string) (dt : date) :
  strptime_str s = Ok dt ->
  valid_date (year dt) (month dt) (day dt)
  /\ exists dtxt mtxt,
      day_text (day dt) dtxt /\ month_text (month dt) mtxt
      /\ s = dtxt ++ "." ++ mtxt ++ "." ++ pad4 (year dt).
Proof.
  unfold strptime_str, format_regex.
  destruct (match_groups _ s) as [[ts rest]|] eqn:E; [|discriminate].
  apply match_groups_cons_inv in E
    as (a1 & t1 & r1 & ts1 & Hin1 & M1 & E & ->).
  apply match_groups_cons_inv in E
    as (a2 & t2 & r2 & ts2 & Hin2 & M2 & E & ->).
  apply match_groups_cons_inv in E
    as (a3 & t3 & r3 & ts3 & Hin3 & M3 & E & ->).
  apply match_groups_cons_inv in E
    as (a4 & t4 & r4 & ts4 & Hin4 & M4 & E & ->).
  apply match_groups_cons_inv in E
    as (a5 & t5 & r5 & ts5 & Hin5 & M5 & E & ->).
  cbn [match_groups] in E. injection E as <- <-.
  destruct r5 as [|c r5]; [|discriminate].
  destruct (day_group_sound _ _ _ _ Hin1 M1) as [Hd Hdt].
  destruct (month_group_sound _ _ _ _ Hin3 M3) as [Hm Hmt].
  destruct (year_group_sound _ _ _ _ Hin5 M5) as [Hy Hyt].
  pose proof (dot_group_sound _ _ _ _ Hin2 M2) as Hdot2.
  pose proof (dot_group_sound _ _ _ _ Hin4 M4) as Hdot4.
  apply match_seq_app in M1, M2, M3, M4, M5.
  unfold make_date.
  destruct (Z.ltb_spec (int_of_group t5) 1); [discriminate|].
  destruct (Z.ltb_spec (days_in_month (int_of_group t5) (int_of_group t3))
                       (int_of_group t1)); [discriminate|].
  intros [= <-]. cbn [year month day]. split.
  - unfold valid_date. lia.
  - exists t1, t3. split; [assumption|]. split; [assumption|].
    rewrite <- Hyt. subst s r1 r2 r3 r4 t2 t4.
    now rewrite string_app_nil_r.
Qed.

(** X9 — [get_date_value] also converts dates written without leading
    zeros (["5.3.1990"]) or with a blank for the leading zero of the day
    ([" 5.03.1990"]): for every valid date, each of these spellings of
    day and month, followed by the four-digit year, gives the
    zero-padded form [YYYY-MM-DD]. *)
Theorem get_date_value_reads_texts
        (friend : dict) (key : string) (y m d : Z) (dtxt mtxt : string) :
  valid_date y m d -> day_text d dtxt -> month_text m mtxt ->
  dict_lookup friend key
  = Some (VStr (dtxt ++ "." ++ mtxt ++ "." ++ pad4 y)) ->
  FriendsParser.get_date_value friend key
  = Ok (VStr (pad4 y ++ "-" ++ pad2 m ++ "-" ++ pad2 d)).
Proof.
  intros Hv Hd Hm H. rewrite (get_date_value_str _ _ _ H).
  now rewrite (strptime_texts y m d dtxt mtxt Hv Hd Hm).
Qed.

Lemma get_date_value_reads_texts_witness :
  FriendsParser.get_date_value [("bdate", VStr "5.3.1990")] "bdate"
  = Ok (VStr "1990-03-05")
  /\ FriendsParser.get_date_value [("bdate", VStr " 5.03.1990")] "bdate"
     = Ok (VStr "1990-03-05").
Proof.
  split.
  - apply (get_date_value_reads_texts
             [("bdate", VStr "5.3.1990")] "bdate" 1990 3 5 "5" "3").
    + unfold valid_date. vm_compute. intuition discriminate.
    + right. left. reflexivity.
    + right. reflexivity.
    + reflexivity.
  - apply (get_date_value_reads_texts
             [("bdate", VStr " 5.03.1990")] "bdate" 1990 3 5 " 5" "03").
    + unfold valid_date. vm_compute. intuition discriminate.
    + right. right. split; reflexivity.
    + left. reflexivity.
    + reflexivity.
Defined.

(** X10 — On an ASCII string, [get_date_value] gives a date exactly
    for the texts day.month.year that name a valid calendar date of the
    years 1 to 9999 (the year in four digits), and the date it gives is
    that date: an impossible date such as 31.02.1990 or 29.02.1900, a
    month above 12 or the year 0000 never comes out as a date.  On every
    string, what comes out is [None] or a valid calendar date in the
    form YYYY-MM-DD; nothing is raised. *)
Theorem get_date_value_valid_dates_only
        (friend : dict) (key s : string) :
  dict_lookup friend key = Some (VStr s) ->
  (ascii_text s = true ->
   forall iso,
     FriendsParser.get_date_value friend key = Ok (VStr iso) <->
     exists y m d dtxt mtxt,
       valid_date y m d /\ day_text d dtxt /\ month_text m mtxt
       /\ s = dtxt ++ "." ++ mtxt ++ "." ++ pad4 y
       /\ iso = pad4 y ++ "-" ++ pad2 m ++ "-" ++ pad2 d)
  /\ (forall iso,
        FriendsParser.get_date_value friend key = Ok (VStr iso) ->
        exists y m d,
          valid_date y m d
          /\ iso = pad4 y ++ "-" ++ pad2 m ++ "-" ++ pad2 d)
  /\ (FriendsParser.get_date_value friend key = Ok VNone
      \/ exists iso, FriendsParser.get_date_value friend key = Ok (VStr iso)).
Proof.
  intros H. rewrite (get_date_value_str _ _ _ H).
  assert (Hsound : forall iso,
             match strptime_str s with
             | Ok dt => Ok (VStr (isoformat dt))
             | Raise _ => Ok VNone
             end = Ok (VStr iso) ->
             exists y m d dtxt mtxt,
               valid_date y m d /\ day_text d dtxt /\ month_text m mtxt
               /\ s = dtxt ++ "." ++ mtxt ++ "." ++ pad4 y
               /\ iso = pad4 y ++ "-" ++ pad2 m ++ "-" ++ pad2 d).
  { intros iso. destruct (strptime_str s) as [dt|e] eqn:E; [|discriminate].
    intros [= <-].
    destruct (strptime_str_sound s dt E) as (Hv & dtxt & mtxt & Hd & Hm & Hs).
    exists (year dt), (month dt), (day dt), dtxt, mtxt. auto 6. }
  split; [|split].
  - intros _ iso. split; [apply Hsound|].
    intros (y & m & d & dtxt & mtxt & Hv & Hd & Hm & -> & ->).
    now rewrite (strptime_texts y m d dtxt mtxt Hv Hd Hm).
  - intros iso Hiso.
    destruct (Hsound iso Hiso) as (y & m & d & _ & _ & Hv & _ & _ & _ & ->).
    now exists y, m, d.
  - destruct (strptime_str s); eauto.
Qed.

Lemma get_date_value_valid_dates_only_witness :
  exists y m d dtxt mtxt,
    valid_date y m d /\ day_text d dtxt /\ month_text m mtxt
    /\ "29.02.2000" = dtxt ++ "." ++ mtxt ++ "." ++ pad4 y
    /\ "2000-02-29" = pad4 y ++ "-" ++ pad2 m ++ "-" ++ pad2 d.
Proof.
  destruct (get_date_value_valid_dates_only
              [("bdate", VStr "29.02.2000")] "bdate" "29.02.2000" eq_refl)
    as (H & _).
  apply (H eq_refl "2000-02-29"). reflexivity.
Defined.

(* ================================================================== *)
(** * Further properties: building the report *)
(* ================================================================== *)

Lemma report_loop_log (l acc report : list dict) (w w' : world) :
  FriendsParser.report_loop l acc w = (Ok report, w') ->
  log w' = (log w ++ extract_events l)%list
  /\ List.length report = (List.length acc + List.length l)%nat.
Proof.
  revert acc w. induction l as [|d l IH]; intros acc w.
  - cbn. intros [= <- <-]. rewrite app_nil_r. split; [reflexivity | lia].
  - rewrite report_loop_cons.
    destruct (FriendsParser.extract_data d) as [p|e]; [|discriminate].
    intros H. apply IH in H as [Hl Hn]. split.
    + rewrite Hl. cbn. now rewrite <- app_assoc.
    + rewrite Hn, length_app. cbn. lia.
Qed.

Lemma build_report_list_events
      (friends report : list dict) (w w' : world) :
  FriendsParser.build_report_list friends w = (Ok report, w') ->
  exists sorted_friends,
    sorted FriendsParser.first_name_key friends = Ok sorted_friends
    /\ log w' = (log w ++ extract_events sorted_friends)%list
    /\ List.length report = List.length friends.
Proof.
  rewrite build_report_list_unfold.
  destruct (sorted FriendsParser.first_name_key friends) as [s|e] eqn:Es;
    [|discriminate].
  intros H. apply report_loop_log in H as [Hl Hn].
  exists s. split; [reflexivity|]. split; [assumption|].
  apply sorted_first_name_stable in Es as [Hperm _].
  rewrite Hn. cbn. symmetry. now apply Permutation_length.
Qed.

(** X11 — When [create_report] has built its report list, the log has
    grown by exactly one event per friend, in sorted order, each with
    the [first_name] and [last_name] of the raw record ([None] for a
    missing [last_name]); the report list has one record per friend. *)
Theorem build_report_list_log
        (friends report : list dict) (w w' : world) :
  FriendsParser.build_report_list friends w = (Ok report, w') ->
  exists sorted_friends,
    sorted FriendsParser.first_name_key friends = Ok sorted_friends
    /\ log w' = (log w ++ extract_events sorted_friends)%list
    /\ List.length report = List.length friends.
Proof. apply build_report_list_events. Qed.

Lemma build_report_list_log_witness :
  exists sorted_friends,
    sorted FriendsParser.first_name_key
           [[("first_name", VStr "Bob"); ("last_name", VStr "Ivanov")];
            [("first_name", VStr "Alice")]]
    = Ok sorted_friends
    /\ [LogExtract (VStr "Alice") VNone;
        LogExtract (VStr "Bob") (VStr "Ivanov")]
       = ([] ++ extract_events sorted_friends)%list.
Proof.
  edestruct (build_report_list_log
               [[("first_name", VStr "Bob"); ("last_name", VStr "Ivanov")];
                [("first_name", VStr "Alice")]])
    as (s & Hs & Hl & _).
  - instantiate (3 := quiet_world (backing_network [])). reflexivity.
  - exists s. split; [exact Hs | exact Hl].
Defined.

Lemma get_value_from_data_raises (friend : dict) (key : string) (e : exn) :
  FriendsParser.get_value_from_data friend key = Raise e ->
  exn_cls e = AttributeError.
Proof.
  unfold FriendsParser.get_value_from_data.
  destruct (truthy (dict_get friend key)); [|discriminate].
  destruct (dict_get friend key); cbn; try discriminate;
    intros [= <-]; reflexivity.
Qed.

Lemma get_date_value_raises (friend : dict) (key : string) (e : exn) :
  FriendsParser.get_date_value friend key = Raise e ->
  exn_cls e = TypeError.
Proof.
  unfold FriendsParser.get_date_value.
  destruct (dict_get friend key) as [| | |s| |]; cbn; try discriminate;
    try (intros [= <-]; reflexivity).
  destruct (strptime_str s) as [dt|e0] eqn:E; cbn; [discriminate|].
  apply strptime_str_raises in E. unfold caught_by, isinstance. cbn.
  rewrite E. discriminate.
Qed.

Lemma extract_data_raises (friend : dict) (e : exn) :
  FriendsParser.extract_data friend = Raise e ->
  exn_cls e = AttributeError \/ exn_cls e = TypeError.
Proof.
  rewrite extract_data_unfold.
  destruct (FriendsParser.get_value_from_data friend "country") eqn:E1; cbn;
    [|intros [= <-]; left; eapply get_value_from_data_raises; eassumption].
  destruct (FriendsParser.get_value_from_data friend "city") eqn:E2; cbn;
    [|intros [= <-]; left; eapply get_value_from_data_raises; eassumption].
  destruct (FriendsParser.get_date_value friend "bdate") eqn:E3; cbn;
    [discriminate|].
  intros [= <-]. right. eapply get_date_value_raises; eassumption.
Qed.

Lemma mapM_raises {A B : Type} (f : A -> result B) (l : list A) :
  Exists (fun a => exists e, f a = Raise e) l ->
  exists a e, In a l /\ f a = Raise e /\ mapM f l = Raise e.
Proof.
  induction 1 as [a l [e He] | a l Hl (a' & e & Hin & Ha & IH)]; cbn.
  - exists a, e. rewrite He. auto.
  - destruct (f a) as [b|e0] eqn:E; cbn.
    + exists a', e. rewrite IH. auto.
    + exists a, e0. auto.
Qed.

(** X16 — A record that [extract_data] cannot handle (a truthy
    [country] or [city] that is not a mapping, or a [bdate] that is
    neither [None] nor a string) makes [create_report] raise the
    [AttributeError] or [TypeError] of that extraction, whatever the
    output format; nothing catches it and no file is opened or written
    (the log keeps the events of the records extracted before). *)
Theorem create_report_extraction_error
        (self : FriendsParser.t) (friends : list dict) (w : world) :
  Forall has_string_name friends ->
  Exists (fun d => exists e, FriendsParser.extract_data d = Raise e) friends ->
  exists e w',
    FriendsParser.create_report self friends w = (Raise e, w')
    /\ (exn_cls e = AttributeError \/ exn_cls e = TypeError)
    /\ files w' = files w.
Proof.
  intros Hn Hbad.
  destruct (sorted_first_name_strings friends Hn) as (s & Hs & _).
  pose proof (build_report_list_result friends w) as Hfst.
  pose proof (build_report_list_only_log friends w) as Hlog.
  rewrite Hs in Hfst. cbn [rbind] in Hfst.
  destruct (mapM_raises FriendsParser.extract_data s) as (d & e & _ & Hd & Hm).
  { apply sorted_first_name_stable in Hs as [Hperm _].
    rewrite Exists_exists in *. destruct Hbad as (d & Hin & He).
    exists d. split; [|assumption].
    eapply Permutation_in; eassumption. }
  rewrite Hm in Hfst. rewrite create_report_unfold.
  destruct (FriendsParser.build_report_list friends w) as [r w'].
  cbn [fst snd] in Hfst, Hlog. subst r.
  exists e, w'. split; [reflexivity|]. split.
  - now apply (extract_data_raises d).
  - apply Hlog.
Qed.

Lemma create_report_extraction_error_witness :
  exists e w',
    FriendsParser.create_report
      (FriendsParser.init 1 "token" "json" "report")
      [[("first_name", VStr "Bob"); ("country", VStr "Russia")]]
      (quiet_world (backing_network []))
    = (Raise e, w')
    /\ (exn_cls e = AttributeError \/ exn_cls e = TypeError)
    /\ files w' = [].
Proof.
  apply (create_report_extraction_error
           (FriendsParser.init 1 "token" "json" "report")
           [[("first_name", VStr "Bob"); ("country", VStr "Russia")]]
           (quiet_world (backing_network []))).
  - repeat constructor. eexists. reflexivity.
  - apply Exists_cons_hd. eexists. reflexivity.
Defined.

Lemma py_lt_raises (a b : value) (e : exn) :
  py_lt a b = Raise e -> exn_cls e = TypeError.
Proof.
  revert b e.
  induction a as [ | x | z | s | l IH | d IH] using value_nested_ind;
    intros b e; destruct b; cbn; try discriminate;
    try (intros [= <-]; reflexivity).
  rename l0 into m. revert m.
  induction IH as [|x l Hx Hl IHl]; intros [|y m]; try discriminate.
  destruct (py_eq x y); [apply IHl | apply Hx].
Qed.

Lemma py_lt_none_r (a : value) :
  exists e, py_lt a VNone = Raise e.
Proof. destruct a; cbn; eauto. Qed.

Lemma py_lt_none_l (b : value) :
  exists e, py_lt VNone b = Raise e.
Proof. destruct b; cbn; eauto. Qed.

Section SortedErrors.
Context {A : Type}.
Implicit Types (x y : value * A) (l r : list (value * A)).

Lemma insert_raises x l e :
  insert x l = Raise e -> exn_cls e = TypeError.
Proof.
  induction l as [|y l IH]; cbn; [discriminate|].
  destruct (py_lt (fst y) (fst x)) as [[|]|e0] eqn:E; cbn.
  - destruct (insert x l); cbn; [discriminate|].
    intros [= <-]. now apply IH.
  - discriminate.
  - intros [= <-]. eapply py_lt_raises; eassumption.
Qed.

Lemma sort_decorated_raises l e :
  sort_decorated l = Raise e -> exn_cls e = TypeError.
Proof.
  induction l as [|x l IH]; cbn; [discriminate|].
  destruct (sort_decorated l) as [s|e0]; cbn.
  - apply insert_raises.
  - intros [= <-]. now apply IH.
Qed.

Lemma sort_decorated_none l :
  (2 <= List.length l)%nat ->
  Exists (fun x => fst x = VNone) l ->
  exists e, sort_decorated l = Raise e.
Proof.
  induction l as [|x l IH]; cbn [List.length]; [lia|].
  intros Hlen Hex. cbn [sort_decorated].
  destruct (sort_decorated l) as [s|e] eqn:Es; cbn [rbind]; [|eauto].
  pose proof (sort_decorated_perm _ _ Es) as Hperm.
  destruct s as [|y s].
  { apply Permutation_length in Hperm. cbn in Hperm. lia. }
  cbn [insert].
  apply Exists_cons in Hex as [Hx | Hl].
  - rewrite Hx. destruct (py_lt_none_r (fst y)) as [e ->]. cbn. eauto.
  - destruct l as [|z [|z' l]].
    + inversion Hl.
    + cbn in Es. injection Es as <- <-.
      apply Exists_cons in Hl as [Hz | Hl]; [|inversion Hl].
      rewrite Hz. destruct (py_lt_none_l (fst x)) as [e ->]. cbn. eauto.
    + destruct IH as [e He]; [cbn; lia | assumption |]. congruence.
Qed.

End SortedErrors.

(** X17 — Names that cannot be compared stop the report: with two or
    more records, a [first_name] that is [None] (JSON null) makes
    [create_report] raise [TypeError] from the sort, before any
    extraction, log entry or file. *)
Theorem create_report_none_name
        (self : FriendsParser.t) (friends : list dict) (w : world) :
  (2 <= List.length friends)%nat ->
  Forall has_first_name friends ->
  Exists (fun d => dict_lookup d "first_name" = Some VNone) friends ->
  exists e,
    exn_cls e = TypeError
    /\ FriendsParser.create_report self friends w = (Raise e, w).
Proof.
  intros Hlen Hall Hnone.
  destruct (mapM_first_name_key_total friends Hall) as [ks Hks].
  pose proof (mapM_first_name_key_ok _ _ Hks) as [_ Hdec].
  destruct (sort_decorated_none (decorate friends)) as [e He].
  - unfold decorate. now rewrite length_map.
  - unfold decorate. rewrite Exists_map. cbn.
    eapply Exists_impl; [|exact Hnone].
    intros d Hd. unfold dict_get. now rewrite Hd.
  - exists e. split; [now apply sort_decorated_raises in He|].
    rewrite create_report_unfold, build_report_list_unfold.
    unfold sorted. rewrite Hks. cbn [rbind]. rewrite Hdec, He. reflexivity.
Qed.

Lemma create_report_none_name_witness :
  exists e,
    exn_cls e = TypeError
    /\ FriendsParser.create_report
         (FriendsParser.init 1 "token" "csv" "report")
         [[("first_name", VStr "Bob")]; [("first_name", VNone)]]
         (quiet_world (backing_network []))
       = (Raise e, quiet_world (backing_network [])).
Proof.
  apply create_report_none_name.
  - cbn. lia.
  - repeat constructor; eexists; reflexivity.
  - apply Exists_cons_tl, Exists_cons_hd. reflexivity.
Defined.

Lemma string_leb_not_ltb (s t : string) :
  String.leb s t = true -> String.ltb t s = false.
Proof.
  unfold String.ltb, String.leb. rewrite (String.compare_antisym s t).
  now destruct (String.compare t s).
Qed.

Lemma sort_decorated_ascending (l : list dict) :
  Forall has_string_name l -> Sorted name_le l ->
  sort_decorated (decorate l) = Ok (decorate l).
Proof.
  intros Hn Hs. induction Hs as [|x l Hs IH Hhd]; [reflexivity|].
  apply Forall_cons_iff in Hn as [Hx Hn].
  cbn [decorate map sort_decorated]. fold (decorate l).
  rewrite (IH Hn). cbn [rbind].
  destruct Hhd as [|y l Hxy]; [reflexivity|].
  apply Forall_cons_iff in Hn as [Hy _].
  cbn [decorate map insert fst].
  rewrite (has_string_name_key x Hx), (has_string_name_key y Hy).
  cbn [py_lt rbind]. now rewrite (string_leb_not_ltb _ _ Hxy).
Qed.

(** X18 — An input whose first names are already in ascending order is
    left in its order: the report list of [create_report] is then the
    extraction of the records in input order. *)
Theorem create_report_keeps_ascending_input
        (friends : list dict) (w : world) :
  Forall has_string_name friends ->
  names_ascending friends ->
  sorted FriendsParser.first_name_key friends = Ok friends
  /\ fst (FriendsParser.build_report_list friends w)
     = mapM FriendsParser.extract_data friends.
Proof.
  intros Hn Hs.
  assert (Hsorted : sorted FriendsParser.first_name_key friends = Ok friends).
  { unfold sorted.
    destruct (mapM_first_name_key_total friends) as [ks Hks].
    { eapply Forall_impl; [|exact Hn]. intros d [s Hd]. now exists (VStr s). }
    rewrite Hks. cbn [rbind].
    apply mapM_first_name_key_ok in Hks as [_ ->].
    rewrite sort_decorated_ascending;
      [| assumption | now apply StronglySorted_Sorted].
    cbn [rbind]. now rewrite map_snd_decorate. }
  split; [assumption|].
  now rewrite build_report_list_result, Hsorted.
Qed.

Lemma create_report_keeps_ascending_input_witness :
  sorted FriendsParser.first_name_key
         [[("first_name", VStr "Alice"); ("sex", VInt 1)];
          [("first_name", VStr "Bob")];
          [("first_name", VStr "Bob"); ("sex", VInt 2)]]
  = Ok [[("first_name", VStr "Alice"); ("sex", VInt 1)];
        [("first_name", VStr "Bob")];
        [("first_name", VStr "Bob"); ("sex", VInt 2)]].
Proof.
  destruct (create_report_keeps_ascending_input
              [[("first_name", VStr "Alice"); ("sex", VInt 1)];
               [("first_name", VStr "Bob")];
               [("first_name", VStr "Bob"); ("sex", VInt 2)]]
              (quiet_world (backing_network []))) as (H & _).
  - repeat constructor; eexists; reflexivity.
  - unfold names_ascending. repeat constructor.
  - exact H.
Defined.

(* ================================================================== *)
(** * Further properties: the files written *)
(* ================================================================== *)

Lemma file_lookup_set_same (fs : list (string * document)) (name : string)
      (doc : document) :
  file_lookup (file_set fs name doc) name = Some doc.
Proof.
  induction fs as [|[n d] fs IH]; cbn.
  - now rewrite String.eqb_refl.
  - destruct (String.eqb n name) eqn:E; cbn; rewrite E; [reflexivity | exact IH].
Qed.

Lemma file_lookup_set_other (fs : list (string * document))
      (name other : string) (doc : document) :
  other <> name ->
  file_lookup (file_set fs name doc) other = file_lookup fs other.
Proof.
  intros Hne. induction fs as [|[n d] fs IH]; cbn.
  - destruct (String.eqb_spec name other); [congruence | reflexivity].
  - destruct (String.eqb_spec n name) as [->|Hn]; cbn.
    + destruct (String.eqb_spec name other); [congruence | reflexivity].
    + destruct (String.eqb n other); [reflexivity | exact IH].
Qed.

Lemma file_set_set (fs : list (string * document)) (name : string)
      (d1 d2 : document) :
  file_set (file_set fs name d1) name d2 = file_set fs name d2.
Proof.
  induction fs as [|[n d] fs IH]; cbn.
  - now rewrite String.eqb_refl.
  - destruct (String.eqb n name) eqn:E; cbn; rewrite E;
      [reflexivity | now rewrite IH].
Qed.

Lemma filter_nil_existsb {A : Type} (f : A -> bool) (l : list A) :
  existsb f l = false -> filter f l = [].
Proof.
  induction l as [|a l IH]; cbn; [reflexivity|].
  destruct (f a); cbn; [discriminate | exact IH].
Qed.

Lemma filter_cons_existsb {A : Type} (f : A -> bool) (l : list A) :
  existsb f l = true -> exists a r, filter f l = a :: r.
Proof.
  induction l as [|a l IH]; cbn; [discriminate|].
  destruct (f a); cbn; eauto.
Qed.

Lemma dict_to_list_ok (header : list string) (row : dict) :
  has_extra_field header row = false ->
  FriendsParser.dict_to_list header row = Ok (csv_cells header row).
Proof.
  unfold has_extra_field, FriendsParser.dict_to_list. intros H.
  now rewrite (filter_nil_existsb _ _ H).
Qed.

Lemma dict_to_list_extra (header : list string) (row : dict) :
  has_extra_field header row = true ->
  exists msg,
    FriendsParser.dict_to_list header row = Raise (mk_exn ValueError msg).
Proof.
  unfold has_extra_field, FriendsParser.dict_to_list. intros H.
  destruct (filter_cons_existsb _ _ H) as (a & r & ->). eauto.
Qed.

Lemma has_extra_field_own_keys (header : list string) (row : dict) :
  dict_keys row = header -> has_extra_field header row = false.
Proof.
  intros <-. unfold has_extra_field.
  apply not_true_is_false. intros H.
  apply existsb_exists in H as (k & Hin & Hk).
  apply negb_true_iff in Hk.
  assert (existsb (String.eqb k) (dict_keys row) = true); [|congruence].
  apply existsb_exists. exists k. split; [assumption | apply String.eqb_refl].
Qed.

Lemma set_files_twice (w : world) (a b : list (string * document)) :
  set_files (set_files w a) b = set_files w b.
Proof. reflexivity. Qed.


Lemma write_rows_extra (name delimiter : string) (header : list string)
      (good after : list dict) (bad : dict) (written : list (list value))
      (w : world) (fs : list (string * document)) :
  dump_fault w name = None ->
  Forall (fun row => has_extra_field header row = false) good ->
  has_extra_field header bad = true ->
  exists msg,
    FriendsParser.write_rows name delimiter header written
      (good ++ bad :: after)
      (set_files w (file_set fs name (CsvFile delimiter header written)))
    = (Raise (mk_exn ValueError msg),
       set_files w
         (file_set fs name
            (CsvFile delimiter header
                     (written ++ map (csv_cells header) good)))).
Proof.
  intros Hd Hgood Hbad. revert written.
  induction Hgood as [|row good Hrow Hgood IH]; intros written.
  - destruct (dict_to_list_extra _ _ Hbad) as [msg Hm].
    exists msg. cbn [app map]. rewrite write_rows_cons, Hm.
    now rewrite app_nil_r.
  - destruct (IH (written ++ [csv_cells header row])%list) as [msg IHm].
    exists msg.
    cbn [app]. rewrite write_rows_cons, (dict_to_list_ok _ _ Hrow).
    cbn [dump_fault set_files files]. rewrite Hd, file_set_set.
    rewrite ?set_files_twice.
    rewrite IHm. cbn [map]. now rewrite <- app_assoc.
Qed.



(** X13 — A record with a key that the first record lacks stops the
    delimited-text writer there: the file keeps the header and the rows
    of the records before it, the error is logged, and the writer
    returns normally; the records after it are not written. *)
Theorem write_csv_tsv_file_extra_field
        (self : FriendsParser.t) (first bad : dict)
        (good after : list dict) (w : world) :
  open_fault w (FriendsParser.file_name self) = None ->
  dump_fault w (FriendsParser.file_name self) = None ->
  Forall (fun row => has_extra_field (dict_keys first) row = false) good ->
  has_extra_field (dict_keys first) bad = true ->
  FriendsParser.write_csv_tsv_file self (first :: good ++ bad :: after) w
  = (Ok tt,
     set_log
       (set_files w
          (file_set (files w) (FriendsParser.file_name self)
             (CsvFile (delimiter_of self) (dict_keys first)
                      (map (csv_cells (dict_keys first)) (first :: good)))))
       (log w ++ [FriendsParser.error_event self])).
Proof.
  intros Ho Hd Hgood Hbad. rewrite write_csv_tsv_file_unfold. cbn zeta.
  rewrite Ho, Hd. cbn [files set_files].
  fold (set_files w
          (file_set (file_set (files w) (FriendsParser.file_name self)
                              EmptyFile)
             (FriendsParser.file_name self)
             (CsvFile (delimiter_of self) (dict_keys first) []))).
  unfold delimiter_of.
  destruct (write_rows_extra
              (FriendsParser.file_name self)
              (if FriendsParser.output_format self =? "csv"
               then "," else FriendsParser.tab)
              (dict_keys first) (first :: good) after bad [] w
              (file_set (files w) (FriendsParser.file_name self) EmptyFile)
              Hd) as [msg Hw].
  - constructor; [now apply has_extra_field_own_keys | assumption].
  - assumption.
  - cbn [app] in Hw. rewrite set_files_twice, Hw.
    unfold handle_write_error, csv_errors. cbn [caught_by existsb].
    now rewrite file_set_set.
Qed.

Lemma write_csv_tsv_file_extra_field_witness :
  FriendsParser.write_csv_tsv_file
    (FriendsParser.init 1 "token" "csv" "report")
    [[("first_name", VStr "Bob")];
     [("first_name", VStr "Carl"); ("sex", VInt 2)];
     [("first_name", VStr "Dan")]]
    (quiet_world (backing_network []))
  = (Ok tt,
     set_log
       (set_files (quiet_world (backing_network []))
          [("report.csv", CsvFile "," ["first_name"] [[VStr "Bob"]])])
       [LogInfo "Error while creating report.csv file"]).
Proof.
  apply (write_csv_tsv_file_extra_field
           (FriendsParser.init 1 "token" "csv" "report")
           [("first_name", VStr "Bob")]
           [("first_name", VStr "Carl"); ("sex", VInt 2)]
           [] [[("first_name", VStr "Dan")]]
           (quiet_world (backing_network [])));
    [reflexivity | reflexivity | constructor | reflexivity].
Defined.

(** X14 — On an empty report the delimited-text writer still opens the
    file for writing before it fails: the file is left empty, whatever
    it held before, the error is logged and the writer returns
    normally. *)
Theorem write_csv_tsv_file_empty_truncates
        (self : FriendsParser.t) (w : world) :
  open_fault w (FriendsParser.file_name self) = None ->
  FriendsParser.write_csv_tsv_file self [] w
  = (Ok tt,
     set_log
       (set_files w
          (file_set (files w) (FriendsParser.file_name self) EmptyFile))
       (log w ++ [FriendsParser.error_event self]))
  /\ file_lookup
       (files (snd (FriendsParser.write_csv_tsv_file self [] w)))
       (FriendsParser.file_name self)
     = Some EmptyFile.
Proof.
  intros Ho. rewrite write_csv_tsv_file_unfold. cbn zeta. rewrite Ho.
  unfold handle_write_error, csv_errors. cbn [caught_by existsb].
  split; [reflexivity|]. cbn. apply file_lookup_set_same.
Qed.

Lemma write_csv_tsv_file_empty_truncates_witness :
  file_lookup
    (files (snd (FriendsParser.write_csv_tsv_file
                   (FriendsParser.init 1 "token" "csv" "report") []
                   (set_files (quiet_world (backing_network []))
                      [("report.csv",
                        CsvFile "," ["first_name"] [[VStr "Bob"]])]))))
    "report.csv"
  = Some EmptyFile.
Proof.
  destruct (write_csv_tsv_file_empty_truncates
              (FriendsParser.init 1 "token" "csv" "report")
              (set_files (quiet_world (backing_network []))
                 [("report.csv",
                   CsvFile "," ["first_name"] [[VStr "Bob"]])]))
    as (_ & H); [reflexivity|].
  exact H.
Defined.

Lemma touches_only_file_refl (name : string) (w : world) :
  touches_only_file name w w.
Proof. repeat split. Qed.

Lemma touches_only_file_trans (name : string) (w1 w2 w3 : world) :
  touches_only_file name w1 w2 -> touches_only_file name w2 w3 ->
  touches_only_file name w1 w3.
Proof.
  intros (N1 & O1 & D1 & S1 & F1) (N2 & O2 & D2 & S2 & F2).
  repeat split; try congruence.
  intros other Hne. now rewrite F2, F1.
Qed.

Lemma touches_only_file_set (name : string) (w : world) (doc : document) :
  touches_only_file name w (set_files w (file_set (files w) name doc)).
Proof.
  repeat split. intros other Hne. cbn. now apply file_lookup_set_other.
Qed.

Lemma touches_only_file_files (name : string) (w : world)
      (fs : list (string * document)) :
  (forall other, other <> name ->
                 file_lookup fs other = file_lookup (files w) other) ->
  touches_only_file name w (set_files w fs).
Proof. intros H. repeat split. exact H. Qed.

Ltac solve_touch :=
  rewrite ?set_files_twice; apply touches_only_file_files;
  let other := fresh "other" in
  let Hne := fresh "Hne" in
  intros other Hne; cbn [files set_files];
  rewrite ?file_lookup_set_other by assumption; reflexivity.

Lemma touches_only_file_log (name : string) (w w' : world)
      (l : list log_event) :
  touches_only_file name w w' -> touches_only_file name w (set_log w' l).
Proof. intros H. exact H. Qed.

Lemma write_rows_frame (name delimiter : string) (header : list string)
      (rows : list dict) (written : list (list value)) (w : world) :
  touches_only_file name w
    (snd (FriendsParser.write_rows name delimiter header written rows w)).
Proof.
  revert written w. induction rows as [|row rows IH]; intros written w.
  - apply touches_only_file_refl.
  - rewrite write_rows_cons.
    destruct (FriendsParser.dict_to_list header row);
      [|apply touches_only_file_refl].
    destruct (dump_fault w name); [apply touches_only_file_set|].
    eapply touches_only_file_trans; [apply touches_only_file_set | apply IH].
Qed.

Lemma handle_write_error_frame (self : FriendsParser.t)
      (cs : list exn_class) (e : exn) (name : string) (w0 w : world) :
  touches_only_file name w0 w ->
  touches_only_file name w0 (snd (handle_write_error self cs e w)).
Proof.
  intros H. unfold handle_write_error. now destruct (caught_by e cs).
Qed.

Lemma write_csv_tsv_file_frame (self : FriendsParser.t)
      (l : list dict) (w : world) :
  touches_only_file (FriendsParser.file_name self) w
    (snd (FriendsParser.write_csv_tsv_file self l w)).
Proof.
  rewrite write_csv_tsv_file_unfold. cbn zeta.
  destruct (open_fault w _);
    [apply handle_write_error_frame, touches_only_file_refl|].
  destruct l as [|first rest];
    [apply handle_write_error_frame; solve_touch|].
  destruct (dump_fault w _).
  { apply handle_write_error_frame. solve_touch. }
  match goal with
  | |- context [FriendsParser.write_rows ?n ?d ?h ?wr ?rs ?w1] =>
      pose proof (write_rows_frame n d h rs wr w1) as Hf;
      assert (Hw1 : touches_only_file n w w1) by solve_touch;
      destruct (FriendsParser.write_rows n d h wr rs w1) as [[u|e] w']
  end; cbn [snd] in *.
  - eapply touches_only_file_trans; eassumption.
  - apply handle_write_error_frame.
    eapply touches_only_file_trans; eassumption.
Qed.

Lemma dump_writer_frame (self : FriendsParser.t) (doc : document)
      (cs : list exn_class) (w : world) :
  touches_only_file (FriendsParser.file_name self) w
    (snd (try_exceptM
            (open_w (FriendsParser.file_name self) ;;
             write_doc (FriendsParser.file_name self) doc)%world
            cs
            (fun _ => logger_info (FriendsParser.error_event self)) w)).
Proof.
  unfold try_exceptM. rewrite dump_body_unfold.
  destruct (open_fault w _) as [e|].
  { destruct (caught_by e cs); unfold logger_info; cbn [snd];
      [apply touches_only_file_log|]; apply touches_only_file_refl. }
  cbn zeta. destruct (dump_fault w _) as [e|].
  - destruct (caught_by e cs); unfold logger_info; cbn [snd];
      [apply touches_only_file_log|]; solve_touch.
  - cbn [snd]. solve_touch.
Qed.

(** X15 — [create_report] touches one file only: whatever the records,
    the format and the faults of the environment, and whether it returns
    or raises, every file other than [output_name.output_format] is as
    before, and no request is sent. *)
Theorem create_report_touches_one_file
        (self : FriendsParser.t) (friends : list dict) (w : world) :
  sent (snd (FriendsParser.create_report self friends w)) = sent w
  /\ forall other,
      other <> FriendsParser.output_name self ++ "."
               ++ FriendsParser.output_format self ->
      file_lookup (files (snd (FriendsParser.create_report self friends w)))
                  other
      = file_lookup (files w) other.
Proof.
  assert (H : touches_only_file (FriendsParser.file_name self) w
                (snd (FriendsParser.create_report self friends w))).
  { pose proof (build_report_list_only_log friends w) as Hlog.
    rewrite create_report_unfold, lookup_format_matching.
    destruct (FriendsParser.build_report_list friends w) as [[report|e] w1];
      cbn [snd] in *.
    - assert (Hw1 : touches_only_file (FriendsParser.file_name self) w w1).
      { destruct Hlog as (N & O & D & S & F). repeat split; try assumption.
        intros other _. now rewrite F. }
      eapply touches_only_file_trans; [exact Hw1|].
      unfold matching_writer.
      repeat match goal with
        | |- context [if ?b then _ else _] => destruct b
        end;
        first [ apply write_csv_tsv_file_frame
              | apply dump_writer_frame
              | apply touches_only_file_refl ].
    - destruct Hlog as (N & O & D & S & F). repeat split; try assumption.
      intros other _. now rewrite F. }
  destruct H as (_ & _ & _ & Hs & Hf). split; [exact Hs | exact Hf].
Qed.







(* ================================================================== *)
(** * The failure policy of the writers *)
(* ================================================================== *)

Lemma handle_write_error_handled (self : FriendsParser.t)
      (cs : list exn_class) (e : exn) (w0 w : world) :
  log w = log w0 ->
  handled self cs e w0 (handle_write_error self cs e w).
Proof.
  intros Hl. unfold handled, swallowed, let_through, handle_write_error.
  split; intros ->; cbn; rewrite Hl; split; reflexivity.
Qed.

Lemma handle_write_error_swallowed (self : FriendsParser.t)
      (cs : list exn_class) (e : exn) (w0 w : world) :
  caught_by e cs = true -> log w = log w0 ->
  swallowed self w0 (handle_write_error self cs e w).
Proof.
  intros Hc Hl. now apply (handle_write_error_handled self cs e w0 w Hl).
Qed.

(** The JSON and YAML writers: what the first fault of the environment
    decides. *)
Lemma dump_writer_outcome (self : FriendsParser.t) (doc : document)
      (w : world) :
  match first_fault w (FriendsParser.file_name self) with
  | Some e =>
      handled self dump_errors e w
        (try_exceptM
           (open_w (FriendsParser.file_name self) ;;
            write_doc (FriendsParser.file_name self) doc)%world
           [TypeError; IOError]
           (fun _ => logger_info (FriendsParser.error_event self)) w)
  | None =>
      wrote_quietly w
        (try_exceptM
           (open_w (FriendsParser.file_name self) ;;
            write_doc (FriendsParser.file_name self) doc)%world
           [TypeError; IOError]
           (fun _ => logger_info (FriendsParser.error_event self)) w)
  end.
Proof.
  unfold try_exceptM, first_fault. rewrite dump_body_unfold.
  destruct (open_fault w _) as [e|].
  - unfold handled, swallowed, let_through, dump_errors.
    split; intros ->; split; reflexivity.
  - cbn zeta. destruct (dump_fault w _) as [e|].
    + unfold handled, swallowed, let_through, dump_errors.
      split; intros ->; split; reflexivity.
    + split; reflexivity.
Qed.

(** With no fault on writing, the rows are written up to the first one
    with a key outside the header, which raises [ValueError]; nothing
    is logged. *)
Lemma write_rows_no_fault (name delimiter : string) (header : list string)
      (rows : list dict) (written : list (list value)) (w : world) :
  dump_fault w name = None ->
  log (snd (FriendsParser.write_rows name delimiter header written rows w))
  = log w
  /\ (Forall (fun row => has_extra_field header row = false) rows ->
      fst (FriendsParser.write_rows name delimiter header written rows w)
      = Ok tt)
  /\ (Exists (fun row => has_extra_field header row = true) rows ->
      exists msg,
        fst (FriendsParser.write_rows name delimiter header written rows w)
        = Raise (mk_exn ValueError msg)).
Proof.
  revert written w. induction rows as [|row rows IH]; intros written w Hd.
  - cbn. repeat split. intros H. inversion H.
  - rewrite write_rows_cons.
    destruct (has_extra_field header row) eqn:E.
    + destruct (dict_to_list_extra header row E) as (msg & ->).
      repeat split.
      * intros H. inversion H; congruence.
      * intros _. now exists msg.
    + rewrite (dict_to_list_ok header row E), Hd.
      match goal with
      | |- context [FriendsParser.write_rows _ _ _ ?wr rows ?w1] =>
          destruct (IH wr w1 Hd) as (Hlog & Hok & Hbad)
      end.
      repeat split.
      * exact Hlog.
      * intros H. inversion H; subst. now apply Hok.
      * intros H. inversion H; subst; [congruence | now apply Hbad].
Qed.

(** The delimited-text writer: what the faults of the environment and
    the records decide. *)
Lemma write_csv_tsv_file_outcome (self : FriendsParser.t)
      (report : list dict) (w : world) :
  match open_fault w (FriendsParser.file_name self) with
  | Some e =>
      handled self csv_errors e w
              (FriendsParser.write_csv_tsv_file self report w)
  | None =>
      match report with
      | [] => swallowed self w (FriendsParser.write_csv_tsv_file self [] w)
      | first :: rest =>
          match dump_fault w (FriendsParser.file_name self) with
          | Some e =>
              handled self csv_errors e w
                (FriendsParser.write_csv_tsv_file self (first :: rest) w)
          | None =>
              (Forall (fun row =>
                         has_extra_field (dict_keys first) row = false)
                      rest ->
               wrote_quietly w
                 (FriendsParser.write_csv_tsv_file self (first :: rest) w))
              /\ (Exists (fun row =>
                            has_extra_field (dict_keys first) row = true)
                         rest ->
                  swallowed self w
                    (FriendsParser.write_csv_tsv_file self (first :: rest)
                                                      w))
          end
      end
  end.
Proof.
  destruct (open_fault w _) as [e|] eqn:Eo.
  { rewrite write_csv_tsv_file_unfold. cbn zeta. rewrite Eo.
    now apply handle_write_error_handled. }
  destruct report as [|first rest].
  { rewrite write_csv_tsv_file_unfold. cbn zeta. rewrite Eo.
    now apply handle_write_error_swallowed. }
  destruct (dump_fault w _) as [e|] eqn:Ed.
  { rewrite write_csv_tsv_file_unfold. cbn zeta. rewrite Eo, Ed.
    now apply handle_write_error_handled. }
  rewrite write_csv_tsv_file_unfold. cbn zeta. rewrite Eo, Ed.
  match goal with
  | |- context [FriendsParser.write_rows ?n ?d ?h ?wr ?rs ?w1] =>
      destruct (write_rows_no_fault n d h rs wr w1 Ed) as (Hlog & Hok & Hbad);
      destruct (FriendsParser.write_rows n d h wr rs w1) as [[u|e] w'] eqn:E
  end; cbn [fst snd] in *.
  - split.
    + intros _. destruct u. split; [reflexivity | exact Hlog].
    + intros H. destruct Hbad as (msg & Hm); [|discriminate].
      now apply Exists_cons_tl.
  - split.
    + intros H. discriminate Hok. constructor; [|exact H].
      now apply has_extra_field_own_keys.
    + intros H. destruct Hbad as (msg & [= ->]).
      { now apply Exists_cons_tl. }
      now apply handle_write_error_swallowed.
Qed.

(** What a handled error leaves raised is the error itself, outside the
    classes of the clause. *)
Lemma handled_raise (self : FriendsParser.t) (cs : list exn_class)
      (e e' : exn) (w : world) (r : result unit * world) :
  handled self cs e w r -> fst r = Raise e' ->
  e' = e /\ caught_by e cs = false.
Proof.
  intros [Hc Hn] Hr. destruct (caught_by e cs).
  - destruct (Hc eq_refl) as [Hok _]. congruence.
  - destruct (Hn eq_refl) as [He _]. split; congruence.
Qed.

Lemma dump_writer_raise (self : FriendsParser.t) (doc : document)
      (w : world) (e : exn) :
  fst (try_exceptM
         (open_w (FriendsParser.file_name self) ;;
          write_doc (FriendsParser.file_name self) doc)%world
         [TypeError; IOError]
         (fun _ => logger_info (FriendsParser.error_event self)) w)
  = Raise e ->
  first_fault w (FriendsParser.file_name self) = Some e
  /\ caught_by e dump_errors = false.
Proof.
  intros Hr. pose proof (dump_writer_outcome self doc w) as H.
  destruct (first_fault w _) as [e0|].
  - destruct (handled_raise _ _ _ _ _ _ H Hr) as [-> Hc]. now split.
  - destruct H as [Hok _]. congruence.
Qed.

Lemma write_csv_tsv_file_raise (self : FriendsParser.t)
      (report : list dict) (w : world) (e : exn) :
  fst (FriendsParser.write_csv_tsv_file self report w) = Raise e ->
  first_fault w (FriendsParser.file_name self) = Some e
  /\ caught_by e csv_errors = false.
Proof.
  intros Hr. pose proof (write_csv_tsv_file_outcome self report w) as H.
  unfold first_fault.
  destruct (open_fault w _) as [e0|].
  { destruct (handled_raise _ _ _ _ _ _ H Hr) as [-> Hc]. now split. }
  destruct report as [|first rest].
  { destruct H as [Hok _]. congruence. }
  destruct (dump_fault w _) as [e0|].
  { destruct (handled_raise _ _ _ _ _ _ H Hr) as [-> Hc]. now split. }
  destruct H as [Hq Hs].
  destruct (existsb (has_extra_field (dict_keys first)) rest) eqn:Ex.
  - apply existsb_exists in Ex as (row & Hin & Hrow).
    destruct Hs as [Hok _]; [|congruence].
    apply Exists_exists. now exists row.
  - destruct Hq as [Hok _]; [|congruence].
    apply Forall_forall. intros row Hin.
    destruct (has_extra_field (dict_keys first) row) eqn:Er; [|reflexivity].
    assert (existsb (has_extra_field (dict_keys first)) rest = true);
      [|congruence].
    apply existsb_exists. now exists row.
Qed.

(** C6 — Each writer catches the errors of the classes its [except]
    clause names, logs the one error event and returns normally; an
    error of any other class it raises to its caller, logging nothing.
    The type and serialisation errors ([TypeError]) and the file-system
    errors ([OSError], alias [IOError]) are named by all three clauses.
    So, for every report list: when opening the file or writing into it
    fails with an error [e], the JSON and the YAML writer log and
    swallow [e] if it is a [TypeError] or [OSError] and raise it
    otherwise; the delimited-text writer does so for [TypeError],
    [ValueError], [OSError] and [IndexError].  The delimited-text
    writer's own errors are swallowed and logged too: the empty list
    ([IndexError]) and a record with a key that the first record lacks
    ([ValueError]).  When nothing fails, the writers return normally and
    log nothing.  Whatever a writer raises is a fault of the
    environment outside its clause.  Hence, in a world whose faults are
    type or file-system errors, [create_report] with any of the four
    formats returns normally once the report list is built. *)
Theorem writers_swallow_errors
        (self : FriendsParser.t) (report : list dict) (w : world) :
  (forall e,
     write_error e = true ->
     caught_by e dump_errors = true /\ caught_by e csv_errors = true)
  /\ (forall e,
        first_fault w (FriendsParser.file_name self) = Some e ->
        handled self dump_errors e w
                (FriendsParser.write_json_file self report w)
        /\ handled self dump_errors e w
                   (FriendsParser.write_yaml_file self report w)
        /\ (open_fault w (FriendsParser.file_name self) = Some e
            \/ report <> [] ->
            handled self csv_errors e w
                    (FriendsParser.write_csv_tsv_file self report w)))
  /\ (open_fault w (FriendsParser.file_name self) = None ->
      swallowed self w (FriendsParser.write_csv_tsv_file self [] w))
  /\ (forall first rest,
        first_fault w (FriendsParser.file_name self) = None ->
        report = first :: rest ->
        Exists (fun row => has_extra_field (dict_keys first) row = true)
               rest ->
        swallowed self w (FriendsParser.write_csv_tsv_file self report w))
  /\ (first_fault w (FriendsParser.file_name self) = None ->
      wrote_quietly w (FriendsParser.write_json_file self report w)
      /\ wrote_quietly w (FriendsParser.write_yaml_file self report w)
      /\ forall first rest,
          report = first :: rest ->
          Forall (fun row => has_extra_field (dict_keys first) row = false)
                 rest ->
          wrote_quietly w (FriendsParser.write_csv_tsv_file self report w))
  /\ (forall e,
        (fst (FriendsParser.write_json_file self report w) = Raise e
         \/ fst (FriendsParser.write_yaml_file self report w) = Raise e ->
         first_fault w (FriendsParser.file_name self) = Some e
         /\ caught_by e dump_errors = false)
        /\ (fst (FriendsParser.write_csv_tsv_file self report w) = Raise e ->
            first_fault w (FriendsParser.file_name self) = Some e
            /\ caught_by e csv_errors = false))
  /\ (world_faults_are_write_errors w ->
      In (FriendsParser.output_format self) allowed_formats ->
      forall friends built w',
        FriendsParser.build_report_list friends w = (Ok built, w') ->
        fst (FriendsParser.create_report self friends w) = Ok tt).
Proof.
  pose proof (dump_writer_outcome self (JsonFile report) w) as Hjson.
  pose proof (dump_writer_outcome self (YamlFile report) w) as Hyaml.
  pose proof (write_csv_tsv_file_outcome self report w) as Hcsv.
  fold (FriendsParser.write_json_file self report) in Hjson.
  fold (FriendsParser.write_yaml_file self report) in Hyaml.
  split; [|split; [|split; [|split; [|split; [|split]]]]].
  - intros e He. split;
      [now apply write_error_caught_json | now apply write_error_caught_csv].
  - intros e He. rewrite He in Hjson, Hyaml.
    split; [exact Hjson|]. split; [exact Hyaml|].
    unfold first_fault in He.
    destruct (open_fault w _) as [e0|].
    + intros _. now injection He as ->.
    + intros [Ho | Hne]; [discriminate|].
      destruct report as [|first rest]; [contradiction|].
      now rewrite He in Hcsv.
  - intros Ho. pose proof (write_csv_tsv_file_outcome self [] w) as H.
    now rewrite Ho in H.
  - intros first rest Hf -> Hex. unfold first_fault in Hf.
    destruct (open_fault w _); [discriminate|]. rewrite Hf in Hcsv.
    now apply Hcsv.
  - intros Hf. rewrite Hf in Hjson, Hyaml.
    split; [exact Hjson|]. split; [exact Hyaml|].
    intros first rest -> Hall. unfold first_fault in Hf.
    destruct (open_fault w _); [discriminate|]. rewrite Hf in Hcsv.
    now apply Hcsv.
  - intros e. split.
    + intros [H | H]; now apply dump_writer_raise in H.
    + apply write_csv_tsv_file_raise.
  - intros Hw Hfmt friends built w' Hb.
    assert (Hw' : world_faults_are_write_errors w').
    { apply (only_log_changed_faults w); [|assumption].
      pose proof (build_report_list_only_log friends w) as H.
      now rewrite Hb in H. }
    rewrite create_report_unfold, lookup_format_matching, Hb.
    unfold matching_writer, allowed_formats in *. cbn in Hfmt.
    destruct Hfmt as [<- | [<- | [<- | [<- | []]]]]; cbn.
    + now apply write_csv_tsv_file_contained.
    + now apply write_json_file_contained.
    + now apply write_csv_tsv_file_contained.
    + now apply write_yaml_file_contained.
Qed.

Lemma writers_swallow_errors_witness :
  FriendsParser.write_json_file
    (FriendsParser.init 1 "token" "json" "report") []
    (mk_world (backing_network []) (fun _ => None)
              (fun _ => Some (mk_exn OSError "No space left on device"))
              [] [] [])
  = (Ok tt,
     mk_world (backing_network []) (fun _ => None)
              (fun _ => Some (mk_exn OSError "No space left on device"))
              [] [("report.json", PartialFile)]
              [LogInfo "Error while creating report.json file"])
  /\ swallowed (FriendsParser.init 1 "token" "json" "report")
       (mk_world (backing_network []) (fun _ => None)
                 (fun _ => Some (mk_exn OSError "No space left on device"))
                 [] [] [])
       (FriendsParser.write_json_file
          (FriendsParser.init 1 "token" "json" "report") []
          (mk_world (backing_network []) (fun _ => None)
                    (fun _ => Some (mk_exn OSError "No space left on device"))
                    [] [] [])).
Proof.
  split; [reflexivity|].
  destruct (writers_swallow_errors
              (FriendsParser.init 1 "token" "json" "report") []
              (mk_world (backing_network []) (fun _ => None)
                 (fun _ => Some (mk_exn OSError "No space left on device"))
                 [] [] []))
    as (_ & H & _).
  destruct (H (mk_exn OSError "No space left on device") eq_refl)
    as ((Hjson & _) & _).
  apply Hjson. reflexivity.
Defined.

(** A failed write that reaches the caller: [open] refuses the file
    name with a [ValueError], which the JSON writer's clause does not
    name; the writer raises it and logs nothing. *)
Lemma write_json_file_value_error_escapes :
  FriendsParser.write_json_file
    (FriendsParser.init 1 "token" "json" (String zero "report")) []
    (mk_world (backing_network []) embedded_null (fun _ => None) [] [] [])
  = (Raise (mk_exn ValueError "embedded null byte"),
     mk_world (backing_network []) embedded_null (fun _ => None) [] [] [])
  /\ fst (FriendsParser.write_json_file
            (FriendsParser.init 1 "token" "json" (String zero "report")) []
            (mk_world (backing_network []) embedded_null (fun _ => None)
                      [] [] []))
     <> Ok tt.
Proof. split; [reflexivity | discriminate]. Qed.

(* ================================================================== *)
(** * Further properties: the whole run *)
(* ================================================================== *)






(** X21 — When fetching fails, [main] stops there: it raises what
    [parse] raised, and apart from the requests sent the world is as
    before, so no report is built, nothing is logged and no file is
    opened. *)
Theorem main_stops_on_fetch_error
        (args : Main.args) (fuel : nat) (w w' : world) (e : exn) :
  FriendsParser.parse fuel
    (FriendsParser.init (Main.user_id args) (Main.access_token args)
                        (Main.output_format args) (Main.output_name args)) w
  = Some (Raise e, w') ->
  Main.main fuel args w = Some (Raise e, w')
  /\ files w' = files w /\ log w' = log w.
Proof.
  intros H. unfold Main.main. rewrite H. split; [reflexivity|].
  unfold FriendsParser.parse, Paginator.get_all_friends in H.
  apply get_all_friends_loop_requests in H as (_ & _ & _ & Hw).
  destruct Hw as (_ & _ & _ & Hf & Hl). auto.
Qed.

Lemma main_stops_on_fetch_error_witness :
  Main.main 1 (Main.mk_args 1 "token" "csv" "report")
    (quiet_world
       (fun _ _ _ => Raise (mk_exn ConnectionError "Connection refused")))
  = Some (Raise (mk_exn Exception
                   "Error occurred while requesting friends list: Connection refused"),
          record_request
            (quiet_world
               (fun _ _ _ =>
                  Raise (mk_exn ConnectionError "Connection refused")))
            (page_request (Paginator.init 1 "token") 0)).
Proof.
  destruct (main_stops_on_fetch_error
              (Main.mk_args 1 "token" "csv" "report") 1
              (quiet_world
                 (fun _ _ _ =>
                    Raise (mk_exn ConnectionError "Connection refused")))
              (record_request
                 (quiet_world
                    (fun _ _ _ =>
                       Raise (mk_exn ConnectionError "Connection refused")))
                 (page_request (Paginator.init 1 "token") 0))
              (mk_exn Exception
                 "Error occurred while requesting friends list: Connection refused")
              eq_refl) as (H & _).
  exact H.
Defined.
